(** * Library Run: the NPC patrol/attack state machines

    A shallow embedding of [js/sprites/OldMan.js] and [js/sprites/Bully.js]
    (the two patrolling enemies) together with the part of the scene they
    talk to: the camera, the player reference, the scene clock
    ([scene.time.delayedCall] / [scene.time.addEvent]) and the projectiles and
    hazards they create.

    Conventions.
    - Coordinates, velocities and durations are JavaScript numbers; they are
      modelled as whole numbers in [Z] (pixels, pixels per second,
      milliseconds), and the physics step rounds down to a whole pixel.
    - A method is a computation in a state-and-exception monad over the world
      (the sprite plus the scene objects it touches).  An uncaught
      [TypeError] (dereferencing [this.scene] or [this.body] of a destroyed
      sprite) keeps the mutations made so far, as in JavaScript.
    - Phaser's [destroy()] is taken to clear [active], [visible], [body] and
      [scene] of the sprite, which is what the guards
      [!this.active || !this.body] and [!this.scene] of [Bully] test.
    - Text bubbles and tweens are rendering effects; they are kept only as
      accesses to [this.scene].  The overlap callbacks
      ([onNewspaperHitPlayer], [onBubbleHitPlayer]) only prune the list of
      tracked projectiles and are left out.
    - [Phaser.Math.Between] and [Math.random] read an environment supplied
      with every event.
    - A timer fires at its due time; frames fall in between.  The step
      function lets any pending timer fire at any moment; [chronological]
      singles out the runs in which they fire in due order. *)

From Stdlib Require Import ZArith List Bool Lia QArith.
Import ListNotations.
Open Scope Z_scope.

Set Implicit Arguments.

(** ** State and exception monad *)

Inductive Res (S A : Type) : Type :=
| Ok (a : A) (s : S)
| Throw (s : S).

Arguments Ok {S A} a s.
Arguments Throw {S A} s.

Definition M (S A : Type) : Type := S -> Res S A.

Definition ret {S A} (a : A) : M S A := fun s => Ok a s.

Definition bind {S A B} (m : M S A) (k : A -> M S B) : M S B :=
  fun s => match m s with
           | Ok a s' => k a s'
           | Throw s' => Throw s'
           end.

Definition gets {S A} (f : S -> A) : M S A := fun s => Ok (f s) s.
Definition modify {S} (f : S -> S) : M S unit := fun s => Ok tt (f s).
Definition throwTypeError {S A} : M S A := fun s => Throw s.

Declare Scope js_scope.
Delimit Scope js_scope with js.
Notation "x <- m ;; k" := (bind m (fun x => k))
  (at level 61, m at next level, right associativity) : js_scope.
Notation "m ;; k" := (bind m (fun _ => k))
  (at level 61, right associativity) : js_scope.
Open Scope js_scope.

(** [if (c) { m }] *)
Definition when {S} (c : bool) (m : M S unit) : M S unit :=
  if c then m else ret tt.

(** The world left behind by a computation, whether it returned or threw. *)
Definition final {S A} (r : Res S A) : S :=
  match r with Ok _ s => s | Throw s => s end.

Definition threw {S A} (r : Res S A) : bool :=
  match r with Ok _ _ => false | Throw _ => true end.

(** ** Environment read by the NPCs *)

(** [scene.cameras.main]: only [scrollX] and [width] are read.  Coordinates
    are integers here, on which the sums and comparisons of the classes are
    exact; JavaScript computes them in binary64, and module [Binary64] below
    has the exit test on such numbers. *)
Record Camera : Type := { scrollX : Z; width : Z }.

Record Env : Type := {
  camera : Camera;
  student : option Z;   (* [scene.student]: the player's x, when present *)
  rnd : Z;              (* source of [Phaser.Math.Between] *)
  random : Q            (* value returned by [Math.random()] *)
}.

(** [Phaser.Math.Between(min, max)]: a whole number in [min..max]. *)
Definition Between (e : Env) (lo hi : Z) : Z := lo + rnd e mod (hi - lo + 1).

(** [Math.random() < c] *)
Definition random_lt (e : Env) (c : Q) : bool := negb (Qle_bool c (random e)).

(** The camera scrolled by [d], and the environment seen through it. *)
Definition shift (d : Z) (c : Camera) : Camera :=
  {| scrollX := scrollX c + d; width := width c |}.

Definition shiftEnv (d : Z) (e : Env) : Env :=
  {| camera := shift d (camera e); student := student e; rnd := rnd e;
     random := random e |}.

(** World coordinate [wx] lies in the visible region of the camera. *)
Definition in_view (c : Camera) (wx : Z) : bool :=
  (scrollX c <=? wx) && (wx <=? scrollX c + width c).

(** ** The scene clock

    [scene.time] keeps the timer events that have been scheduled and not yet
    removed.  A handle is the identifier of the event. *)

Section Clock.
Variable Callback : Type.

Record TimerEvent : Type := {
  tid : nat;
  delay : Z;
  loop : bool;
  due : Z;
  callback : Callback
}.

Record Clock : Type := {
  now : Z;
  next_id : nat;
  pending : list TimerEvent
}.

Definition emptyClock : Clock := {| now := 0; next_id := 0; pending := [] |}.

(** [time.delayedCall(delay, cb)] (one shot) and
    [time.addEvent({delay, callback, loop: true})]; both return the event. *)
Definition schedule (d : Z) (lp : bool) (cb : Callback) (c : Clock) : nat * Clock :=
  (next_id c,
   {| now := now c;
      next_id := S (next_id c);
      pending := pending c ++ [{| tid := next_id c; delay := d; loop := lp;
                                  due := now c + d; callback := cb |}] |}).

(** [timer.remove()] *)
Definition remove (h : nat) (c : Clock) : Clock :=
  {| now := now c;
     next_id := next_id c;
     pending := filter (fun t => negb (Nat.eqb (tid t) h)) (pending c) |}.

Definition lookup (h : nat) (c : Clock) : option TimerEvent :=
  find (fun t => Nat.eqb (tid t) h) (pending c).

Definition handles (c : Clock) : list nat := map tid (pending c).

(** The clock reaches the due time of [t] and dispatches it: a one-shot
    event leaves the clock, a looping one is re-armed. *)
Definition rearm (t : TimerEvent) : TimerEvent :=
  {| tid := tid t; delay := delay t; loop := loop t;
     due := due t + delay t; callback := callback t |}.

Definition dispatch (t : TimerEvent) (c : Clock) : Clock :=
  {| now := Z.max (now c) (due t);
     next_id := next_id c;
     pending :=
       if loop t
       then map (fun u => if Nat.eqb (tid u) (tid t) then rearm u else u) (pending c)
       else filter (fun u => negb (Nat.eqb (tid u) (tid t))) (pending c) |}.

Definition elapse (dt : Z) (c : Clock) : Clock :=
  {| now := now c + dt; next_id := next_id c; pending := pending c |}.

(** [t] is the next event to fire: nothing pending is due before it. *)
Definition earliest (t : TimerEvent) (c : Clock) : bool :=
  forallb (fun u => due t <=? due u) (pending c).

(** No pending event is due at or before time [T]. *)
Definition quiet_until (T : Z) (c : Clock) : bool :=
  forallb (fun u => T <? due u) (pending c).
End Clock.

(** ** Camera-frame geometry, as the specification words it

    The classes inline this arithmetic; the three functions of this module
    follow section 4.2 of the specification and are what the inlined code is
    compared with. *)

Inductive Side : Type := Left | Right.

Module CameraFrameSpec.

Definition SPAWN_OFFSET : Z := 100.

Definition spawnX (frame : Camera) (side : Side) : Z :=
  match side with
  | Right => scrollX frame + width frame + SPAWN_OFFSET
  | Left => scrollX frame - SPAWN_OFFSET
  end.

Definition hasExitedLeft (frame : Camera) (x buffer : Z) : bool :=
  x <? scrollX frame - buffer.

Definition hasExitedRight (frame : Camera) (x buffer : Z) : bool :=
  x >? scrollX frame + width frame + buffer.

End CameraFrameSpec.

(** ** [class OldMan] (js/sprites/OldMan.js) *)

Module OldMan.

Definition THROW_INTERVAL : Z := 2500.
Definition PATROL_SPEED : Z := 60.
Definition SPAWN_OFFSET : Z := 100.
Definition SCREEN_LEFT : Z := -80.
Definition SCREEN_RIGHT : Z := 880.
Definition PATROL_TIME_MIN : Z := 8000.
Definition PATROL_TIME_MAX : Z := 12000.
Definition BACKPAIN_TIME_MIN : Z := 6000.
Definition BACKPAIN_TIME_MAX : Z := 10000.
Definition SQUIRREL_DELAY : Z := 1000.
Definition REENTRY_TIME_MIN : Z := 5000.
Definition REENTRY_TIME_MAX : Z := 8000.
Definition MAX_BACKPAIN_PER_PATROL : Z := 1.

(** [this.currentState] *)
Inductive PatrolState : Type := entering | patrolling | backpain | exiting | waiting.

Definition state_eqb (a b : PatrolState) : bool :=
  match a, b with
  | entering, entering | patrolling, patrolling | backpain, backpain
  | exiting, exiting | waiting, waiting => true
  | _, _ => false
  end.

(** [new Newspaper(scene, x, y, targetX)] *)
Record Newspaper : Type := { paperX : Z; paperY : Z; targetX : Z }.

(** The closures handed to the scene clock. *)
Inductive Callback : Type :=
| CbConstructor      (* constructor: [() => this.startEntering()] *)
| CbEnterTransit     (* startEntering: position, show and start walking *)
| CbStartPatrolling  (* startEntering, inner: [() => this.startPatrolling()] *)
| CbThrow            (* startThrowingTimer: [this.tryToThrowNewspaper] *)
| CbPhase            (* startPatrolling: [() => this.startBackPain()] *)
| CbSquirrel         (* startBackPain: spawn the squirrel if still in pain *)
| CbRecover          (* startBackPain: [() => this.recoverFromBackPain()] *)
| CbReentry.         (* startWaiting: [() => this.prepareReentry()] *)

Record Sprite : Type := {
  x : Z;
  y : Z;
  groundY : Z;   (* const *)
  visible : bool;
  active : bool;
  body : bool;   (* [this.body] is defined *)
  scene : bool;   (* [this.scene] is defined *)
  flipX : bool;
  velocityX : Z;   (* [body.velocity.x] *)
  currentState : PatrolState;
  patrolDirection : Z;
  backPainCount : Z;
  backPainThisPatrol : Z;
  firstWarningShown : bool;
  throwTimer : option nat;
  phaseTimer : option nat;
  newspapers : list Newspaper;
  debugCounter : Z
}.

Definition set_x (v : Z) (o : Sprite) : Sprite :=
  {| x := v; y := y o; groundY := groundY o; visible := visible o; active := active o;
     body := body o; scene := scene o; flipX := flipX o; velocityX := velocityX o;
     currentState := currentState o; patrolDirection := patrolDirection o;
     backPainCount := backPainCount o; backPainThisPatrol := backPainThisPatrol o;
     firstWarningShown := firstWarningShown o; throwTimer := throwTimer o;
     phaseTimer := phaseTimer o; newspapers := newspapers o;
     debugCounter := debugCounter o |}.
Definition set_y (v : Z) (o : Sprite) : Sprite :=
  {| x := x o; y := v; groundY := groundY o; visible := visible o; active := active o;
     body := body o; scene := scene o; flipX := flipX o; velocityX := velocityX o;
     currentState := currentState o; patrolDirection := patrolDirection o;
     backPainCount := backPainCount o; backPainThisPatrol := backPainThisPatrol o;
     firstWarningShown := firstWarningShown o; throwTimer := throwTimer o;
     phaseTimer := phaseTimer o; newspapers := newspapers o;
     debugCounter := debugCounter o |}.
Definition set_visible (v : bool) (o : Sprite) : Sprite :=
  {| x := x o; y := y o; groundY := groundY o; visible := v; active := active o;
     body := body o; scene := scene o; flipX := flipX o; velocityX := velocityX o;
     currentState := currentState o; patrolDirection := patrolDirection o;
     backPainCount := backPainCount o; backPainThisPatrol := backPainThisPatrol o;
     firstWarningShown := firstWarningShown o; throwTimer := throwTimer o;
     phaseTimer := phaseTimer o; newspapers := newspapers o;
     debugCounter := debugCounter o |}.
Definition set_active (v : bool) (o : Sprite) : Sprite :=
  {| x := x o; y := y o; groundY := groundY o; visible := visible o; active := v;
     body := body o; scene := scene o; flipX := flipX o; velocityX := velocityX o;
     currentState := currentState o; patrolDirection := patrolDirection o;
     backPainCount := backPainCount o; backPainThisPatrol := backPainThisPatrol o;
     firstWarningShown := firstWarningShown o; throwTimer := throwTimer o;
     phaseTimer := phaseTimer o; newspapers := newspapers o;
     debugCounter := debugCounter o |}.
Definition set_body (v : bool) (o : Sprite) : Sprite :=
  {| x := x o; y := y o; groundY := groundY o; visible := visible o;
     active := active o; body := v; scene := scene o; flipX := flipX o;
     velocityX := velocityX o; currentState := currentState o;
     patrolDirection := patrolDirection o; backPainCount := backPainCount o;
     backPainThisPatrol := backPainThisPatrol o;
     firstWarningShown := firstWarningShown o; throwTimer := throwTimer o;
     phaseTimer := phaseTimer o; newspapers := newspapers o;
     debugCounter := debugCounter o |}.
Definition set_scene (v : bool) (o : Sprite) : Sprite :=
  {| x := x o; y := y o; groundY := groundY o; visible := visible o;
     active := active o; body := body o; scene := v; flipX := flipX o;
     velocityX := velocityX o; currentState := currentState o;
     patrolDirection := patrolDirection o; backPainCount := backPainCount o;
     backPainThisPatrol := backPainThisPatrol o;
     firstWarningShown := firstWarningShown o; throwTimer := throwTimer o;
     phaseTimer := phaseTimer o; newspapers := newspapers o;
     debugCounter := debugCounter o |}.
Definition set_flipX (v : bool) (o : Sprite) : Sprite :=
  {| x := x o; y := y o; groundY := groundY o; visible := visible o;
     active := active o; body := body o; scene := scene o; flipX := v;
     velocityX := velocityX o; currentState := currentState o;
     patrolDirection := patrolDirection o; backPainCount := backPainCount o;
     backPainThisPatrol := backPainThisPatrol o;
     firstWarningShown := firstWarningShown o; throwTimer := throwTimer o;
     phaseTimer := phaseTimer o; newspapers := newspapers o;
     debugCounter := debugCounter o |}.
Definition set_velocityX (v : Z) (o : Sprite) : Sprite :=
  {| x := x o; y := y o; groundY := groundY o; visible := visible o;
     active := active o; body := body o; scene := scene o; flipX := flipX o;
     velocityX := v; currentState := currentState o;
     patrolDirection := patrolDirection o; backPainCount := backPainCount o;
     backPainThisPatrol := backPainThisPatrol o;
     firstWarningShown := firstWarningShown o; throwTimer := throwTimer o;
     phaseTimer := phaseTimer o; newspapers := newspapers o;
     debugCounter := debugCounter o |}.
Definition set_currentState (v : PatrolState) (o : Sprite) : Sprite :=
  {| x := x o; y := y o; groundY := groundY o; visible := visible o;
     active := active o; body := body o; scene := scene o; flipX := flipX o;
     velocityX := velocityX o; currentState := v; patrolDirection := patrolDirection o;
     backPainCount := backPainCount o; backPainThisPatrol := backPainThisPatrol o;
     firstWarningShown := firstWarningShown o; throwTimer := throwTimer o;
     phaseTimer := phaseTimer o; newspapers := newspapers o;
     debugCounter := debugCounter o |}.
Definition set_patrolDirection (v : Z) (o : Sprite) : Sprite :=
  {| x := x o; y := y o; groundY := groundY o; visible := visible o;
     active := active o; body := body o; scene := scene o; flipX := flipX o;
     velocityX := velocityX o; currentState := currentState o; patrolDirection := v;
     backPainCount := backPainCount o; backPainThisPatrol := backPainThisPatrol o;
     firstWarningShown := firstWarningShown o; throwTimer := throwTimer o;
     phaseTimer := phaseTimer o; newspapers := newspapers o;
     debugCounter := debugCounter o |}.
Definition set_backPainCount (v : Z) (o : Sprite) : Sprite :=
  {| x := x o; y := y o; groundY := groundY o; visible := visible o;
     active := active o; body := body o; scene := scene o; flipX := flipX o;
     velocityX := velocityX o; currentState := currentState o;
     patrolDirection := patrolDirection o; backPainCount := v;
     backPainThisPatrol := backPainThisPatrol o;
     firstWarningShown := firstWarningShown o; throwTimer := throwTimer o;
     phaseTimer := phaseTimer o; newspapers := newspapers o;
     debugCounter := debugCounter o |}.
Definition set_backPainThisPatrol (v : Z) (o : Sprite) : Sprite :=
  {| x := x o; y := y o; groundY := groundY o; visible := visible o;
     active := active o; body := body o; scene := scene o; flipX := flipX o;
     velocityX := velocityX o; currentState := currentState o;
     patrolDirection := patrolDirection o; backPainCount := backPainCount o;
     backPainThisPatrol := v; firstWarningShown := firstWarningShown o;
     throwTimer := throwTimer o; phaseTimer := phaseTimer o;
     newspapers := newspapers o; debugCounter := debugCounter o |}.
Definition set_firstWarningShown (v : bool) (o : Sprite) : Sprite :=
  {| x := x o; y := y o; groundY := groundY o; visible := visible o;
     active := active o; body := body o; scene := scene o; flipX := flipX o;
     velocityX := velocityX o; currentState := currentState o;
     patrolDirection := patrolDirection o; backPainCount := backPainCount o;
     backPainThisPatrol := backPainThisPatrol o; firstWarningShown := v;
     throwTimer := throwTimer o; phaseTimer := phaseTimer o;
     newspapers := newspapers o; debugCounter := debugCounter o |}.
Definition set_throwTimer (v : option nat) (o : Sprite) : Sprite :=
  {| x := x o; y := y o; groundY := groundY o; visible := visible o;
     active := active o; body := body o; scene := scene o; flipX := flipX o;
     velocityX := velocityX o; currentState := currentState o;
     patrolDirection := patrolDirection o; backPainCount := backPainCount o;
     backPainThisPatrol := backPainThisPatrol o;
     firstWarningShown := firstWarningShown o; throwTimer := v;
     phaseTimer := phaseTimer o; newspapers := newspapers o;
     debugCounter := debugCounter o |}.
Definition set_phaseTimer (v : option nat) (o : Sprite) : Sprite :=
  {| x := x o; y := y o; groundY := groundY o; visible := visible o;
     active := active o; body := body o; scene := scene o; flipX := flipX o;
     velocityX := velocityX o; currentState := currentState o;
     patrolDirection := patrolDirection o; backPainCount := backPainCount o;
     backPainThisPatrol := backPainThisPatrol o;
     firstWarningShown := firstWarningShown o; throwTimer := throwTimer o;
     phaseTimer := v; newspapers := newspapers o; debugCounter := debugCounter o |}.
Definition set_newspapers (v : list Newspaper) (o : Sprite) : Sprite :=
  {| x := x o; y := y o; groundY := groundY o; visible := visible o;
     active := active o; body := body o; scene := scene o; flipX := flipX o;
     velocityX := velocityX o; currentState := currentState o;
     patrolDirection := patrolDirection o; backPainCount := backPainCount o;
     backPainThisPatrol := backPainThisPatrol o;
     firstWarningShown := firstWarningShown o; throwTimer := throwTimer o;
     phaseTimer := phaseTimer o; newspapers := v; debugCounter := debugCounter o |}.
Definition set_debugCounter (v : Z) (o : Sprite) : Sprite :=
  {| x := x o; y := y o; groundY := groundY o; visible := visible o;
     active := active o; body := body o; scene := scene o; flipX := flipX o;
     velocityX := velocityX o; currentState := currentState o;
     patrolDirection := patrolDirection o; backPainCount := backPainCount o;
     backPainThisPatrol := backPainThisPatrol o;
     firstWarningShown := firstWarningShown o; throwTimer := throwTimer o;
     phaseTimer := phaseTimer o; newspapers := newspapers o; debugCounter := v |}.

(** The sprite together with the scene objects it reaches through
    [this.scene]. *)
Record World : Type := {
  self : Sprite;              (* the NPC, [this] *)
  time : Clock Callback;      (* [scene.time] *)
  created : list Newspaper;   (* every [new Newspaper(...)], oldest first *)
  squirrels : list (Z * Z);   (* every [new Squirrel(scene, x, y)] *)
  uncaught : nat              (* exceptions that escaped into the game loop *)
}.

Definition set_self (v : Sprite) (w : World) : World :=
  {| self := v; time := time w; created := created w; squirrels := squirrels w;
     uncaught := uncaught w |}.
Definition set_time (v : Clock Callback) (w : World) : World :=
  {| self := self w; time := v; created := created w; squirrels := squirrels w;
     uncaught := uncaught w |}.
Definition set_created (v : list Newspaper) (w : World) : World :=
  {| self := self w; time := time w; created := v; squirrels := squirrels w;
     uncaught := uncaught w |}.
Definition set_squirrels (v : list (Z * Z)) (w : World) : World :=
  {| self := self w; time := time w; created := created w; squirrels := v;
     uncaught := uncaught w |}.
Definition set_uncaught (v : nat) (w : World) : World :=
  {| self := self w; time := time w; created := created w; squirrels := squirrels w;
     uncaught := v |}.

Definition JS (A : Type) : Type := M World A.

(** Reading and assigning a field of [this]. *)
Definition this {A} (f : Sprite -> A) : JS A := gets (fun w => f (self w)).
Definition assign (f : Sprite -> Sprite) : JS unit :=
  modify (fun w => set_self (f (self w)) w).

(** Dereferencing [this.scene] / [this.body]: a [TypeError] once the sprite
    has been destroyed. *)
Definition the_scene : JS unit :=
  fun w => if scene (self w) then Ok tt w else Throw w.
Definition the_body : JS unit :=
  fun w => if body (self w) then Ok tt w else Throw w.

Definition delayedCall (d : Z) (cb : Callback) : JS nat :=
  the_scene ;;
  fun w => let (h, c) := schedule d false cb (time w) in Ok h (set_time c w).

Definition addEvent (d : Z) (cb : Callback) : JS nat :=
  the_scene ;;
  fun w => let (h, c) := schedule d true cb (time w) in Ok h (set_time c w).

Definition timer_remove (h : nat) : JS unit :=
  modify (fun w => set_time (remove h (time w)) w).

Definition setVisible (b : bool) : JS unit := assign (set_visible b).
Definition setActive (b : bool) : JS unit := assign (set_active b).
Definition setFlipX (b : bool) : JS unit := assign (set_flipX b).
Definition setVelocityX (v : Z) : JS unit := the_body ;; assign (set_velocityX v).

(** [this.scene.add.text(...)] and [this.scene.tweens.add(...)]: drawing
    only. *)
Definition draw : JS unit := the_scene.

(** [constructor(scene, x, y)].  [clk] is the clock of the scene the sprite
    is added to; the argument [x] is not used by the class. *)
Definition constructor (clk : Clock Callback) (xarg yarg : Z) : World :=
  let o := {| x := SCREEN_RIGHT + SPAWN_OFFSET; y := yarg; groundY := yarg;
              visible := true; active := true; body := true; scene := true;
              flipX := true;                  (* setupOldMan *)
              velocityX := 0;
              currentState := waiting;
              patrolDirection := -1;
              backPainCount := 0;
              backPainThisPatrol := 0;
              firstWarningShown := false;
              throwTimer := None; phaseTimer := None;
              newspapers := [];
              debugCounter := 0 |} in
  let (_, c) := schedule 2000 false CbConstructor clk in
  {| self := o; time := c; created := []; squirrels := []; uncaught := 0 |}.

Definition startWalkAnimation : JS unit :=
  the_scene ;;   (* tweens.killTweensOf(this) *)
  draw.          (* this.walkTween = tweens.add(...) *)

Definition stopWalkAnimation : JS unit :=
  gy <- this groundY ;;
  assign (set_y gy).

Definition startThrowingTimer : JS unit :=
  h <- addEvent THROW_INTERVAL CbThrow ;;
  assign (set_throwTimer (Some h)).

Definition stopThrowingTimer : JS unit :=
  t <- this throwTimer ;;
  match t with
  | Some h => timer_remove h ;; assign (set_throwTimer None)
  | None => ret tt
  end.

Definition showEntryWarning : JS unit :=
  draw ;;
  shown <- this firstWarningShown ;;
  when (negb shown) (assign (set_firstWarningShown true) ;; draw).

Definition showEntranceMessage : JS unit := draw.
Definition showGrumpyMessage : JS unit := draw.
Definition showBackPainMessage : JS unit := draw.
Definition playBackPainAnimation : JS unit := draw.
Definition showRecoveryMessage : JS unit := draw.
Definition showExitMessage : JS unit := draw.
Definition playThrowAnimation : JS unit := draw.

Definition startEntering : JS unit :=
  assign (set_currentState entering) ;;
  assign (set_backPainThisPatrol 0) ;;
  showEntryWarning ;;
  _ <- delayedCall 1000 CbEnterTransit ;;
  ret tt.

(** The closure scheduled by [startEntering]. *)
Definition enterTransit (e : Env) : JS unit :=
  the_scene ;;
  let cam := camera e in
  dir <- this patrolDirection ;;
  (if dir =? -1
   then assign (set_x (scrollX cam + width cam + SPAWN_OFFSET))
   else assign (set_x (scrollX cam - SPAWN_OFFSET))) ;;
  gy <- this groundY ;;
  assign (set_y gy) ;;
  setVisible true ;;
  setActive true ;;
  setFlipX (dir =? -1) ;;
  setVelocityX (dir * PATROL_SPEED) ;;
  startWalkAnimation ;;
  showEntranceMessage ;;
  _ <- delayedCall 1500 CbStartPatrolling ;;
  ret tt.

Definition startPatrolling (e : Env) : JS unit :=
  assign (set_currentState patrolling) ;;
  startThrowingTimer ;;
  let patrolDuration := Between e PATROL_TIME_MIN PATROL_TIME_MAX in
  h <- delayedCall patrolDuration CbPhase ;;
  assign (set_phaseTimer (Some h)).

Definition spawnSquirrel : JS unit :=
  the_scene ;;
  modify (fun w => set_squirrels (squirrels w ++ [(850, 555)]) w) ;;
  n <- this backPainCount ;;
  when (n =? 1) draw.

(** The closure scheduled by [startBackPain] after [SQUIRREL_DELAY]. *)
Definition squirrelDue : JS unit :=
  st <- this currentState ;;
  when (state_eqb st backpain) spawnSquirrel.

Definition startBackPain (e : Env) : JS unit :=
  n <- this backPainThisPatrol ;;
  if n >=? MAX_BACKPAIN_PER_PATROL then ret tt
  else
    assign (set_currentState backpain) ;;
    assign (fun o => set_backPainCount (backPainCount o + 1) o) ;;
    assign (fun o => set_backPainThisPatrol (backPainThisPatrol o + 1) o) ;;
    setVelocityX 0 ;;
    stopWalkAnimation ;;
    stopThrowingTimer ;;
    showBackPainMessage ;;
    playBackPainAnimation ;;
    _ <- delayedCall SQUIRREL_DELAY CbSquirrel ;;
    let recoveryTime := Between e BACKPAIN_TIME_MIN BACKPAIN_TIME_MAX in
    _ <- delayedCall recoveryTime CbRecover ;;
    ret tt.

Definition recoverFromBackPain : JS unit :=
  showRecoveryMessage ;;
  draw ;;
  dir <- this patrolDirection ;;
  setVelocityX (dir * PATROL_SPEED) ;;
  startWalkAnimation ;;
  assign (set_currentState patrolling).

Definition startExiting : JS unit :=
  assign (set_currentState exiting) ;;
  stopThrowingTimer ;;
  p <- this phaseTimer ;;
  match p with Some h => timer_remove h | None => ret tt end ;;
  showExitMessage.

Definition startWaiting (e : Env) : JS unit :=
  assign (set_currentState waiting) ;;
  setVelocityX 0 ;;
  stopWalkAnimation ;;
  setVisible false ;;
  let waitTime := Between e REENTRY_TIME_MIN REENTRY_TIME_MAX in
  _ <- delayedCall waitTime CbReentry ;;
  ret tt.

Definition prepareReentry (e : Env) : JS unit :=
  let enterFromRight := random_lt e (8 # 10) in
  the_scene ;;
  let cam := camera e in
  (if enterFromRight
   then assign (set_x (scrollX cam + width cam + SPAWN_OFFSET)) ;;
        assign (set_patrolDirection (-1)) ;;
        setFlipX true
   else assign (set_x (scrollX cam - SPAWN_OFFSET)) ;;
        assign (set_patrolDirection 1) ;;
        setFlipX false) ;;
  startEntering.

(** The locals of [update]. *)
Definition cameraLeft (cam : Camera) : Z := scrollX cam - 100.
Definition cameraRight (cam : Camera) : Z := scrollX cam + width cam + 100.
Definition exitedLeft (cam : Camera) (dir xx : Z) : bool :=
  (dir =? -1) && (xx <? cameraLeft cam).
Definition exitedRight (cam : Camera) (dir xx : Z) : bool :=
  (dir =? 1) && (xx >? cameraRight cam).

(** [update(player)]; [player] is the player's x, [None] when the argument is
    missing. *)
Definition update (player : option Z) (e : Env) : JS unit :=
  act <- this active ;;
  match player with
  | None => ret tt
  | Some px =>
    if negb act then ret tt
    else
      assign (fun o => set_debugCounter (debugCounter o + 1) o) ;;
      st <- this currentState ;;
      dir <- this patrolDirection ;;
      xx <- this x ;;
      (if state_eqb st patrolling || state_eqb st entering
       then setFlipX (dir =? -1)
       else when (state_eqb st backpain) (setFlipX (px <? xx))) ;;
      when (state_eqb st patrolling || state_eqb st exiting)
        (the_scene ;;
         when (exitedLeft (camera e) dir xx || exitedRight (camera e) dir xx)
           (startWaiting e))
  end.

Definition throwNewspaper (e : Env) (px : Z) : JS unit :=
  playThrowAnimation ;;
  fx <- this flipX ;;
  xx <- this x ;;
  yy <- this y ;;
  let throwX := if fx then xx - 20 else xx + 20 in
  let throwY := yy - 20 in
  let newspaper := {| paperX := throwX; paperY := throwY; targetX := px |} in
  the_scene ;;
  modify (fun w => set_created (created w ++ [newspaper]) w) ;;
  assign (fun o => set_newspapers (newspapers o ++ [newspaper]) o) ;;
  the_scene ;;   (* physics.add.overlap *)
  when (random_lt e (25 # 100)) showGrumpyMessage.

Definition tryToThrowNewspaper (e : Env) : JS unit :=
  st <- this currentState ;;
  if negb (state_eqb st patrolling) then ret tt
  else
    the_scene ;;
    match student e with
    | None => ret tt
    | Some px => throwNewspaper e px
    end.

(** Phaser's [GameObject.destroy()]: the sprite leaves the scene and loses
    its body and its scene reference. *)
Definition destroy : JS unit :=
  sc <- this scene ;;
  when sc
    (assign (set_body false) ;;
     assign (set_active false) ;;
     assign (set_visible false) ;;
     assign (set_scene false)).

Definition cleanup : JS unit :=
  stopThrowingTimer ;;
  p <- this phaseTimer ;;
  match p with Some h => timer_remove h | None => ret tt end ;;
  the_scene ;;   (* tweens.killTweensOf(this) *)
  assign (set_newspapers []) ;;
  destroy.

(** What each closure does when the clock calls it. *)
Definition run_callback (cb : Callback) (e : Env) : JS unit :=
  match cb with
  | CbConstructor => startEntering
  | CbEnterTransit => enterTransit e
  | CbStartPatrolling => startPatrolling e
  | CbThrow => tryToThrowNewspaper e
  | CbPhase => startBackPain e
  | CbSquirrel => squirrelDue
  | CbRecover => recoverFromBackPain
  | CbReentry => prepareReentry e
  end.

(** *** The game loop around the sprite *)

(** An exception that escapes a callback is the game loop's problem; the
    world keeps what the callback had done. *)
Definition settle (r : Res World unit) : World :=
  match r with
  | Ok _ w => w
  | Throw w => set_uncaught (S (uncaught w)) w
  end.

(** Arcade physics: a body moves its sprite by [velocity * dt]. *)
Definition physics (dt : Z) (w : World) : World :=
  if body (self w)
  then set_self (set_x (x (self w) + velocityX (self w) * dt / 1000) (self w)) w
  else w.

Inductive Event : Type :=
| EvTimer (h : nat) (e : Env)                    (* the clock fires event [h] *)
| EvFrame (dt : Z) (player : option Z) (e : Env) (* [dt] ms pass, then [update(player)] *)
| EvCleanup                                      (* the owner calls [cleanup()] *)
| EvInvoke (cb : Callback) (e : Env).            (* a closure called out of turn *)

Definition step (w : World) (ev : Event) : World :=
  match ev with
  | EvTimer h e =>
      match lookup h (time w) with
      | None => w
      | Some t =>
          let w1 := physics (Z.max 0 (due t - now (time w))) w in
          let w2 := set_time (dispatch t (time w1)) w1 in
          settle (run_callback (callback t) e w2)
      end
  | EvFrame dt player e =>
      let w1 := physics dt w in
      let w2 := set_time (elapse dt (time w1)) w1 in
      settle (update player e w2)
  | EvCleanup => settle (cleanup w)
  | EvInvoke cb e => settle (run_callback cb e w)
  end.

Definition run (w : World) (evs : list Event) : World := fold_left step evs w.

(** A run is chronological when every timer fires in due order, frames never
    skip a due timer, and nothing is called out of turn. *)
Fixpoint chronological (w : World) (evs : list Event) : bool :=
  match evs with
  | [] => true
  | ev :: rest =>
      match ev with
      | EvTimer h _ =>
          match lookup h (time w) with
          | Some t => earliest t (time w)
          | None => false
          end
      | EvFrame dt _ _ => (0 <=? dt) && quiet_until (now (time w) + dt) (time w)
      | EvCleanup => true
      | EvInvoke _ _ => false
      end && chronological (step w ev) rest
  end.

(** *** Observations used in the statements *)

(** The sprite carried along by [d] pixels. *)
Definition moved (d : Z) (w : World) : World :=
  set_self (set_x (x (self w) + d) (self w)) w.

(** Number of projectiles spawned so far. *)
Definition spawned (w : World) : Z := Z.of_nat (length (created w)).

(** The closures that call [startEntering]: a traversal is what happens
    between two of them. *)
Definition is_entry (cb : Callback) : bool :=
  match cb with
  | CbConstructor | CbReentry => true
  | _ => false
  end.

Definition enters (w : World) (ev : Event) : bool :=
  match ev with
  | EvTimer h _ =>
      match lookup h (time w) with
      | Some t => is_entry (callback t)
      | None => false
      end
  | EvInvoke cb _ => is_entry cb
  | _ => false
  end.

Fixpoint same_traversal (w : World) (evs : list Event) : bool :=
  match evs with
  | [] => true
  | ev :: rest => negb (enters w ev) && same_traversal (step w ev) rest
  end.

(** Back pains taken before the current traversal: [startBackPain] bumps both
    counters, [startEntering] clears the per-patrol one. *)
Definition slack (w : World) : Z :=
  backPainCount (self w) - backPainThisPatrol (self w).

(** The closures waiting in the clock. *)
Definition waiting_callbacks (w : World) : list Callback :=
  map (@callback Callback) (pending (time w)).

(** The closures from which a newspaper can still come: the throw timer
    itself and the two steps of an entry that lead to it. *)
Definition arms_attack (cb : Callback) : bool :=
  match cb with
  | CbThrow | CbStartPatrolling | CbEnterTransit => true
  | _ => false
  end.

Definition attack_free (w : World) : bool :=
  forallb (fun cb => negb (arms_attack cb)) (waiting_callbacks w).

(** Events the game loop itself produces (nothing called out of turn). *)
Definition natural (ev : Event) : bool :=
  match ev with
  | EvInvoke _ _ => false
  | _ => true
  end.

End OldMan.


(** ** Clocks that hold one-shot events only

    Handles are distinct and below [next_id], and every pending event is a
    [delayedCall]. *)

Definition tidy {Callback : Type} (c : Clock Callback) : Prop :=
  NoDup (handles c) /\
  Forall (fun t => (tid t < next_id c)%nat /\ loop t = false) (pending c).
(** ** [class Bully] (js/sprites/Bully.js) *)

Module Bully.

Definition THROW_INTERVAL : Z := 2000.
Definition PATROL_SPEED : Z := 100.
Definition MAX_THROWS : Z := 4.
Definition SCREEN_LEFT : Z := -80.
Definition SCREEN_RIGHT : Z := 880.
Definition SPAWN_OFFSET : Z := 100.
Definition REENTRY_TIME_MIN : Z := 4000.
Definition REENTRY_TIME_MAX : Z := 7000.

(** [this.currentState] *)
Inductive PatrolState : Type := entering | charging | exiting | waiting.

Definition state_eqb (a b : PatrolState) : bool :=
  match a, b with
  | entering, entering | charging, charging
  | exiting, exiting | waiting, waiting => true
  | _, _ => false
  end.

(** [new WordBubble(scene, x, y)] *)
Record WordBubble : Type := { bubbleX : Z; bubbleY : Z }.

(** The closures handed to the scene clock. *)
Inductive Callback : Type :=
| CbEntry                    (* constructor: guarded [this.startEntering()] *)
| CbEnter (fromRight : bool) (* startEntering: position, show and charge *)
| CbCharge                   (* startEntering, inner: guarded [this.startCharging()] *)
| CbThrow                    (* startThrowingTimer: [this.tryToThrow] *)
| CbReentry.                 (* startWaiting: guarded [this.prepareReentry()] *)

Record Sprite : Type := {
  x : Z;
  y : Z;
  groundY : Z;   (* const *)
  visible : bool;
  active : bool;
  body : bool;   (* [this.body] is defined *)
  scene : bool;   (* [this.scene] is defined *)
  flipX : bool;
  velocityX : Z;   (* [body.velocity.x] *)
  currentState : PatrolState;
  patrolDirection : Z;
  throwCount : Z;
  firstWarningShown : bool;
  pendingTimers : list nat;
  isDestroyed : bool;
  throwTimer : option nat;
  wordBubbles : list WordBubble
}.

Definition set_x (v : Z) (o : Sprite) : Sprite :=
  {| x := v; y := y o; groundY := groundY o; visible := visible o; active := active o;
     body := body o; scene := scene o; flipX := flipX o; velocityX := velocityX o;
     currentState := currentState o; patrolDirection := patrolDirection o;
     throwCount := throwCount o; firstWarningShown := firstWarningShown o;
     pendingTimers := pendingTimers o; isDestroyed := isDestroyed o;
     throwTimer := throwTimer o; wordBubbles := wordBubbles o |}.
Definition set_y (v : Z) (o : Sprite) : Sprite :=
  {| x := x o; y := v; groundY := groundY o; visible := visible o; active := active o;
     body := body o; scene := scene o; flipX := flipX o; velocityX := velocityX o;
     currentState := currentState o; patrolDirection := patrolDirection o;
     throwCount := throwCount o; firstWarningShown := firstWarningShown o;
     pendingTimers := pendingTimers o; isDestroyed := isDestroyed o;
     throwTimer := throwTimer o; wordBubbles := wordBubbles o |}.
Definition set_visible (v : bool) (o : Sprite) : Sprite :=
  {| x := x o; y := y o; groundY := groundY o; visible := v; active := active o;
     body := body o; scene := scene o; flipX := flipX o; velocityX := velocityX o;
     currentState := currentState o; patrolDirection := patrolDirection o;
     throwCount := throwCount o; firstWarningShown := firstWarningShown o;
     pendingTimers := pendingTimers o; isDestroyed := isDestroyed o;
     throwTimer := throwTimer o; wordBubbles := wordBubbles o |}.
Definition set_active (v : bool) (o : Sprite) : Sprite :=
  {| x := x o; y := y o; groundY := groundY o; visible := visible o; active := v;
     body := body o; scene := scene o; flipX := flipX o; velocityX := velocityX o;
     currentState := currentState o; patrolDirection := patrolDirection o;
     throwCount := throwCount o; firstWarningShown := firstWarningShown o;
     pendingTimers := pendingTimers o; isDestroyed := isDestroyed o;
     throwTimer := throwTimer o; wordBubbles := wordBubbles o |}.
Definition set_body (v : bool) (o : Sprite) : Sprite :=
  {| x := x o; y := y o; groundY := groundY o; visible := visible o;
     active := active o; body := v; scene := scene o; flipX := flipX o;
     velocityX := velocityX o; currentState := currentState o;
     patrolDirection := patrolDirection o; throwCount := throwCount o;
     firstWarningShown := firstWarningShown o; pendingTimers := pendingTimers o;
     isDestroyed := isDestroyed o; throwTimer := throwTimer o;
     wordBubbles := wordBubbles o |}.
Definition set_scene (v : bool) (o : Sprite) : Sprite :=
  {| x := x o; y := y o; groundY := groundY o; visible := visible o;
     active := active o; body := body o; scene := v; flipX := flipX o;
     velocityX := velocityX o; currentState := currentState o;
     patrolDirection := patrolDirection o; throwCount := throwCount o;
     firstWarningShown := firstWarningShown o; pendingTimers := pendingTimers o;
     isDestroyed := isDestroyed o; throwTimer := throwTimer o;
     wordBubbles := wordBubbles o |}.
Definition set_flipX (v : bool) (o : Sprite) : Sprite :=
  {| x := x o; y := y o; groundY := groundY o; visible := visible o;
     active := active o; body := body o; scene := scene o; flipX := v;
     velocityX := velocityX o; currentState := currentState o;
     patrolDirection := patrolDirection o; throwCount := throwCount o;
     firstWarningShown := firstWarningShown o; pendingTimers := pendingTimers o;
     isDestroyed := isDestroyed o; throwTimer := throwTimer o;
     wordBubbles := wordBubbles o |}.
Definition set_velocityX (v : Z) (o : Sprite) : Sprite :=
  {| x := x o; y := y o; groundY := groundY o; visible := visible o;
     active := active o; body := body o; scene := scene o; flipX := flipX o;
     velocityX := v; currentState := currentState o;
     patrolDirection := patrolDirection o; throwCount := throwCount o;
     firstWarningShown := firstWarningShown o; pendingTimers := pendingTimers o;
     isDestroyed := isDestroyed o; throwTimer := throwTimer o;
     wordBubbles := wordBubbles o |}.
Definition set_currentState (v : PatrolState) (o : Sprite) : Sprite :=
  {| x := x o; y := y o; groundY := groundY o; visible := visible o;
     active := active o; body := body o; scene := scene o; flipX := flipX o;
     velocityX := velocityX o; currentState := v; patrolDirection := patrolDirection o;
     throwCount := throwCount o; firstWarningShown := firstWarningShown o;
     pendingTimers := pendingTimers o; isDestroyed := isDestroyed o;
     throwTimer := throwTimer o; wordBubbles := wordBubbles o |}.
Definition set_patrolDirection (v : Z) (o : Sprite) : Sprite :=
  {| x := x o; y := y o; groundY := groundY o; visible := visible o;
     active := active o; body := body o; scene := scene o; flipX := flipX o;
     velocityX := velocityX o; currentState := currentState o; patrolDirection := v;
     throwCount := throwCount o; firstWarningShown := firstWarningShown o;
     pendingTimers := pendingTimers o; isDestroyed := isDestroyed o;
     throwTimer := throwTimer o; wordBubbles := wordBubbles o |}.
Definition set_throwCount (v : Z) (o : Sprite) : Sprite :=
  {| x := x o; y := y o; groundY := groundY o; visible := visible o;
     active := active o; body := body o; scene := scene o; flipX := flipX o;
     velocityX := velocityX o; currentState := currentState o;
     patrolDirection := patrolDirection o; throwCount := v;
     firstWarningShown := firstWarningShown o; pendingTimers := pendingTimers o;
     isDestroyed := isDestroyed o; throwTimer := throwTimer o;
     wordBubbles := wordBubbles o |}.
Definition set_firstWarningShown (v : bool) (o : Sprite) : Sprite :=
  {| x := x o; y := y o; groundY := groundY o; visible := visible o;
     active := active o; body := body o; scene := scene o; flipX := flipX o;
     velocityX := velocityX o; currentState := currentState o;
     patrolDirection := patrolDirection o; throwCount := throwCount o;
     firstWarningShown := v; pendingTimers := pendingTimers o;
     isDestroyed := isDestroyed o; throwTimer := throwTimer o;
     wordBubbles := wordBubbles o |}.
Definition set_pendingTimers (v : list nat) (o : Sprite) : Sprite :=
  {| x := x o; y := y o; groundY := groundY o; visible := visible o;
     active := active o; body := body o; scene := scene o; flipX := flipX o;
     velocityX := velocityX o; currentState := currentState o;
     patrolDirection := patrolDirection o; throwCount := throwCount o;
     firstWarningShown := firstWarningShown o; pendingTimers := v;
     isDestroyed := isDestroyed o; throwTimer := throwTimer o;
     wordBubbles := wordBubbles o |}.
Definition set_isDestroyed (v : bool) (o : Sprite) : Sprite :=
  {| x := x o; y := y o; groundY := groundY o; visible := visible o;
     active := active o; body := body o; scene := scene o; flipX := flipX o;
     velocityX := velocityX o; currentState := currentState o;
     patrolDirection := patrolDirection o; throwCount := throwCount o;
     firstWarningShown := firstWarningShown o; pendingTimers := pendingTimers o;
     isDestroyed := v; throwTimer := throwTimer o; wordBubbles := wordBubbles o |}.
Definition set_throwTimer (v : option nat) (o : Sprite) : Sprite :=
  {| x := x o; y := y o; groundY := groundY o; visible := visible o;
     active := active o; body := body o; scene := scene o; flipX := flipX o;
     velocityX := velocityX o; currentState := currentState o;
     patrolDirection := patrolDirection o; throwCount := throwCount o;
     firstWarningShown := firstWarningShown o; pendingTimers := pendingTimers o;
     isDestroyed := isDestroyed o; throwTimer := v; wordBubbles := wordBubbles o |}.
Definition set_wordBubbles (v : list WordBubble) (o : Sprite) : Sprite :=
  {| x := x o; y := y o; groundY := groundY o; visible := visible o;
     active := active o; body := body o; scene := scene o; flipX := flipX o;
     velocityX := velocityX o; currentState := currentState o;
     patrolDirection := patrolDirection o; throwCount := throwCount o;
     firstWarningShown := firstWarningShown o; pendingTimers := pendingTimers o;
     isDestroyed := isDestroyed o; throwTimer := throwTimer o; wordBubbles := v |}.

Record World : Type := {
  self : Sprite;              (* the NPC, [this] *)
  time : Clock Callback;      (* [scene.time] *)
  created : list WordBubble;  (* every [new WordBubble(...)], oldest first *)
  uncaught : nat              (* exceptions that escaped into the game loop *)
}.

Definition set_self (v : Sprite) (w : World) : World :=
  {| self := v; time := time w; created := created w; uncaught := uncaught w |}.
Definition set_time (v : Clock Callback) (w : World) : World :=
  {| self := self w; time := v; created := created w; uncaught := uncaught w |}.
Definition set_created (v : list WordBubble) (w : World) : World :=
  {| self := self w; time := time w; created := v; uncaught := uncaught w |}.
Definition set_uncaught (v : nat) (w : World) : World :=
  {| self := self w; time := time w; created := created w; uncaught := v |}.

Definition JS (A : Type) : Type := M World A.

Definition this {A} (f : Sprite -> A) : JS A := gets (fun w => f (self w)).
Definition assign (f : Sprite -> Sprite) : JS unit :=
  modify (fun w => set_self (f (self w)) w).

Definition the_scene : JS unit :=
  fun w => if scene (self w) then Ok tt w else Throw w.

Definition delayedCall (d : Z) (cb : Callback) : JS nat :=
  the_scene ;;
  fun w => let (h, c) := schedule d false cb (time w) in Ok h (set_time c w).

Definition addEvent (d : Z) (cb : Callback) : JS nat :=
  the_scene ;;
  fun w => let (h, c) := schedule d true cb (time w) in Ok h (set_time c w).

Definition timer_remove (h : nat) : JS unit :=
  modify (fun w => set_time (remove h (time w)) w).

Definition setVisible (b : bool) : JS unit := assign (set_visible b).
Definition setActive (b : bool) : JS unit := assign (set_active b).
Definition setFlipX (b : bool) : JS unit := assign (set_flipX b).

Definition draw : JS unit := the_scene.

(** [this.pendingTimers.push(timer)] *)
Definition pushTimer (h : nat) : JS unit :=
  assign (fun o => set_pendingTimers (pendingTimers o ++ [h]) o).

(** [this.isDestroyed || !this.active || !this.body] *)
Definition gone (o : Sprite) : bool :=
  isDestroyed o || negb (active o) || negb (body o).

(** [constructor(scene, x, y, startFromRight = true)].  [clk] and [e] are the
    clock and the current camera and random source of [scene]. *)
Definition constructor (clk : Clock Callback) (e : Env) (xarg yarg : Z)
    (startFromRight : bool) : World :=
  let cam := camera e in
  let startX := if startFromRight
                then scrollX cam + width cam + SPAWN_OFFSET
                else scrollX cam - SPAWN_OFFSET in
  let entryDelay := Between e 500 2000 in
  let (entryTimer, c) := schedule entryDelay false CbEntry clk in
  let o := {| x := startX; y := yarg; groundY := yarg;
              visible := true; active := true; body := true; scene := true;
              flipX := true;                  (* setupBully *)
              velocityX := 0;
              currentState := waiting;
              patrolDirection := if startFromRight then -1 else 1;
              throwCount := 0;
              firstWarningShown := false;
              pendingTimers := [entryTimer];
              isDestroyed := false;
              throwTimer := None;
              wordBubbles := [] |} in
  {| self := o; time := c; created := []; uncaught := 0 |}.

Definition startWalkAnimation : JS unit :=
  the_scene ;;   (* tweens.killTweensOf(this) *)
  draw.          (* this.walkTween = tweens.add(...) *)

Definition stopWalkAnimation : JS unit :=
  gy <- this groundY ;;
  assign (set_y gy).

Definition showEntryWarning : JS unit := draw.
Definition showEntranceTaunt : JS unit := draw.
Definition showAttackTaunt : JS unit := draw.
Definition showExitTaunt : JS unit := draw.
Definition playThrowAnimation : JS unit := draw.

Definition throwWordBubble (e : Env) (player : option Z) : JS unit :=
  o <- this (fun o => o) ;;
  match player with
  | None => ret tt
  | Some px =>
    if isDestroyed o || negb (active o) || negb (scene o) then ret tt
    else
      playThrowAnimation ;;
      let throwX := px + Between e (-50) 50 in
      let throwY := -50 in
      let bubble := {| bubbleX := throwX; bubbleY := throwY |} in
      modify (fun w => set_created (created w ++ [bubble]) w) ;;
      assign (fun o => set_wordBubbles (wordBubbles o ++ [bubble]) o) ;;
      the_scene ;;   (* physics.add.overlap *)
      when (random_lt e (3 # 10)) showAttackTaunt
  end.

Definition tryToThrow (e : Env) : JS unit :=
  o <- this (fun o => o) ;;
  if isDestroyed o || negb (active o) || negb (scene o) then ret tt
  else if negb (state_eqb (currentState o) charging) then ret tt
  else if throwCount o >=? MAX_THROWS then ret tt
  else
    match student e with
    | None => ret tt
    | Some px =>
        throwWordBubble e (Some px) ;;
        assign (fun o => set_throwCount (throwCount o + 1) o)
    end.

Definition startThrowingTimer (e : Env) : JS unit :=
  tryToThrow e ;;
  h <- addEvent THROW_INTERVAL CbThrow ;;
  assign (set_throwTimer (Some h)).

Definition stopThrowingTimer : JS unit :=
  t <- this throwTimer ;;
  match t with
  | Some h => timer_remove h ;; assign (set_throwTimer None)
  | None => ret tt
  end.

Definition startEntering : JS unit :=
  o <- this (fun o => o) ;;
  if gone o then ret tt
  else
    let fromRight := patrolDirection o =? -1 in
    assign (set_currentState entering) ;;
    assign (set_throwCount 0) ;;
    showEntryWarning ;;
    enterTimer <- delayedCall 800 (CbEnter fromRight) ;;
    pushTimer enterTimer.

(** The closure scheduled by [startEntering]; [fromRight] is the value it
    captured. *)
Definition enterNow (fromRight : bool) (e : Env) : JS unit :=
  o <- this (fun o => o) ;;
  if gone o then ret tt
  else
    the_scene ;;
    let cam := camera e in
    assign (set_x (if fromRight
                   then scrollX cam + width cam + SPAWN_OFFSET
                   else scrollX cam - SPAWN_OFFSET)) ;;
    assign (set_y (groundY o)) ;;
    setVisible true ;;
    setActive true ;;
    setFlipX (patrolDirection o =? -1) ;;
    when (body o) (assign (set_velocityX (patrolDirection o * PATROL_SPEED))) ;;
    startWalkAnimation ;;
    showEntranceTaunt ;;
    chargeTimer <- delayedCall 1000 CbCharge ;;
    pushTimer chargeTimer.

Definition startCharging (e : Env) : JS unit :=
  assign (set_currentState charging) ;;
  startThrowingTimer e.

Definition startExiting : JS unit :=
  assign (set_currentState exiting) ;;
  stopThrowingTimer ;;
  showExitTaunt.

Definition startWaiting (e : Env) : JS unit :=
  o <- this (fun o => o) ;;
  if gone o then ret tt
  else
    assign (set_currentState waiting) ;;
    when (body o) (assign (set_velocityX 0)) ;;
    stopWalkAnimation ;;
    setVisible false ;;
    let waitTime := Between e REENTRY_TIME_MIN REENTRY_TIME_MAX in
    reentryTimer <- delayedCall waitTime CbReentry ;;
    pushTimer reentryTimer.

Definition prepareReentry (e : Env) : JS unit :=
  o <- this (fun o => o) ;;
  if gone o then ret tt
  else
    let enterFromRight := random_lt e (1 # 2) in
    the_scene ;;
    let cam := camera e in
    (if enterFromRight
     then assign (set_x (scrollX cam + width cam + SPAWN_OFFSET)) ;;
          assign (set_patrolDirection (-1))
     else assign (set_x (scrollX cam - SPAWN_OFFSET)) ;;
          assign (set_patrolDirection 1)) ;;
    dir <- this patrolDirection ;;
    setFlipX (dir =? -1) ;;
    startEntering.

(** The locals of [update]. *)
Definition cameraLeft (cam : Camera) : Z := scrollX cam - 100.
Definition cameraRight (cam : Camera) : Z := scrollX cam + width cam + 100.
Definition exitedLeft (cam : Camera) (dir xx : Z) : bool :=
  (dir =? -1) && (xx <? cameraLeft cam).
Definition exitedRight (cam : Camera) (dir xx : Z) : bool :=
  (dir =? 1) && (xx >? cameraRight cam).

Definition update (player : option Z) (e : Env) : JS unit :=
  act <- this active ;;
  match player with
  | None => ret tt
  | Some px =>
    if negb act then ret tt
    else
      st <- this currentState ;;
      dir <- this patrolDirection ;;
      xx <- this x ;;
      when (state_eqb st charging || state_eqb st entering)
        (setFlipX (dir =? -1)) ;;
      when (state_eqb st charging || state_eqb st exiting)
        (the_scene ;;
         when (exitedLeft (camera e) dir xx || exitedRight (camera e) dir xx)
           (startWaiting e))
  end.

(** Phaser's [GameObject.destroy()]. *)
Definition destroy : JS unit :=
  sc <- this scene ;;
  when sc
    (assign (set_body false) ;;
     assign (set_active false) ;;
     assign (set_visible false) ;;
     assign (set_scene false)).

(** [this.pendingTimers.forEach(timer => timer.remove())] *)
Fixpoint removeAll (hs : list nat) : JS unit :=
  match hs with
  | [] => ret tt
  | h :: rest => timer_remove h ;; removeAll rest
  end.

Definition cleanup : JS unit :=
  assign (set_isDestroyed true) ;;
  hs <- this pendingTimers ;;
  removeAll hs ;;
  assign (set_pendingTimers []) ;;
  stopThrowingTimer ;;
  the_scene ;;   (* tweens.killTweensOf(this) *)
  assign (set_wordBubbles []) ;;
  destroy.

Definition run_callback (cb : Callback) (e : Env) : JS unit :=
  match cb with
  | CbEntry => o <- this (fun o => o) ;; if gone o then ret tt else startEntering
  | CbEnter fromRight => enterNow fromRight e
  | CbCharge => o <- this (fun o => o) ;; if gone o then ret tt else startCharging e
  | CbThrow => tryToThrow e
  | CbReentry => o <- this (fun o => o) ;; if gone o then ret tt else prepareReentry e
  end.

(** *** The game loop around the sprite *)

Definition settle (r : Res World unit) : World :=
  match r with
  | Ok _ w => w
  | Throw w => set_uncaught (S (uncaught w)) w
  end.

Definition physics (dt : Z) (w : World) : World :=
  if body (self w)
  then set_self (set_x (x (self w) + velocityX (self w) * dt / 1000) (self w)) w
  else w.

Inductive Event : Type :=
| EvTimer (h : nat) (e : Env)                    (* the clock fires event [h] *)
| EvFrame (dt : Z) (player : option Z) (e : Env) (* [dt] ms pass, then [update(player)] *)
| EvCleanup                                      (* the owner calls [cleanup()] *)
| EvInvoke (cb : Callback) (e : Env).            (* a closure called out of turn *)

Definition step (w : World) (ev : Event) : World :=
  match ev with
  | EvTimer h e =>
      match lookup h (time w) with
      | None => w
      | Some t =>
          let w1 := physics (Z.max 0 (due t - now (time w))) w in
          let w2 := set_time (dispatch t (time w1)) w1 in
          settle (run_callback (callback t) e w2)
      end
  | EvFrame dt player e =>
      let w1 := physics dt w in
      let w2 := set_time (elapse dt (time w1)) w1 in
      settle (update player e w2)
  | EvCleanup => settle (cleanup w)
  | EvInvoke cb e => settle (run_callback cb e w)
  end.

Definition run (w : World) (evs : list Event) : World := fold_left step evs w.

Fixpoint chronological (w : World) (evs : list Event) : bool :=
  match evs with
  | [] => true
  | ev :: rest =>
      match ev with
      | EvTimer h _ =>
          match lookup h (time w) with
          | Some t => earliest t (time w)
          | None => false
          end
      | EvFrame dt _ _ => (0 <=? dt) && quiet_until (now (time w) + dt) (time w)
      | EvCleanup => true
      | EvInvoke _ _ => false
      end && chronological (step w ev) rest
  end.

(** *** Observations used in the statements *)

Definition moved (d : Z) (w : World) : World :=
  set_self (set_x (x (self w) + d) (self w)) w.

Definition spawned (w : World) : Z := Z.of_nat (length (created w)).

Definition is_entry (cb : Callback) : bool :=
  match cb with
  | CbEntry | CbReentry => true
  | _ => false
  end.

Definition enters (w : World) (ev : Event) : bool :=
  match ev with
  | EvTimer h _ =>
      match lookup h (time w) with
      | Some t => is_entry (callback t)
      | None => false
      end
  | EvInvoke cb _ => is_entry cb
  | _ => false
  end.

Fixpoint same_traversal (w : World) (evs : list Event) : bool :=
  match evs with
  | [] => true
  | ev :: rest => negb (enters w ev) && same_traversal (step w ev) rest
  end.

Definition waiting_callbacks (w : World) : list Callback :=
  map (@callback Callback) (pending (time w)).

(** Word bubbles thrown before the current traversal: [tryToThrow] bumps the
    count with every bubble, [startEntering] clears it. *)
Definition slack (w : World) : Z := spawned w - throwCount (self w).

(** The clock after [timer.remove()] on each of [hs]. *)
Definition removed_all (hs : list nat) (c : Clock Callback) : Clock Callback :=
  fold_left (fun c h => remove h c) hs c.

End Bully.


(** * The player and what hits or heals it *)

(** ** [class ConfidenceMeter] (js/ui/ConfidenceMeter.js)

    The numbers behind the bar.  The bar, the percentage text and the emoji
    are redrawn from them by [updateDisplay] and are left out. *)

Module ConfidenceMeter.

Record Meter : Type := {
  maxConfidence : Z;
  currentConfidence : Z
}.

Definition set_currentConfidence (v : Z) (m : Meter) : Meter :=
  {| maxConfidence := maxConfidence m; currentConfidence := v |}.

(** [constructor(scene, maxConfidence = 100)] *)
Definition constructor (maxConfidence : Z) : Meter :=
  {| maxConfidence := maxConfidence; currentConfidence := maxConfidence |}.

Definition updateConfidence (amount : Z) (m : Meter) : Meter :=
  let m1 := set_currentConfidence (currentConfidence m + amount) m in
  let m2 := if currentConfidence m1 <? 0 then set_currentConfidence 0 m1 else m1 in
  if currentConfidence m2 >? maxConfidence m2
  then set_currentConfidence (maxConfidence m2) m2
  else m2.

Definition setConfidence (value : Z) (m : Meter) : Meter :=
  set_currentConfidence (Z.max 0 (Z.min value (maxConfidence m))) m.

Definition getConfidence (m : Meter) : Z := currentConfidence m.

Definition isDepleted (m : Meter) : bool := currentConfidence m <=? 0.

Definition reset (m : Meter) : Meter :=
  set_currentConfidence (maxConfidence m) m.

End ConfidenceMeter.

(** ** [class Student] (js/sprites/Player.js)

    Confidence and the amounts of damage and healing are whole numbers (the
    callers pass 10, 12 and 15).  The position of the sprite is moved by
    Phaser between two calls of [update]; a frame brings the new [x], the
    time that has passed, whether the body stands on something and the keys.
    The student is never destroyed, so [this.scene] is always there. *)

Module Student.

Definition MOVE_SPEED : Z := 200.
Definition JUMP_POWER : Z := -360.
Definition MAX_CONFIDENCE : Z := 100.
Definition COYOTE_TIME : Z := 75.
Definition JUMP_BUFFER_TIME : Z := 100.

Inductive Texture : Type := player_happy | player_sad.

Definition texture_eqb (a b : Texture) : bool :=
  match a, b with
  | player_happy, player_happy | player_sad, player_sad => true
  | _, _ => false
  end.

(** The closures handed to the scene clock. *)
Inductive Callback : Type :=
| CbStumbleEnd    (* stumble: clear the tint, [alpha = 1], [isStumbling = false] *)
| CbHealFlashEnd. (* flashHeal: clear the tint *)

(** What [update] reads from the scene in one frame. *)
Record Frame : Type := {
  delta : Z;            (* [scene.game.loop.delta] *)
  blockedDown : bool;   (* [this.body.blocked.down] *)
  at_x : Z;             (* [this.x] after the physics step *)
  leftDown : bool;      (* left arrow, A or the touch button is down *)
  rightDown : bool;     (* right arrow, D or the touch button is down *)
  jumpJustDown : bool   (* up, W, space or the touch button was just pressed *)
}.

Record Sprite : Type := {
  x : Z;   (* moved by the physics step *)
  velocityX : Z;   (* [body.velocity.x], as last assigned *)
  velocityY : Z;
  flipX : bool;
  texture : Texture;
  tint : option Z;
  alpha : Q;
  collideWorldBounds : bool;
  confidence : Z;
  isOnGround : bool;
  isStumbling : bool;
  isDefeated : bool;
  hasTriggeredGameOver : bool;   (* undefined, which is falsy, until the defeat *)
  timeSinceGrounded : Z;
  timeSinceJumpPressed : option Z;   (* [None] is [Infinity] *)
  usedCoyoteJump : bool
}.

Definition set_x (v : Z) (o : Sprite) : Sprite :=
  {| x := v; velocityX := velocityX o; velocityY := velocityY o; flipX := flipX o;
     texture := texture o; tint := tint o; alpha := alpha o;
     collideWorldBounds := collideWorldBounds o; confidence := confidence o;
     isOnGround := isOnGround o; isStumbling := isStumbling o;
     isDefeated := isDefeated o; hasTriggeredGameOver := hasTriggeredGameOver o;
     timeSinceGrounded := timeSinceGrounded o;
     timeSinceJumpPressed := timeSinceJumpPressed o;
     usedCoyoteJump := usedCoyoteJump o |}.
Definition set_velocityX (v : Z) (o : Sprite) : Sprite :=
  {| x := x o; velocityX := v; velocityY := velocityY o; flipX := flipX o;
     texture := texture o; tint := tint o; alpha := alpha o;
     collideWorldBounds := collideWorldBounds o; confidence := confidence o;
     isOnGround := isOnGround o; isStumbling := isStumbling o;
     isDefeated := isDefeated o; hasTriggeredGameOver := hasTriggeredGameOver o;
     timeSinceGrounded := timeSinceGrounded o;
     timeSinceJumpPressed := timeSinceJumpPressed o;
     usedCoyoteJump := usedCoyoteJump o |}.
Definition set_velocityY (v : Z) (o : Sprite) : Sprite :=
  {| x := x o; velocityX := velocityX o; velocityY := v; flipX := flipX o;
     texture := texture o; tint := tint o; alpha := alpha o;
     collideWorldBounds := collideWorldBounds o; confidence := confidence o;
     isOnGround := isOnGround o; isStumbling := isStumbling o;
     isDefeated := isDefeated o; hasTriggeredGameOver := hasTriggeredGameOver o;
     timeSinceGrounded := timeSinceGrounded o;
     timeSinceJumpPressed := timeSinceJumpPressed o;
     usedCoyoteJump := usedCoyoteJump o |}.
Definition set_flipX (v : bool) (o : Sprite) : Sprite :=
  {| x := x o; velocityX := velocityX o; velocityY := velocityY o; flipX := v;
     texture := texture o; tint := tint o; alpha := alpha o;
     collideWorldBounds := collideWorldBounds o; confidence := confidence o;
     isOnGround := isOnGround o; isStumbling := isStumbling o;
     isDefeated := isDefeated o; hasTriggeredGameOver := hasTriggeredGameOver o;
     timeSinceGrounded := timeSinceGrounded o;
     timeSinceJumpPressed := timeSinceJumpPressed o;
     usedCoyoteJump := usedCoyoteJump o |}.
Definition set_texture (v : Texture) (o : Sprite) : Sprite :=
  {| x := x o; velocityX := velocityX o; velocityY := velocityY o; flipX := flipX o;
     texture := v; tint := tint o; alpha := alpha o;
     collideWorldBounds := collideWorldBounds o; confidence := confidence o;
     isOnGround := isOnGround o; isStumbling := isStumbling o;
     isDefeated := isDefeated o; hasTriggeredGameOver := hasTriggeredGameOver o;
     timeSinceGrounded := timeSinceGrounded o;
     timeSinceJumpPressed := timeSinceJumpPressed o;
     usedCoyoteJump := usedCoyoteJump o |}.
Definition set_tint (v : option Z) (o : Sprite) : Sprite :=
  {| x := x o; velocityX := velocityX o; velocityY := velocityY o; flipX := flipX o;
     texture := texture o; tint := v; alpha := alpha o;
     collideWorldBounds := collideWorldBounds o; confidence := confidence o;
     isOnGround := isOnGround o; isStumbling := isStumbling o;
     isDefeated := isDefeated o; hasTriggeredGameOver := hasTriggeredGameOver o;
     timeSinceGrounded := timeSinceGrounded o;
     timeSinceJumpPressed := timeSinceJumpPressed o;
     usedCoyoteJump := usedCoyoteJump o |}.
Definition set_alpha (v : Q) (o : Sprite) : Sprite :=
  {| x := x o; velocityX := velocityX o; velocityY := velocityY o; flipX := flipX o;
     texture := texture o; tint := tint o; alpha := v;
     collideWorldBounds := collideWorldBounds o; confidence := confidence o;
     isOnGround := isOnGround o; isStumbling := isStumbling o;
     isDefeated := isDefeated o; hasTriggeredGameOver := hasTriggeredGameOver o;
     timeSinceGrounded := timeSinceGrounded o;
     timeSinceJumpPressed := timeSinceJumpPressed o;
     usedCoyoteJump := usedCoyoteJump o |}.
Definition set_collideWorldBounds (v : bool) (o : Sprite) : Sprite :=
  {| x := x o; velocityX := velocityX o; velocityY := velocityY o; flipX := flipX o;
     texture := texture o; tint := tint o; alpha := alpha o; collideWorldBounds := v;
     confidence := confidence o; isOnGround := isOnGround o;
     isStumbling := isStumbling o; isDefeated := isDefeated o;
     hasTriggeredGameOver := hasTriggeredGameOver o;
     timeSinceGrounded := timeSinceGrounded o;
     timeSinceJumpPressed := timeSinceJumpPressed o;
     usedCoyoteJump := usedCoyoteJump o |}.
Definition set_confidence (v : Z) (o : Sprite) : Sprite :=
  {| x := x o; velocityX := velocityX o; velocityY := velocityY o; flipX := flipX o;
     texture := texture o; tint := tint o; alpha := alpha o;
     collideWorldBounds := collideWorldBounds o; confidence := v;
     isOnGround := isOnGround o; isStumbling := isStumbling o;
     isDefeated := isDefeated o; hasTriggeredGameOver := hasTriggeredGameOver o;
     timeSinceGrounded := timeSinceGrounded o;
     timeSinceJumpPressed := timeSinceJumpPressed o;
     usedCoyoteJump := usedCoyoteJump o |}.
Definition set_isOnGround (v : bool) (o : Sprite) : Sprite :=
  {| x := x o; velocityX := velocityX o; velocityY := velocityY o; flipX := flipX o;
     texture := texture o; tint := tint o; alpha := alpha o;
     collideWorldBounds := collideWorldBounds o; confidence := confidence o;
     isOnGround := v; isStumbling := isStumbling o; isDefeated := isDefeated o;
     hasTriggeredGameOver := hasTriggeredGameOver o;
     timeSinceGrounded := timeSinceGrounded o;
     timeSinceJumpPressed := timeSinceJumpPressed o;
     usedCoyoteJump := usedCoyoteJump o |}.
Definition set_isStumbling (v : bool) (o : Sprite) : Sprite :=
  {| x := x o; velocityX := velocityX o; velocityY := velocityY o; flipX := flipX o;
     texture := texture o; tint := tint o; alpha := alpha o;
     collideWorldBounds := collideWorldBounds o; confidence := confidence o;
     isOnGround := isOnGround o; isStumbling := v; isDefeated := isDefeated o;
     hasTriggeredGameOver := hasTriggeredGameOver o;
     timeSinceGrounded := timeSinceGrounded o;
     timeSinceJumpPressed := timeSinceJumpPressed o;
     usedCoyoteJump := usedCoyoteJump o |}.
Definition set_isDefeated (v : bool) (o : Sprite) : Sprite :=
  {| x := x o; velocityX := velocityX o; velocityY := velocityY o; flipX := flipX o;
     texture := texture o; tint := tint o; alpha := alpha o;
     collideWorldBounds := collideWorldBounds o; confidence := confidence o;
     isOnGround := isOnGround o; isStumbling := isStumbling o; isDefeated := v;
     hasTriggeredGameOver := hasTriggeredGameOver o;
     timeSinceGrounded := timeSinceGrounded o;
     timeSinceJumpPressed := timeSinceJumpPressed o;
     usedCoyoteJump := usedCoyoteJump o |}.
Definition set_hasTriggeredGameOver (v : bool) (o : Sprite) : Sprite :=
  {| x := x o; velocityX := velocityX o; velocityY := velocityY o; flipX := flipX o;
     texture := texture o; tint := tint o; alpha := alpha o;
     collideWorldBounds := collideWorldBounds o; confidence := confidence o;
     isOnGround := isOnGround o; isStumbling := isStumbling o;
     isDefeated := isDefeated o; hasTriggeredGameOver := v;
     timeSinceGrounded := timeSinceGrounded o;
     timeSinceJumpPressed := timeSinceJumpPressed o;
     usedCoyoteJump := usedCoyoteJump o |}.
Definition set_timeSinceGrounded (v : Z) (o : Sprite) : Sprite :=
  {| x := x o; velocityX := velocityX o; velocityY := velocityY o; flipX := flipX o;
     texture := texture o; tint := tint o; alpha := alpha o;
     collideWorldBounds := collideWorldBounds o; confidence := confidence o;
     isOnGround := isOnGround o; isStumbling := isStumbling o;
     isDefeated := isDefeated o; hasTriggeredGameOver := hasTriggeredGameOver o;
     timeSinceGrounded := v; timeSinceJumpPressed := timeSinceJumpPressed o;
     usedCoyoteJump := usedCoyoteJump o |}.
Definition set_timeSinceJumpPressed (v : option Z) (o : Sprite) : Sprite :=
  {| x := x o; velocityX := velocityX o; velocityY := velocityY o; flipX := flipX o;
     texture := texture o; tint := tint o; alpha := alpha o;
     collideWorldBounds := collideWorldBounds o; confidence := confidence o;
     isOnGround := isOnGround o; isStumbling := isStumbling o;
     isDefeated := isDefeated o; hasTriggeredGameOver := hasTriggeredGameOver o;
     timeSinceGrounded := timeSinceGrounded o; timeSinceJumpPressed := v;
     usedCoyoteJump := usedCoyoteJump o |}.
Definition set_usedCoyoteJump (v : bool) (o : Sprite) : Sprite :=
  {| x := x o; velocityX := velocityX o; velocityY := velocityY o; flipX := flipX o;
     texture := texture o; tint := tint o; alpha := alpha o;
     collideWorldBounds := collideWorldBounds o; confidence := confidence o;
     isOnGround := isOnGround o; isStumbling := isStumbling o;
     isDefeated := isDefeated o; hasTriggeredGameOver := hasTriggeredGameOver o;
     timeSinceGrounded := timeSinceGrounded o;
     timeSinceJumpPressed := timeSinceJumpPressed o; usedCoyoteJump := v |}.

Record World : Type := {
  self : Sprite;   (* the student, [this] *)
  time : Clock Callback;   (* [scene.time] *)
  confidenceMeter : option ConfidenceMeter.Meter;   (* attached by the scene *)
  gameOvers : nat;   (* ['gameOver'] events emitted on [scene.events] *)
  jumps : nat   (* calls of [jump()] *)
}.

Definition set_self (v : Sprite) (w : World) : World :=
  {| self := v; time := time w; confidenceMeter := confidenceMeter w;
     gameOvers := gameOvers w; jumps := jumps w |}.
Definition set_time (v : Clock Callback) (w : World) : World :=
  {| self := self w; time := v; confidenceMeter := confidenceMeter w;
     gameOvers := gameOvers w; jumps := jumps w |}.
Definition set_confidenceMeter (v : option ConfidenceMeter.Meter) (w : World) : World :=
  {| self := self w; time := time w; confidenceMeter := v; gameOvers := gameOvers w;
     jumps := jumps w |}.
Definition set_gameOvers (v : nat) (w : World) : World :=
  {| self := self w; time := time w; confidenceMeter := confidenceMeter w;
     gameOvers := v; jumps := jumps w |}.
Definition set_jumps (v : nat) (w : World) : World :=
  {| self := self w; time := time w; confidenceMeter := confidenceMeter w;
     gameOvers := gameOvers w; jumps := v |}.

Definition JS (A : Type) : Type := M World A.

Definition this {A} (f : Sprite -> A) : JS A := gets (fun w => f (self w)).
Definition assign (f : Sprite -> Sprite) : JS unit :=
  modify (fun w => set_self (f (self w)) w).

Definition delayedCall (d : Z) (cb : Callback) : JS nat :=
  fun w => let (h, c) := schedule d false cb (time w) in Ok h (set_time c w).

Definition setVelocityX (v : Z) : JS unit := assign (set_velocityX v).
Definition setVelocityY (v : Z) : JS unit := assign (set_velocityY v).
Definition setFlipX (b : bool) : JS unit := assign (set_flipX b).
Definition setTexture (t : Texture) : JS unit := assign (set_texture t).
Definition setTint (c : Z) : JS unit := assign (set_tint (Some c)).
Definition clearTint : JS unit := assign (set_tint None).

(** [scene.tweens.add(...)]: the wobble, the flicker and the sinking of the
    sprite are drawn and leave no trace in the state. *)
Definition tween : JS unit := ret tt.

(** [constructor(scene, x, y)] with [setupStudent]; [clk] is the clock of the
    scene. *)
Definition constructor (clk : Clock Callback) (xarg yarg : Z) : World :=
  let o := {| x := xarg; velocityX := 0; velocityY := 0; flipX := false;
              texture := player_happy; tint := None; alpha := 1;
              collideWorldBounds := true;
              confidence := MAX_CONFIDENCE;
              isOnGround := false;
              isStumbling := false;
              isDefeated := false;
              hasTriggeredGameOver := false;
              timeSinceGrounded := 0;
              timeSinceJumpPressed := None;
              usedCoyoteJump := false |} in
  {| self := o; time := clk; confidenceMeter := None; gameOvers := 0; jumps := 0 |}.

(** The scene hands the student its meter: [student.confidenceMeter = meter]. *)
Definition attachMeter (m : ConfidenceMeter.Meter) (w : World) : World :=
  set_confidenceMeter (Some m) w.

Definition jump : JS unit :=
  setVelocityY JUMP_POWER ;;
  assign (set_isOnGround false) ;;
  assign (set_timeSinceJumpPressed None) ;;
  modify (fun w => set_jumps (S (jumps w)) w).

(** [t < limit] for a time that may be [Infinity]. *)
Definition sooner (t : option Z) (limit : Z) : bool :=
  match t with
  | Some v => v <? limit
  | None => false
  end.

Definition updateJumpTimers (f : Frame) : JS unit :=
  assign (fun o => set_timeSinceJumpPressed
                     (option_map (fun t => t + delta f) (timeSinceJumpPressed o)) o) ;;
  if blockedDown f
  then
    assign (set_timeSinceGrounded 0) ;;
    assign (set_usedCoyoteJump false) ;;
    t <- this timeSinceJumpPressed ;;
    when (sooner t JUMP_BUFFER_TIME)
      (jump ;; assign (set_timeSinceJumpPressed None))
  else
    assign (fun o => set_timeSinceGrounded (timeSinceGrounded o + delta f) o).

Definition onWalkedOffScreen : JS unit :=
  done <- this hasTriggeredGameOver ;;
  if done then ret tt
  else
    assign (set_hasTriggeredGameOver true) ;;
    modify (fun w => set_gameOvers (S (gameOvers w)) w).

(** [-Student.MOVE_SPEED * 0.5] is -100. *)
Definition handleDefeatWalk : JS unit :=
  setVelocityX (- MOVE_SPEED / 2) ;;
  setFlipX true ;;
  xx <- this x ;;
  when (xx <? -50) onWalkedOffScreen.

Definition moveLeft : JS unit := setVelocityX (- MOVE_SPEED) ;; setFlipX true.
Definition moveRight : JS unit := setVelocityX MOVE_SPEED ;; setFlipX false.

(** The body of [stopHorizontalMovement] is empty: the drag of the body slows
    the sprite down. *)
Definition stopHorizontalMovement : JS unit := ret tt.

Definition handleHorizontalMovement (f : Frame) : JS unit :=
  if leftDown f then moveLeft
  else if rightDown f then moveRight
  else stopHorizontalMovement.

Definition tryToJump : JS unit :=
  canRegularJump <- this isOnGround ;;
  used <- this usedCoyoteJump ;;
  since <- this timeSinceGrounded ;;
  let canCoyoteJump := negb used && (since <? COYOTE_TIME) in
  when (canRegularJump || canCoyoteJump)
    (when (negb canRegularJump && canCoyoteJump) (assign (set_usedCoyoteJump true)) ;;
     jump).

Definition handleJump (f : Frame) : JS unit :=
  when (jumpJustDown f)
    (assign (set_timeSinceJumpPressed (Some 0)) ;;
     tryToJump).

Definition handleMovement (f : Frame) : JS unit :=
  defeated <- this isDefeated ;;
  if defeated then handleDefeatWalk
  else
    handleHorizontalMovement f ;;
    handleJump f.

Definition updateGroundedState (f : Frame) : JS unit :=
  assign (set_isOnGround (blockedDown f)).

Definition update (f : Frame) : JS unit :=
  updateJumpTimers f ;;
  handleMovement f ;;
  updateGroundedState f.

(** [this.confidence / Student.MAX_CONFIDENCE] *)
Definition getConfidencePercent (o : Sprite) : Q :=
  Qmake (confidence o) 100.

Definition updateExpression : JS unit :=
  o <- this (fun o => o) ;;
  let shouldBeHappy := Qle_bool (1 # 2) (getConfidencePercent o) in
  let targetTexture := if shouldBeHappy then player_happy else player_sad in
  when (negb (texture_eqb (texture o) targetTexture)) (setTexture targetTexture).

(** The closure scheduled by [stumble]. *)
Definition stumbleEnd : JS unit :=
  clearTint ;;
  assign (set_alpha 1) ;;
  assign (set_isStumbling false).

Definition stumble : JS unit :=
  already <- this isStumbling ;;
  if already then ret tt
  else
    assign (set_isStumbling true) ;;
    setTint 16739179 ;;   (* 0xFF6B6B *)
    tween ;;
    fx <- this flipX ;;
    let knockbackDirection := if fx then 1 else -1 in
    setVelocityX (knockbackDirection * 100) ;;
    tween ;;
    _ <- delayedCall 400 CbStumbleEnd ;;
    ret tt.

Definition flashDamage : JS unit := stumble.

Definition flashHeal : JS unit :=
  setTint 65280 ;;   (* 0x00ff00 *)
  _ <- delayedCall 150 CbHealFlashEnd ;;
  ret tt.

Definition onConfidenceDepleted : JS unit :=
  defeated <- this isDefeated ;;
  if defeated then ret tt
  else
    assign (set_isDefeated true) ;;
    assign (set_hasTriggeredGameOver false) ;;
    setVelocityX 0 ;; setVelocityY 0 ;;
    setTexture player_sad ;;
    assign (set_collideWorldBounds false) ;;
    assign (set_alpha (8 # 10)) ;;
    tween.

(** [if (this.confidenceMeter) this.confidenceMeter.updateConfidence(amount)] *)
Definition tellMeter (amount : Z) : JS unit :=
  modify (fun w => set_confidenceMeter
                     (option_map (ConfidenceMeter.updateConfidence amount)
                        (confidenceMeter w)) w).

Definition takeDamage (amount : Z) : JS bool :=
  stumbling <- this isStumbling ;;
  if stumbling then ret false
  else
    assign (fun o => set_confidence (confidence o - amount) o) ;;
    c <- this confidence ;;
    when (c <? 0) (assign (set_confidence 0)) ;;
    tellMeter (- amount) ;;
    updateExpression ;;
    flashDamage ;;
    c <- this confidence ;;
    when (c <=? 0) onConfidenceDepleted ;;
    ret true.

Definition heal (amount : Z) : JS unit :=
  assign (fun o => set_confidence (confidence o + amount) o) ;;
  c <- this confidence ;;
  when (c >? MAX_CONFIDENCE) (assign (set_confidence MAX_CONFIDENCE)) ;;
  tellMeter amount ;;
  updateExpression ;;
  flashHeal.

Definition run_callback (cb : Callback) : JS unit :=
  match cb with
  | CbStumbleEnd => stumbleEnd
  | CbHealFlashEnd => clearTint
  end.

(** *** The game loop around the student *)

Inductive Event : Type :=
| EvTimer (h : nat)        (* the clock fires event [h] *)
| EvFrame (f : Frame)      (* a physics step, then [update()] *)
| EvDamage (amount : Z)    (* something calls [takeDamage(amount)] *)
| EvHeal (amount : Z).     (* something calls [heal(amount)] *)

Definition step (w : World) (ev : Event) : World :=
  match ev with
  | EvTimer h =>
      match lookup h (time w) with
      | None => w
      | Some t => final (run_callback (callback t) (set_time (dispatch t (time w)) w))
      end
  | EvFrame f =>
      let w1 := set_self (set_x (at_x f) (self w)) w in
      let w2 := set_time (elapse (delta f) (time w1)) w1 in
      final (update f w2)
  | EvDamage amount => final (takeDamage amount w)
  | EvHeal amount => final (heal amount w)
  end.

Definition run (w : World) (evs : list Event) : World := fold_left step evs w.

(** *** Observations used in the statements *)

(** The calls in [evs] pass no negative amount. *)
Definition fair (ev : Event) : bool :=
  match ev with
  | EvDamage amount | EvHeal amount => 0 <=? amount
  | _ => true
  end.

(** Every frame of [evs] finds the body in the air. *)
Definition airborne (ev : Event) : bool :=
  match ev with
  | EvFrame f => negb (blockedDown f)
  | _ => true
  end.

(** No frame of [evs] goes back in time. *)
Definition forward (ev : Event) : bool :=
  match ev with
  | EvFrame f => 0 <=? delta f
  | _ => true
  end.

(** The pending closures that end a stumble. *)
Definition is_stumble_end (t : TimerEvent Callback) : bool :=
  match callback t with
  | CbStumbleEnd => true
  | CbHealFlashEnd => false
  end.

Definition stumble_timers (w : World) : nat :=
  length (filter is_stumble_end (pending (time w))).

(** The jumps a student in the air has left: one if [isOnGround] still holds
    from the frame before, and the coyote jump if it is unused and
    [COYOTE_TIME] has not run out. *)
Definition air_jumps (w : World) : nat :=
  Nat.add
    (if isOnGround (self w) then 1%nat else 0%nat)
    (if usedCoyoteJump (self w) || (COYOTE_TIME <=? timeSinceGrounded (self w))
     then 0%nat else 1%nat).

(** Confidence is a percentage, and at zero the student is defeated. *)
Definition in_range (w : World) : Prop :=
  0 <= confidence (self w) <= MAX_CONFIDENCE /\
  (confidence (self w) = 0 -> isDefeated (self w) = true).

(** The meter, when attached, shows the confidence of the student. *)
Definition in_sync (w : World) : Prop :=
  match confidenceMeter w with
  | Some m => ConfidenceMeter.maxConfidence m = MAX_CONFIDENCE /\
              ConfidenceMeter.currentConfidence m = confidence (self w)
  | None => True
  end.

(** ['gameOver'] has been emitted once if the flag is set and not at all
    otherwise, and the flag is only set on a defeated student. *)
Definition game_over_once (w : World) : Prop :=
  gameOvers w = (if hasTriggeredGameOver (self w) then 1%nat else 0%nat) /\
  (hasTriggeredGameOver (self w) = true -> isDefeated (self w) = true).

(** A stumbling student has exactly one closure pending that ends the
    stumble, and a steady one has none. *)
Definition stumble_ends (w : World) : Prop :=
  tidy (time w) /\
  stumble_timers w = (if isStumbling (self w) then 1%nat else 0%nat).

End Student.

(** * Projectiles, hazards and power-ups

    Each class is modelled in a small world of its own: the sprite, the
    student it may touch, and the scene clock where the class uses it.
    Phaser moves the bodies; an ['update'] event of the scene brings the
    position the body has reached.  Velocities are products with
    [scene.gameSpeedMultiplier] and are rationals.  Particles, texts and
    tweens are drawn and are kept as accesses to [this.scene] only. *)

(** What the projectiles read from their scene. *)
Record Stage : Type := {
  gameSpeedMultiplier : option Q;   (* [scene.gameSpeedMultiplier], when set *)
  configWidth : Z;                  (* [scene.game.config.width] *)
  configHeight : Z                  (* [scene.game.config.height] *)
}.

(** [this.scene.gameSpeedMultiplier || 1.0]: zero is falsy. *)
Definition speedMultiplier (st : Stage) : Q :=
  match gameSpeedMultiplier st with
  | Some m => if Qeq_bool m 0 then 1 else m
  | None => 1
  end.

(** ** [class Newspaper] (js/sprites/Newspaper.js) *)

Module Newspaper.

Definition DAMAGE : Z := 10.
Definition HORIZONTAL_SPEED : Z := 220.
Definition VERTICAL_SPEED : Z := -200.
Definition GRAVITY : Z := 400.
Definition SPIN_SPEED : Z := 360.

Record Sprite : Type := {
  x : Z;   (* moved by the physics step *)
  y : Z;
  velocityX : Q;   (* as assigned by [setVelocity] *)
  velocityY : Q;
  flipX : bool;
  isDestroyed : bool;
  updateListener : bool;   (* the listener is set and registered *)
  scene : bool   (* [this.scene] is defined *)
}.

Definition set_x (v : Z) (o : Sprite) : Sprite :=
  {| x := v; y := y o; velocityX := velocityX o; velocityY := velocityY o;
     flipX := flipX o; isDestroyed := isDestroyed o;
     updateListener := updateListener o; scene := scene o |}.
Definition set_y (v : Z) (o : Sprite) : Sprite :=
  {| x := x o; y := v; velocityX := velocityX o; velocityY := velocityY o;
     flipX := flipX o; isDestroyed := isDestroyed o;
     updateListener := updateListener o; scene := scene o |}.
Definition set_velocityX (v : Q) (o : Sprite) : Sprite :=
  {| x := x o; y := y o; velocityX := v; velocityY := velocityY o; flipX := flipX o;
     isDestroyed := isDestroyed o; updateListener := updateListener o;
     scene := scene o |}.
Definition set_velocityY (v : Q) (o : Sprite) : Sprite :=
  {| x := x o; y := y o; velocityX := velocityX o; velocityY := v; flipX := flipX o;
     isDestroyed := isDestroyed o; updateListener := updateListener o;
     scene := scene o |}.
Definition set_flipX (v : bool) (o : Sprite) : Sprite :=
  {| x := x o; y := y o; velocityX := velocityX o; velocityY := velocityY o;
     flipX := v; isDestroyed := isDestroyed o; updateListener := updateListener o;
     scene := scene o |}.
Definition set_isDestroyed (v : bool) (o : Sprite) : Sprite :=
  {| x := x o; y := y o; velocityX := velocityX o; velocityY := velocityY o;
     flipX := flipX o; isDestroyed := v; updateListener := updateListener o;
     scene := scene o |}.
Definition set_updateListener (v : bool) (o : Sprite) : Sprite :=
  {| x := x o; y := y o; velocityX := velocityX o; velocityY := velocityY o;
     flipX := flipX o; isDestroyed := isDestroyed o; updateListener := v;
     scene := scene o |}.
Definition set_scene (v : bool) (o : Sprite) : Sprite :=
  {| x := x o; y := y o; velocityX := velocityX o; velocityY := velocityY o;
     flipX := flipX o; isDestroyed := isDestroyed o;
     updateListener := updateListener o; scene := v |}.

Record World : Type := {
  self : Sprite;   (* the newspaper, [this] *)
  player : Student.World;   (* the student and the clock of the scene *)
  uncaught : nat   (* exceptions that escaped into the game loop *)
}.

Definition set_self (v : Sprite) (w : World) : World :=
  {| self := v; player := player w; uncaught := uncaught w |}.
Definition set_player (v : Student.World) (w : World) : World :=
  {| self := self w; player := v; uncaught := uncaught w |}.
Definition set_uncaught (v : nat) (w : World) : World :=
  {| self := self w; player := player w; uncaught := v |}.

Definition JS (A : Type) : Type := M World A.

Definition this {A} (f : Sprite -> A) : JS A := gets (fun w => f (self w)).
Definition assign (f : Sprite -> Sprite) : JS unit :=
  modify (fun w => set_self (f (self w)) w).

Definition the_scene : JS unit :=
  fun w => if scene (self w) then Ok tt w else Throw w.

(** A method of the student, called on [player]. *)
Definition onPlayer {A} (m : Student.JS A) : JS A :=
  fun w => match m (player w) with
           | Ok a p => Ok a (set_player p w)
           | Throw p => Throw (set_player p w)
           end.

(** [constructor(scene, x, y, targetX)] with [setupNewspaper],
    [startSpinning] and [setupCleanup]. *)
Definition constructor (st : Stage) (xarg yarg targetX : Z) (p : Student.World) : World :=
  let throwDirection := if targetX >? xarg then 1 else -1 in
  let o := {| x := xarg; y := yarg;
              velocityX := inject_Z (HORIZONTAL_SPEED * throwDirection)
                           * speedMultiplier st;
              velocityY := inject_Z VERTICAL_SPEED * speedMultiplier st;
              flipX := throwDirection >? 0;
              isDestroyed := false;
              updateListener := true;
              scene := true |} in
  {| self := o; player := p; uncaught := 0 |}.

(** Phaser's [GameObject.destroy()]. *)
Definition destroy : JS unit := assign (set_scene false).

Definition cleanup : JS unit :=
  assign (set_isDestroyed true) ;;
  o <- this (fun o => o) ;;
  when (updateListener o && scene o) (assign (set_updateListener false)) ;;
  destroy.

Definition isOffScreen (st : Stage) (o : Sprite) : bool :=
  (x o <? -100) || (x o >? configWidth st + 100) || (y o >? configHeight st + 100).

(** [this.scene.game] is there whenever [this.scene] is. *)
Definition checkBounds (st : Stage) : JS unit :=
  o <- this (fun o => o) ;;
  if negb (scene o) then ret tt
  else when (isOffScreen st o) cleanup.

(** The closure stored in [this.updateListener]. *)
Definition listener (st : Stage) : JS unit :=
  gone <- this isDestroyed ;;
  if gone then ret tt else checkBounds st.

Definition createImpactEffect : JS unit := the_scene.

Definition hitPlayer : JS unit :=
  _ <- onPlayer (Student.takeDamage DAMAGE) ;;
  createImpactEffect ;;
  cleanup.

Inductive Event : Type :=
| EvUpdate (xx yy : Z)   (* the body has moved to (xx, yy); the scene emits 'update' *)
| EvOverlap              (* the owner's overlap callback calls [hitPlayer(player)] *)
| EvCleanup.             (* the owner calls [cleanup()] *)

Definition settle (r : Res World unit) : World :=
  match r with
  | Ok _ w => w
  | Throw w => set_uncaught (S (uncaught w)) w
  end.

Definition step (st : Stage) (w : World) (ev : Event) : World :=
  match ev with
  | EvUpdate xx yy =>
      let w1 := if scene (self w)
                then set_self (set_y yy (set_x xx (self w))) w
                else w in
      if updateListener (self w1) then settle (listener st w1) else w1
  | EvOverlap => settle (hitPlayer w)
  | EvCleanup => settle (cleanup w)
  end.

Definition run (st : Stage) (w : World) (evs : list Event) : World :=
  fold_left (step st) evs w.

End Newspaper.

(** ** [class WordBubble] (js/sprites/WordBubble.js) *)

Module WordBubble.

Definition DAMAGE : Z := 12.
Definition FALL_SPEED : Z := 250.
Definition DRIFT_SPEED : Z := 30.

(** What an overlap callback may be handed as an argument. *)
Inductive Arg : Type :=
| Nothing      (* undefined *)
| TheBubble    (* the bubble itself: truthy, but without [takeDamage] *)
| ThePlayer.   (* the student *)

Record Sprite : Type := {
  x : Z;   (* moved by the physics step *)
  y : Z;
  velocityX : Q;
  velocityY : Q;
  hasHitPlayer : bool;
  isDestroyed : bool;
  listening : bool;   (* the three 'update' listeners are registered *)
  scene : bool   (* [this.scene] is defined *)
}.

Definition set_x (v : Z) (o : Sprite) : Sprite :=
  {| x := v; y := y o; velocityX := velocityX o; velocityY := velocityY o;
     hasHitPlayer := hasHitPlayer o; isDestroyed := isDestroyed o;
     listening := listening o; scene := scene o |}.
Definition set_y (v : Z) (o : Sprite) : Sprite :=
  {| x := x o; y := v; velocityX := velocityX o; velocityY := velocityY o;
     hasHitPlayer := hasHitPlayer o; isDestroyed := isDestroyed o;
     listening := listening o; scene := scene o |}.
Definition set_velocityX (v : Q) (o : Sprite) : Sprite :=
  {| x := x o; y := y o; velocityX := v; velocityY := velocityY o;
     hasHitPlayer := hasHitPlayer o; isDestroyed := isDestroyed o;
     listening := listening o; scene := scene o |}.
Definition set_velocityY (v : Q) (o : Sprite) : Sprite :=
  {| x := x o; y := y o; velocityX := velocityX o; velocityY := v;
     hasHitPlayer := hasHitPlayer o; isDestroyed := isDestroyed o;
     listening := listening o; scene := scene o |}.
Definition set_hasHitPlayer (v : bool) (o : Sprite) : Sprite :=
  {| x := x o; y := y o; velocityX := velocityX o; velocityY := velocityY o;
     hasHitPlayer := v; isDestroyed := isDestroyed o; listening := listening o;
     scene := scene o |}.
Definition set_isDestroyed (v : bool) (o : Sprite) : Sprite :=
  {| x := x o; y := y o; velocityX := velocityX o; velocityY := velocityY o;
     hasHitPlayer := hasHitPlayer o; isDestroyed := v; listening := listening o;
     scene := scene o |}.
Definition set_listening (v : bool) (o : Sprite) : Sprite :=
  {| x := x o; y := y o; velocityX := velocityX o; velocityY := velocityY o;
     hasHitPlayer := hasHitPlayer o; isDestroyed := isDestroyed o; listening := v;
     scene := scene o |}.
Definition set_scene (v : bool) (o : Sprite) : Sprite :=
  {| x := x o; y := y o; velocityX := velocityX o; velocityY := velocityY o;
     hasHitPlayer := hasHitPlayer o; isDestroyed := isDestroyed o;
     listening := listening o; scene := v |}.

Record World : Type := {
  self : Sprite;   (* the word bubble, [this] *)
  player : Student.World;   (* the student and the clock of the scene *)
  hits : nat;   (* hits announced on the console *)
  uncaught : nat   (* exceptions that escaped into the game loop *)
}.

Definition set_self (v : Sprite) (w : World) : World :=
  {| self := v; player := player w; hits := hits w; uncaught := uncaught w |}.
Definition set_player (v : Student.World) (w : World) : World :=
  {| self := self w; player := v; hits := hits w; uncaught := uncaught w |}.
Definition set_hits (v : nat) (w : World) : World :=
  {| self := self w; player := player w; hits := v; uncaught := uncaught w |}.
Definition set_uncaught (v : nat) (w : World) : World :=
  {| self := self w; player := player w; hits := hits w; uncaught := v |}.

Definition JS (A : Type) : Type := M World A.

Definition this {A} (f : Sprite -> A) : JS A := gets (fun w => f (self w)).
Definition assign (f : Sprite -> Sprite) : JS unit :=
  modify (fun w => set_self (f (self w)) w).

Definition the_scene : JS unit :=
  fun w => if scene (self w) then Ok tt w else Throw w.

Definition onPlayer {A} (m : Student.JS A) : JS A :=
  fun w => match m (player w) with
           | Ok a p => Ok a (set_player p w)
           | Throw p => Throw (set_player p w)
           end.

(** [constructor(scene, x, y)] with [setupWordBubble], [createMessageText],
    [createMeteorTrail] and [setupCleanup]; [e] is the random source. *)
Definition constructor (st : Stage) (e : Env) (xarg yarg : Z) (p : Student.World) : World :=
  let drift := Between e (- DRIFT_SPEED) DRIFT_SPEED in
  let o := {| x := xarg; y := yarg;
              velocityX := inject_Z drift * speedMultiplier st;
              velocityY := inject_Z FALL_SPEED * speedMultiplier st;
              hasHitPlayer := false;
              isDestroyed := false;
              listening := true;
              scene := true |} in
  {| self := o; player := p; hits := 0; uncaught := 0 |}.

Definition destroy : JS unit := assign (set_scene false).

Definition cleanup : JS unit :=
  gone <- this isDestroyed ;;
  if gone then ret tt
  else
    assign (set_isDestroyed true) ;;
    the_scene ;;   (* scene.events.off, three times *)
    assign (set_listening false) ;;
    destroy.

Definition showHitEffect : JS unit := the_scene.

(** [maybePlayer || bubbleOrPlayer] *)
Definition pick (bubbleOrPlayer maybePlayer : Arg) : Arg :=
  match maybePlayer with
  | Nothing => bubbleOrPlayer
  | _ => maybePlayer
  end.

Definition hitPlayer (bubbleOrPlayer maybePlayer : Arg) : JS unit :=
  o <- this (fun o => o) ;;
  if hasHitPlayer o || isDestroyed o then ret tt
  else
    assign (set_hasHitPlayer true) ;;
    match pick bubbleOrPlayer maybePlayer with
    | ThePlayer =>
        modify (fun w => set_hits (S (hits w)) w) ;;
        _ <- onPlayer (Student.takeDamage DAMAGE) ;;
        showHitEffect ;;
        cleanup
    | _ => cleanup
    end.

Definition checkOffScreen : JS unit :=
  o <- this (fun o => o) ;;
  if isDestroyed o then ret tt
  else when (y o >? 700) cleanup.

Inductive Event : Type :=
| EvUpdate (xx yy : Z)       (* the body has moved; the scene emits 'update' *)
| EvOverlap (a b : Arg)      (* an overlap callback calls [hitPlayer(a, b)] *)
| EvCleanup                  (* the bully calls [cleanup()] *)
| EvPlayer (ev : Student.Event).   (* something happens to the student *)

Definition settle (r : Res World unit) : World :=
  match r with
  | Ok _ w => w
  | Throw w => set_uncaught (S (uncaught w)) w
  end.

Definition step (w : World) (ev : Event) : World :=
  match ev with
  | EvUpdate xx yy =>
      let w1 := if scene (self w)
                then set_self (set_y yy (set_x xx (self w))) w
                else w in
      if listening (self w1) then settle (checkOffScreen w1) else w1
  | EvOverlap a b => settle (hitPlayer a b w)
  | EvCleanup => settle (cleanup w)
  | EvPlayer ev => set_player (Student.step (player w) ev) w
  end.

Definition run (w : World) (evs : list Event) : World := fold_left step evs w.

(** Nothing else hurts or heals the student. *)
Definition calm (ev : Event) : bool :=
  match ev with
  | EvPlayer (Student.EvDamage _) | EvPlayer (Student.EvHeal _) => false
  | _ => true
  end.

End WordBubble.

(** ** [class Squirrel] (js/sprites/Squirrel.js) *)

Module Squirrel.

Definition DAMAGE : Z := 15.
Definition RUN_SPEED : Z := -180.
Definition TRANSFORM_DELAY : Z := 800.
Definition START_RUNNING_DELAY : Z := 1200.

(** The closures handed to the scene clock by [startBehaviorSequence]. *)
Inductive Callback : Type :=
| CbTransform   (* guarded [this.transformToEvil()] *)
| CbRun.        (* guarded [this.startRunning()] *)

Record Sprite : Type := {
  x : Z;   (* moved by the physics step *)
  y : Z;
  velocityX : Q;
  flipX : bool;
  isEvil : bool;
  isRunning : bool;
  hasHitPlayer : bool;
  isDestroyed : bool;
  colliding : bool;   (* the overlap with the student is registered *)
  listening : bool;   (* [update] is registered on 'update' *)
  scene : bool   (* [this.scene] is defined *)
}.

Definition set_x (v : Z) (o : Sprite) : Sprite :=
  {| x := v; y := y o; velocityX := velocityX o; flipX := flipX o; isEvil := isEvil o;
     isRunning := isRunning o; hasHitPlayer := hasHitPlayer o;
     isDestroyed := isDestroyed o; colliding := colliding o; listening := listening o;
     scene := scene o |}.
Definition set_y (v : Z) (o : Sprite) : Sprite :=
  {| x := x o; y := v; velocityX := velocityX o; flipX := flipX o; isEvil := isEvil o;
     isRunning := isRunning o; hasHitPlayer := hasHitPlayer o;
     isDestroyed := isDestroyed o; colliding := colliding o; listening := listening o;
     scene := scene o |}.
Definition set_velocityX (v : Q) (o : Sprite) : Sprite :=
  {| x := x o; y := y o; velocityX := v; flipX := flipX o; isEvil := isEvil o;
     isRunning := isRunning o; hasHitPlayer := hasHitPlayer o;
     isDestroyed := isDestroyed o; colliding := colliding o; listening := listening o;
     scene := scene o |}.
Definition set_flipX (v : bool) (o : Sprite) : Sprite :=
  {| x := x o; y := y o; velocityX := velocityX o; flipX := v; isEvil := isEvil o;
     isRunning := isRunning o; hasHitPlayer := hasHitPlayer o;
     isDestroyed := isDestroyed o; colliding := colliding o; listening := listening o;
     scene := scene o |}.
Definition set_isEvil (v : bool) (o : Sprite) : Sprite :=
  {| x := x o; y := y o; velocityX := velocityX o; flipX := flipX o; isEvil := v;
     isRunning := isRunning o; hasHitPlayer := hasHitPlayer o;
     isDestroyed := isDestroyed o; colliding := colliding o; listening := listening o;
     scene := scene o |}.
Definition set_isRunning (v : bool) (o : Sprite) : Sprite :=
  {| x := x o; y := y o; velocityX := velocityX o; flipX := flipX o;
     isEvil := isEvil o; isRunning := v; hasHitPlayer := hasHitPlayer o;
     isDestroyed := isDestroyed o; colliding := colliding o; listening := listening o;
     scene := scene o |}.
Definition set_hasHitPlayer (v : bool) (o : Sprite) : Sprite :=
  {| x := x o; y := y o; velocityX := velocityX o; flipX := flipX o;
     isEvil := isEvil o; isRunning := isRunning o; hasHitPlayer := v;
     isDestroyed := isDestroyed o; colliding := colliding o; listening := listening o;
     scene := scene o |}.
Definition set_isDestroyed (v : bool) (o : Sprite) : Sprite :=
  {| x := x o; y := y o; velocityX := velocityX o; flipX := flipX o;
     isEvil := isEvil o; isRunning := isRunning o; hasHitPlayer := hasHitPlayer o;
     isDestroyed := v; colliding := colliding o; listening := listening o;
     scene := scene o |}.
Definition set_colliding (v : bool) (o : Sprite) : Sprite :=
  {| x := x o; y := y o; velocityX := velocityX o; flipX := flipX o;
     isEvil := isEvil o; isRunning := isRunning o; hasHitPlayer := hasHitPlayer o;
     isDestroyed := isDestroyed o; colliding := v; listening := listening o;
     scene := scene o |}.
Definition set_listening (v : bool) (o : Sprite) : Sprite :=
  {| x := x o; y := y o; velocityX := velocityX o; flipX := flipX o;
     isEvil := isEvil o; isRunning := isRunning o; hasHitPlayer := hasHitPlayer o;
     isDestroyed := isDestroyed o; colliding := colliding o; listening := v;
     scene := scene o |}.
Definition set_scene (v : bool) (o : Sprite) : Sprite :=
  {| x := x o; y := y o; velocityX := velocityX o; flipX := flipX o;
     isEvil := isEvil o; isRunning := isRunning o; hasHitPlayer := hasHitPlayer o;
     isDestroyed := isDestroyed o; colliding := colliding o; listening := listening o;
     scene := v |}.

Record World : Type := {
  self : Sprite;   (* the squirrel, [this] *)
  time : Clock Callback;   (* [scene.time], the squirrel's events *)
  player : option Student.World;   (* [scene.student] with its clock, when there is one *)
  hits : nat;   (* hits announced on the console *)
  uncaught : nat   (* exceptions that escaped into the game loop *)
}.

Definition set_self (v : Sprite) (w : World) : World :=
  {| self := v; time := time w; player := player w; hits := hits w;
     uncaught := uncaught w |}.
Definition set_time (v : Clock Callback) (w : World) : World :=
  {| self := self w; time := v; player := player w; hits := hits w;
     uncaught := uncaught w |}.
Definition set_player (v : option Student.World) (w : World) : World :=
  {| self := self w; time := time w; player := v; hits := hits w;
     uncaught := uncaught w |}.
Definition set_hits (v : nat) (w : World) : World :=
  {| self := self w; time := time w; player := player w; hits := v;
     uncaught := uncaught w |}.
Definition set_uncaught (v : nat) (w : World) : World :=
  {| self := self w; time := time w; player := player w; hits := hits w;
     uncaught := v |}.

Definition JS (A : Type) : Type := M World A.

Definition this {A} (f : Sprite -> A) : JS A := gets (fun w => f (self w)).
Definition assign (f : Sprite -> Sprite) : JS unit :=
  modify (fun w => set_self (f (self w)) w).

Definition the_scene : JS unit :=
  fun w => if scene (self w) then Ok tt w else Throw w.

(** [player.takeDamage(amount)] on the student of the scene. *)
Definition damagePlayer (amount : Z) : JS unit :=
  fun w => match player w with
           | Some p => Ok tt (set_player (Some (final (Student.takeDamage amount p))) w)
           | None => Throw w
           end.

(** [constructor(scene, x, y)] with [setupSquirrel] and
    [startBehaviorSequence]; [clk] is the clock of the scene and [p] its
    student. *)
Definition constructor (clk : Clock Callback) (xarg yarg : Z)
    (p : option Student.World) : World :=
  let (_, c1) := schedule TRANSFORM_DELAY false CbTransform clk in
  let (_, c2) := schedule START_RUNNING_DELAY false CbRun c1 in
  let o := {| x := xarg; y := yarg; velocityX := 0; flipX := false;
              isEvil := false; isRunning := false; hasHitPlayer := false;
              isDestroyed := false; colliding := false; listening := false;
              scene := true |} in
  {| self := o; time := c2; player := p; hits := 0; uncaught := 0 |}.

Definition destroy : JS unit := assign (set_scene false).

Definition showEvilIndicator : JS unit :=
  gone <- this isDestroyed ;;
  if gone then ret tt else the_scene.

Definition transformToEvil : JS unit :=
  gone <- this isDestroyed ;;
  if gone then ret tt
  else
    assign (set_isEvil true) ;;
    the_scene ;;
    showEvilIndicator.

Definition setupPlayerCollision : JS unit :=
  the_scene ;;
  p <- gets player ;;
  gone <- this isDestroyed ;;
  match p with
  | None => ret tt
  | Some _ => if gone then ret tt else assign (set_colliding true)
  end.

Definition setupCleanup : JS unit :=
  the_scene ;;
  assign (set_listening true).

Definition startRunning (st : Stage) : JS unit :=
  gone <- this isDestroyed ;;
  if gone then ret tt
  else
    assign (set_isRunning true) ;;
    assign (set_flipX true) ;;
    the_scene ;;
    assign (set_velocityX (inject_Z RUN_SPEED * speedMultiplier st)) ;;
    the_scene ;;   (* the run tween *)
    setupPlayerCollision ;;
    setupCleanup.

Definition showVictoryMessage : JS unit :=
  gone <- this isDestroyed ;;
  if gone then ret tt else the_scene.

(** [RUN_SPEED * 1.5] is -270. *)
Definition hitPlayer : JS unit :=
  o <- this (fun o => o) ;;
  if hasHitPlayer o || isDestroyed o then ret tt
  else
    assign (set_hasHitPlayer true) ;;
    modify (fun w => set_hits (S (hits w)) w) ;;
    damagePlayer DAMAGE ;;
    assign (set_velocityX (inject_Z (RUN_SPEED * 3 / 2))) ;;
    showVictoryMessage.

Definition cleanup : JS unit :=
  gone <- this isDestroyed ;;
  if gone then ret tt
  else
    assign (set_isDestroyed true) ;;
    the_scene ;;   (* scene.events.off *)
    assign (set_listening false) ;;
    destroy.

Definition update : JS unit :=
  o <- this (fun o => o) ;;
  if isDestroyed o then ret tt
  else when (x o <? -50) cleanup.

Definition run_callback (st : Stage) (cb : Callback) : JS unit :=
  gone <- this isDestroyed ;;
  match cb with
  | CbTransform => if negb gone then transformToEvil else ret tt
  | CbRun => if negb gone then startRunning st else ret tt
  end.

Inductive Event : Type :=
| EvTimer (h : nat)              (* the clock fires event [h] *)
| EvUpdate (xx : Z)              (* the body has moved; the scene emits 'update' *)
| EvOverlap                      (* the body overlaps the student's *)
| EvCleanup                      (* someone calls [cleanup()] *)
| EvPlayer (ev : Student.Event). (* something happens to the student *)

Definition settle (r : Res World unit) : World :=
  match r with
  | Ok _ w => w
  | Throw w => set_uncaught (S (uncaught w)) w
  end.

Definition step (st : Stage) (w : World) (ev : Event) : World :=
  match ev with
  | EvTimer h =>
      match lookup h (time w) with
      | None => w
      | Some t => settle (run_callback st (callback t)
                            (set_time (dispatch t (time w)) w))
      end
  | EvUpdate xx =>
      let w1 := if scene (self w) then set_self (set_x xx (self w)) w else w in
      if listening (self w1) then settle (update w1) else w1
  | EvOverlap =>
      (* the overlap is reported once it is registered *)
      if colliding (self w) then settle (hitPlayer w) else w
  | EvCleanup => settle (cleanup w)
  | EvPlayer ev => set_player (option_map (fun p => Student.step p ev) (player w)) w
  end.

Definition run (st : Stage) (w : World) (evs : list Event) : World :=
  fold_left (step st) evs w.

Definition calm (ev : Event) : bool :=
  match ev with
  | EvPlayer (Student.EvDamage _) | EvPlayer (Student.EvHeal _) => false
  | _ => true
  end.

(** The confidence of the student of the scene; 0 without one. *)
Definition playerConfidence (w : World) : Z :=
  match player w with
  | Some p => Student.confidence (Student.self p)
  | None => 0
  end.

(** The squirrel has not hit more than once, has taken at most [DAMAGE] from
    the student, and could only do so after it started to run. *)
Definition harmless_so_far (c0 : Z) (w : World) : Prop :=
  c0 <= playerConfidence w - (if hasHitPlayer (self w) then 0 else DAMAGE) /\
  (hits w <= (if hasHitPlayer (self w) then 1 else 0))%nat /\
  (colliding (self w) = true -> isRunning (self w) = true) /\
  (hasHitPlayer (self w) = true -> isRunning (self w) = true).

End Squirrel.

(** ** [class PowerUp] (js/sprites/PowerUp.js) *)

Module PowerUp.

Definition CONFIDENCE_BOOST : Z := 15.

(** [PowerUp.TYPES] *)
Inductive Kind : Type := chocolate | caramel_apple.

Record Sprite : Type := {
  x : Z;   (* nothing moves a power-up sideways *)
  y : Z;   (* the constructor's y; the float tween swings 8 pixels above it *)
  powerUpType : Kind;   (* const *)
  isCollected : bool;
  isDestroyed : bool;
  colliding : bool;   (* the overlap with the student is registered *)
  vanishing : bool;   (* the collection tween is running *)
  scene : bool   (* [this.scene] is defined *)
}.

Definition set_x (v : Z) (o : Sprite) : Sprite :=
  {| x := v; y := y o; powerUpType := powerUpType o; isCollected := isCollected o;
     isDestroyed := isDestroyed o; colliding := colliding o; vanishing := vanishing o;
     scene := scene o |}.
Definition set_y (v : Z) (o : Sprite) : Sprite :=
  {| x := x o; y := v; powerUpType := powerUpType o; isCollected := isCollected o;
     isDestroyed := isDestroyed o; colliding := colliding o; vanishing := vanishing o;
     scene := scene o |}.
Definition set_isCollected (v : bool) (o : Sprite) : Sprite :=
  {| x := x o; y := y o; powerUpType := powerUpType o; isCollected := v;
     isDestroyed := isDestroyed o; colliding := colliding o; vanishing := vanishing o;
     scene := scene o |}.
Definition set_isDestroyed (v : bool) (o : Sprite) : Sprite :=
  {| x := x o; y := y o; powerUpType := powerUpType o; isCollected := isCollected o;
     isDestroyed := v; colliding := colliding o; vanishing := vanishing o;
     scene := scene o |}.
Definition set_colliding (v : bool) (o : Sprite) : Sprite :=
  {| x := x o; y := y o; powerUpType := powerUpType o; isCollected := isCollected o;
     isDestroyed := isDestroyed o; colliding := v; vanishing := vanishing o;
     scene := scene o |}.
Definition set_vanishing (v : bool) (o : Sprite) : Sprite :=
  {| x := x o; y := y o; powerUpType := powerUpType o; isCollected := isCollected o;
     isDestroyed := isDestroyed o; colliding := colliding o; vanishing := v;
     scene := scene o |}.
Definition set_scene (v : bool) (o : Sprite) : Sprite :=
  {| x := x o; y := y o; powerUpType := powerUpType o; isCollected := isCollected o;
     isDestroyed := isDestroyed o; colliding := colliding o; vanishing := vanishing o;
     scene := v |}.

Record World : Type := {
  self : Sprite;   (* the power-up, [this] *)
  player : Student.World;   (* the student and the clock of the scene *)
  uncaught : nat   (* exceptions that escaped into the game loop *)
}.

Definition set_self (v : Sprite) (w : World) : World :=
  {| self := v; player := player w; uncaught := uncaught w |}.
Definition set_player (v : Student.World) (w : World) : World :=
  {| self := self w; player := v; uncaught := uncaught w |}.
Definition set_uncaught (v : nat) (w : World) : World :=
  {| self := self w; player := player w; uncaught := v |}.

Definition JS (A : Type) : Type := M World A.

Definition this {A} (f : Sprite -> A) : JS A := gets (fun w => f (self w)).
Definition assign (f : Sprite -> Sprite) : JS unit :=
  modify (fun w => set_self (f (self w)) w).

Definition the_scene : JS unit :=
  fun w => if scene (self w) then Ok tt w else Throw w.

Definition onPlayer {A} (m : Student.JS A) : JS A :=
  fun w => match m (player w) with
           | Ok a p => Ok a (set_player p w)
           | Throw p => Throw (set_player p w)
           end.

(** [constructor(scene, x, y, type)], the type already picked; the scene has a
    student, so [setupPlayerCollision] registers the overlap. *)
Definition constructor (xarg yarg : Z) (type : Kind) (p : Student.World) : World :=
  let o := {| x := xarg; y := yarg; powerUpType := type;
              isCollected := false; isDestroyed := false;
              colliding := true; vanishing := false; scene := true |} in
  {| self := o; player := p; uncaught := 0 |}.

Definition destroy : JS unit := assign (set_scene false).

Definition cleanup : JS unit :=
  gone <- this isDestroyed ;;
  if gone then ret tt
  else
    assign (set_isDestroyed true) ;;
    the_scene ;;   (* scene.events.off *)
    destroy.

Definition showCollectionEffect : JS unit := the_scene.

(** The tween calls [cleanup()] when it completes. *)
Definition playCollectionAnimation : JS unit :=
  the_scene ;;   (* tweens.killTweensOf(this) *)
  assign (set_vanishing true).

Definition collect : JS unit :=
  o <- this (fun o => o) ;;
  if isCollected o || isDestroyed o then ret tt
  else
    assign (set_isCollected true) ;;
    onPlayer (Student.heal CONFIDENCE_BOOST) ;;
    showCollectionEffect ;;
    playCollectionAnimation.

Inductive Event : Type :=
| EvOverlap                      (* the overlap callback calls [collect] *)
| EvTweenComplete                (* the collection tween completes *)
| EvCleanup                      (* the manager calls [cleanup()] *)
| EvPlayer (ev : Student.Event). (* something happens to the student *)

Definition settle (r : Res World unit) : World :=
  match r with
  | Ok _ w => w
  | Throw w => set_uncaught (S (uncaught w)) w
  end.

Definition step (w : World) (ev : Event) : World :=
  match ev with
  | EvOverlap => if colliding (self w) then settle (collect w) else w
  | EvTweenComplete =>
      if vanishing (self w)
      then settle (cleanup (set_self (set_vanishing false (self w)) w))
      else w
  | EvCleanup => settle (cleanup w)
  | EvPlayer ev => set_player (Student.step (player w) ev) w
  end.

Definition run (w : World) (evs : list Event) : World := fold_left step evs w.

Definition calm (ev : Event) : bool :=
  match ev with
  | EvPlayer (Student.EvDamage _) | EvPlayer (Student.EvHeal _) => false
  | _ => true
  end.

End PowerUp.

(** ** [class FallingCandyBar] (js/sprites/FallingCandyBar.js) *)

Module FallingCandyBar.

Definition CONFIDENCE_BOOST : Z := 15.
Definition FALL_SPEED : Z := 150.
Definition DRIFT_SPEED : Z := 20.
Definition SPAWN_INTERVAL_PIXELS : Z := 2500.

(** The closures handed to the scene clock by [setupCleanup] and by
    [showCollectEffect]. *)
Inductive Callback : Type :=
| CbBounds    (* every 100 ms: clean up once below the screen *)
| CbBurstEnd. (* 600 ms after the collection: [burst.destroy()] *)

Record Sprite : Type := {
  x : Z;   (* moved by the physics step *)
  y : Z;
  velocityX : Q;
  velocityY : Q;
  rotationSpeed : Z;   (* const *)
  isCollected : bool;
  isDestroyed : bool;
  colliding : bool;   (* the overlap with the student is registered *)
  scene : bool   (* [this.scene] is defined *)
}.

Definition set_x (v : Z) (o : Sprite) : Sprite :=
  {| x := v; y := y o; velocityX := velocityX o; velocityY := velocityY o;
     rotationSpeed := rotationSpeed o; isCollected := isCollected o;
     isDestroyed := isDestroyed o; colliding := colliding o; scene := scene o |}.
Definition set_y (v : Z) (o : Sprite) : Sprite :=
  {| x := x o; y := v; velocityX := velocityX o; velocityY := velocityY o;
     rotationSpeed := rotationSpeed o; isCollected := isCollected o;
     isDestroyed := isDestroyed o; colliding := colliding o; scene := scene o |}.
Definition set_velocityX (v : Q) (o : Sprite) : Sprite :=
  {| x := x o; y := y o; velocityX := v; velocityY := velocityY o;
     rotationSpeed := rotationSpeed o; isCollected := isCollected o;
     isDestroyed := isDestroyed o; colliding := colliding o; scene := scene o |}.
Definition set_velocityY (v : Q) (o : Sprite) : Sprite :=
  {| x := x o; y := y o; velocityX := velocityX o; velocityY := v;
     rotationSpeed := rotationSpeed o; isCollected := isCollected o;
     isDestroyed := isDestroyed o; colliding := colliding o; scene := scene o |}.
Definition set_isCollected (v : bool) (o : Sprite) : Sprite :=
  {| x := x o; y := y o; velocityX := velocityX o; velocityY := velocityY o;
     rotationSpeed := rotationSpeed o; isCollected := v; isDestroyed := isDestroyed o;
     colliding := colliding o; scene := scene o |}.
Definition set_isDestroyed (v : bool) (o : Sprite) : Sprite :=
  {| x := x o; y := y o; velocityX := velocityX o; velocityY := velocityY o;
     rotationSpeed := rotationSpeed o; isCollected := isCollected o; isDestroyed := v;
     colliding := colliding o; scene := scene o |}.
Definition set_colliding (v : bool) (o : Sprite) : Sprite :=
  {| x := x o; y := y o; velocityX := velocityX o; velocityY := velocityY o;
     rotationSpeed := rotationSpeed o; isCollected := isCollected o;
     isDestroyed := isDestroyed o; colliding := v; scene := scene o |}.
Definition set_scene (v : bool) (o : Sprite) : Sprite :=
  {| x := x o; y := y o; velocityX := velocityX o; velocityY := velocityY o;
     rotationSpeed := rotationSpeed o; isCollected := isCollected o;
     isDestroyed := isDestroyed o; colliding := colliding o; scene := v |}.

Record World : Type := {
  self : Sprite;   (* the candy bar, [this] *)
  time : Clock Callback;   (* [scene.time], the candy bar's events *)
  player : Student.World;   (* the student and the clock of the scene *)
  uncaught : nat   (* exceptions that escaped into the game loop *)
}.

Definition set_self (v : Sprite) (w : World) : World :=
  {| self := v; time := time w; player := player w; uncaught := uncaught w |}.
Definition set_time (v : Clock Callback) (w : World) : World :=
  {| self := self w; time := v; player := player w; uncaught := uncaught w |}.
Definition set_player (v : Student.World) (w : World) : World :=
  {| self := self w; time := time w; player := v; uncaught := uncaught w |}.
Definition set_uncaught (v : nat) (w : World) : World :=
  {| self := self w; time := time w; player := player w; uncaught := v |}.

Definition JS (A : Type) : Type := M World A.

Definition this {A} (f : Sprite -> A) : JS A := gets (fun w => f (self w)).
Definition assign (f : Sprite -> Sprite) : JS unit :=
  modify (fun w => set_self (f (self w)) w).

Definition the_scene : JS unit :=
  fun w => if scene (self w) then Ok tt w else Throw w.

Definition onPlayer {A} (m : Student.JS A) : JS A :=
  fun w => match m (player w) with
           | Ok a p => Ok a (set_player p w)
           | Throw p => Throw (set_player p w)
           end.

(** [constructor(scene, x, y)] with [setupCandyBar], [createSparkleTrail],
    [setupPlayerCollision] and [setupCleanup]; the scene has a student. *)
Definition constructor (st : Stage) (e : Env) (clk : Clock Callback) (xarg yarg : Z)
    (p : Student.World) : World :=
  let drift := Between e (- DRIFT_SPEED) DRIFT_SPEED in
  let (_, c) := schedule 100 true CbBounds clk in
  let o := {| x := xarg; y := yarg;
              velocityX := inject_Z drift;
              velocityY := inject_Z FALL_SPEED * speedMultiplier st;
              rotationSpeed := Between e (-2) 2;
              isCollected := false; isDestroyed := false;
              colliding := true; scene := true |} in
  {| self := o; time := c; player := p; uncaught := 0 |}.

Definition destroy : JS unit := assign (set_scene false).

Definition cleanup : JS unit :=
  gone <- this isDestroyed ;;
  if gone then ret tt
  else
    assign (set_isDestroyed true) ;;
    the_scene ;;   (* scene.events.off *)
    destroy.

Definition delayedCall (d : Z) (cb : Callback) : JS nat :=
  fun w => let (h, c) := schedule d false cb (time w) in Ok h (set_time c w).

(** [particle]: the scene has the particle texture. *)
Definition showCollectEffect (particle : bool) : JS unit :=
  the_scene ;;   (* scene.add.text, scene.tweens.add *)
  when particle
    (_ <- delayedCall 600 CbBurstEnd ;;
     ret tt).

(** The overlap hands over the student, which has [heal]. *)
Definition collectCandyBar (particle : bool) : JS unit :=
  o <- this (fun o => o) ;;
  if isCollected o || isDestroyed o then ret tt
  else
    assign (set_isCollected true) ;;
    onPlayer (Student.heal CONFIDENCE_BOOST) ;;
    showCollectEffect particle ;;
    cleanup.

(** The closure of [setupCleanup]. *)
Definition boundsCheck : JS unit :=
  o <- this (fun o => o) ;;
  if isDestroyed o then ret tt
  else when (y o >? 650) cleanup.

Definition run_callback (cb : Callback) : JS unit :=
  match cb with
  | CbBounds => boundsCheck
  | CbBurstEnd => ret tt   (* only the burst is destroyed *)
  end.

Inductive Event : Type :=
| EvTimer (h : nat)              (* the clock fires event [h] *)
| EvMove (xx yy : Z)             (* the physics step has moved the body *)
| EvOverlap (particle : bool)    (* the overlap callback calls [collectCandyBar] *)
| EvCleanup                      (* the manager calls [cleanup()] *)
| EvPlayer (ev : Student.Event). (* something happens to the student *)

Definition settle (r : Res World unit) : World :=
  match r with
  | Ok _ w => w
  | Throw w => set_uncaught (S (uncaught w)) w
  end.

Definition step (w : World) (ev : Event) : World :=
  match ev with
  | EvTimer h =>
      match lookup h (time w) with
      | None => w
      | Some t => settle (run_callback (callback t)
                            (set_time (dispatch t (time w)) w))
      end
  | EvMove xx yy =>
      if scene (self w) then set_self (set_y yy (set_x xx (self w))) w else w
  | EvOverlap particle =>
      if colliding (self w) then settle (collectCandyBar particle w) else w
  | EvCleanup => settle (cleanup w)
  | EvPlayer ev => set_player (Student.step (player w) ev) w
  end.

Definition run (w : World) (evs : list Event) : World := fold_left step evs w.

Definition calm (ev : Event) : bool :=
  match ev with
  | EvPlayer (Student.EvDamage _) | EvPlayer (Student.EvHeal _) => false
  | _ => true
  end.

(** The bounds check of [setupCleanup] is in the clock: it is the first
    pending event, it loops, and no other event has its handle. *)
Definition is_bounds (cb : Callback) : bool :=
  match cb with
  | CbBounds => true
  | CbBurstEnd => false
  end.

Definition bounds_armed (c : Clock Callback) : bool :=
  match pending c with
  | b :: rest =>
      Nat.eqb (tid b) 0 && loop b && is_bounds (callback b)
      && forallb (fun t => negb (Nat.eqb (tid t) 0)) rest
      && Nat.ltb 0 (next_id c)
  | [] => false
  end.

(** The student, who had confidence [c0] before the candy bar, has been
    healed by it once if it is collected and not at all otherwise. *)
Definition healed_once (c0 : Z) (w : World) : Prop :=
  Student.confidence (Student.self (player w))
  = (if isCollected (self w)
     then Z.min Student.MAX_CONFIDENCE (c0 + CONFIDENCE_BOOST) else c0).

End FallingCandyBar.

(** ** [class PowerUpManager] (js/managers/PowerUpManager.js)

    The manager keeps references to the power-ups and candy bars it has
    created; the objects themselves belong to the scene, where overlaps and
    tweens change them behind the manager's back.  The bounds timers of the
    candy bars are left to [FallingCandyBar]. *)

Module PowerUpManager.

Definition SPAWN_INTERVAL : Z := 600.
Definition SPAWN_Y : Z := 520.

Record Manager : Type := {
  powerUps : list nat;   (* references to power-ups of the scene *)
  fallingCandyBars : list nat;   (* references to candy bars of the scene *)
  lastSpawnDistance : Z;
  lastCandyBarDistance : Z;
  bonusSpawnPending : bool
}.

Definition set_powerUps (v : list nat) (o : Manager) : Manager :=
  {| powerUps := v; fallingCandyBars := fallingCandyBars o;
     lastSpawnDistance := lastSpawnDistance o;
     lastCandyBarDistance := lastCandyBarDistance o;
     bonusSpawnPending := bonusSpawnPending o |}.
Definition set_fallingCandyBars (v : list nat) (o : Manager) : Manager :=
  {| powerUps := powerUps o; fallingCandyBars := v;
     lastSpawnDistance := lastSpawnDistance o;
     lastCandyBarDistance := lastCandyBarDistance o;
     bonusSpawnPending := bonusSpawnPending o |}.
Definition set_lastSpawnDistance (v : Z) (o : Manager) : Manager :=
  {| powerUps := powerUps o; fallingCandyBars := fallingCandyBars o;
     lastSpawnDistance := v; lastCandyBarDistance := lastCandyBarDistance o;
     bonusSpawnPending := bonusSpawnPending o |}.
Definition set_lastCandyBarDistance (v : Z) (o : Manager) : Manager :=
  {| powerUps := powerUps o; fallingCandyBars := fallingCandyBars o;
     lastSpawnDistance := lastSpawnDistance o; lastCandyBarDistance := v;
     bonusSpawnPending := bonusSpawnPending o |}.
Definition set_bonusSpawnPending (v : bool) (o : Manager) : Manager :=
  {| powerUps := powerUps o; fallingCandyBars := fallingCandyBars o;
     lastSpawnDistance := lastSpawnDistance o;
     lastCandyBarDistance := lastCandyBarDistance o; bonusSpawnPending := v |}.

Record World : Type := {
  self : Manager;   (* the manager, [this] *)
  made : list PowerUp.Sprite;   (* every power-up of the scene; a reference is a position *)
  dropped : list FallingCandyBar.Sprite;   (* every candy bar of the scene *)
  player : Student.World;   (* the student and the clock of the scene *)
  uncaught : nat   (* exceptions that escaped into the game loop *)
}.

Definition set_self (v : Manager) (w : World) : World :=
  {| self := v; made := made w; dropped := dropped w; player := player w;
     uncaught := uncaught w |}.
Definition set_made (v : list PowerUp.Sprite) (w : World) : World :=
  {| self := self w; made := v; dropped := dropped w; player := player w;
     uncaught := uncaught w |}.
Definition set_dropped (v : list FallingCandyBar.Sprite) (w : World) : World :=
  {| self := self w; made := made w; dropped := v; player := player w;
     uncaught := uncaught w |}.
Definition set_player (v : Student.World) (w : World) : World :=
  {| self := self w; made := made w; dropped := dropped w; player := v;
     uncaught := uncaught w |}.
Definition set_uncaught (v : nat) (w : World) : World :=
  {| self := self w; made := made w; dropped := dropped w; player := player w;
     uncaught := v |}.

Definition JS (A : Type) : Type := M World A.

Definition this {A} (f : Manager -> A) : JS A := gets (fun w => f (self w)).
Definition assign (f : Manager -> Manager) : JS unit :=
  modify (fun w => set_self (f (self w)) w).

(** [constructor(scene)]; [p] is the student of the scene. *)
Definition constructor (p : Student.World) : World :=
  {| self := {| powerUps := []; fallingCandyBars := [];
                lastSpawnDistance := 0; lastCandyBarDistance := 0;
                bonusSpawnPending := false |};
     made := []; dropped := []; player := p; uncaught := 0 |}.

(** The object behind a reference, and its replacement after a call. *)
Fixpoint put {A} (i : nat) (v : A) (l : list A) : list A :=
  match l, i with
  | [], _ => []
  | _ :: rest, O => v :: rest
  | a :: rest, S j => a :: put j v rest
  end.

(** A method of power-up [i], run in the scene of the manager. *)
Definition onPowerUp (i : nat) (m : PowerUp.JS unit) : JS unit :=
  fun w =>
    match nth_error (made w) i with
    | None => Throw w
    | Some s =>
        let back pw :=
          set_player (PowerUp.player pw)
            (set_made (put i (PowerUp.self pw) (made w)) w) in
        match m {| PowerUp.self := s; PowerUp.player := player w;
                   PowerUp.uncaught := 0 |} with
        | Ok _ pw => Ok tt (back pw)
        | Throw pw => Throw (back pw)
        end
    end.

Definition onCandyBar (i : nat) (m : FallingCandyBar.JS unit) : JS unit :=
  fun w =>
    match nth_error (dropped w) i with
    | None => Throw w
    | Some s =>
        let back cw :=
          set_player (FallingCandyBar.player cw)
            (set_dropped (put i (FallingCandyBar.self cw) (dropped w)) w) in
        match m {| FallingCandyBar.self := s;
                   FallingCandyBar.time := emptyClock FallingCandyBar.Callback;
                   FallingCandyBar.player := player w;
                   FallingCandyBar.uncaught := 0 |} with
        | Ok _ cw => Ok tt (back cw)
        | Throw cw => Throw (back cw)
        end
    end.

(** [Phaser.Math.RND.pick(PowerUp.TYPES)] *)
Definition pickType (e : Env) : PowerUp.Kind :=
  if Z.even (rnd e) then PowerUp.chocolate else PowerUp.caramel_apple.

(** [new PowerUp(this.scene, x, PowerUpManager.SPAWN_Y)] and the push. *)
Definition addPowerUp (e : Env) (xx : Z) : JS unit :=
  fun w =>
    let pw := PowerUp.constructor xx SPAWN_Y (pickType e) (player w) in
    let ref := length (made w) in
    Ok tt (set_self (set_powerUps (powerUps (self w) ++ [ref]) (self w))
             (set_made (made w ++ [PowerUp.self pw]) w)).

Definition spawnPowerUp (e : Env) : JS unit :=
  let spawnX := 850 + Between e 0 100 in
  addPowerUp e spawnX.

Definition forceSpawn (e : Env) (xx : Z) : JS unit := addPowerUp e xx.

Definition spawnFallingCandyBar (st : Stage) (e : Env) : JS unit :=
  fun w =>
    let spawnX := Between e 200 600 in
    let spawnY := -50 in
    let cw := FallingCandyBar.constructor st e (emptyClock FallingCandyBar.Callback)
                spawnX spawnY (player w) in
    let ref := length (dropped w) in
    Ok tt (set_self (set_fallingCandyBars (fallingCandyBars (self w) ++ [ref]) (self w))
             (set_dropped (dropped w ++ [FallingCandyBar.self cw]) w)).

Definition scheduleBonusSpawn : JS unit := assign (set_bonusSpawnPending true).

(** The filter of [cleanupOffScreen]: the callback runs on each reference in
    turn and may clean the power-up up; the references it keeps come back
    with the world it leaves. *)
Fixpoint keepOnScreen (refs : list nat) (w : World) : Res World (list nat) :=
  match refs with
  | [] => Ok [] w
  | i :: rest =>
      match nth_error (made w) i with
      | None => keepOnScreen rest w
      | Some s =>
          if PowerUp.isDestroyed s then keepOnScreen rest w
          else if PowerUp.x s <? -50
          then match onPowerUp i PowerUp.cleanup w with
               | Ok _ w1 => keepOnScreen rest w1
               | Throw w1 => Throw w1
               end
          else match keepOnScreen rest w with
               | Ok kept w1 => Ok (i :: kept) w1
               | Throw w1 => Throw w1
               end
      end
  end.

Definition live_candy (w : World) (i : nat) : bool :=
  match nth_error (dropped w) i with
  | Some s => negb (FallingCandyBar.isDestroyed s)
  | None => false
  end.

Definition cleanupOffScreen : JS unit :=
  refs <- this powerUps ;;
  kept <- keepOnScreen refs ;;
  assign (set_powerUps kept) ;;
  w <- gets (fun w => w) ;;
  assign (fun o => set_fallingCandyBars (filter (live_candy w) (fallingCandyBars o)) o).

Definition update (st : Stage) (e : Env) (currentDistance : Z) : JS unit :=
  lastSpawn <- this lastSpawnDistance ;;
  when (currentDistance - lastSpawn >=? SPAWN_INTERVAL)
    (spawnPowerUp e ;;
     assign (set_lastSpawnDistance currentDistance)) ;;
  lastCandy <- this lastCandyBarDistance ;;
  when (currentDistance - lastCandy >=? FallingCandyBar.SPAWN_INTERVAL_PIXELS)
    (spawnFallingCandyBar st e ;;
     assign (set_lastCandyBarDistance currentDistance)) ;;
  pending <- this bonusSpawnPending ;;
  when pending
    (spawnPowerUp e ;;
     assign (set_bonusSpawnPending false)) ;;
  cleanupOffScreen.

(** [this.powerUps.forEach(...)] of [cleanup]. *)
Fixpoint cleanupPowerUps (refs : list nat) : JS unit :=
  match refs with
  | [] => ret tt
  | i :: rest =>
      w <- gets (fun w => w) ;;
      match nth_error (made w) i with
      | Some s => when (negb (PowerUp.isDestroyed s)) (onPowerUp i PowerUp.cleanup)
      | None => ret tt
      end ;;
      cleanupPowerUps rest
  end.

Fixpoint cleanupCandyBars (refs : list nat) : JS unit :=
  match refs with
  | [] => ret tt
  | i :: rest =>
      w <- gets (fun w => w) ;;
      match nth_error (dropped w) i with
      | Some s => when (negb (FallingCandyBar.isDestroyed s))
                    (onCandyBar i FallingCandyBar.cleanup)
      | None => ret tt
      end ;;
      cleanupCandyBars rest
  end.

Definition cleanup : JS unit :=
  refs <- this powerUps ;;
  cleanupPowerUps refs ;;
  assign (set_powerUps []) ;;
  crefs <- this fallingCandyBars ;;
  cleanupCandyBars crefs ;;
  assign (set_fallingCandyBars []).

Inductive Event : Type :=
| EvUpdate (currentDistance : Z) (e : Env)  (* the scene calls [update] *)
| EvScheduleBonus                            (* a zone calls [scheduleBonusSpawn()] *)
| EvForceSpawn (xx : Z) (e : Env)            (* someone calls [forceSpawn(x)] *)
| EvPowerUp (i : nat) (ev : PowerUp.Event)   (* something happens to power-up [i] *)
| EvCleanup.                                 (* the scene calls [cleanup()] *)

Definition settle (r : Res World unit) : World :=
  match r with
  | Ok _ w => w
  | Throw w => set_uncaught (S (uncaught w)) w
  end.

Definition step (st : Stage) (w : World) (ev : Event) : World :=
  match ev with
  | EvUpdate d e => settle (update st e d w)
  | EvScheduleBonus => settle (scheduleBonusSpawn w)
  | EvForceSpawn xx e => settle (forceSpawn e xx w)
  | EvPowerUp i pev =>
      match nth_error (made w) i with
      | None => w
      | Some s =>
          let pw := PowerUp.step {| PowerUp.self := s; PowerUp.player := player w;
                                    PowerUp.uncaught := 0 |} pev in
          set_uncaught (uncaught w + PowerUp.uncaught pw)
            (set_player (PowerUp.player pw)
               (set_made (put i (PowerUp.self pw) (made w)) w))
      end
  | EvCleanup => settle (cleanup w)
  end.

Definition run (st : Stage) (w : World) (evs : list Event) : World :=
  fold_left (step st) evs w.

(** *** Observations used in the statements *)

(** Spawns that do not come from the distance travelled. *)
Definition extra (ev : Event) : nat :=
  match ev with
  | EvScheduleBonus | EvForceSpawn _ _ => 1
  | _ => 0
  end.

Definition extras (evs : list Event) : nat :=
  fold_right (fun ev n => (extra ev + n)%nat) 0%nat evs.

Definition unforced (ev : Event) : bool :=
  match ev with
  | EvForceSpawn _ _ => false
  | _ => true
  end.

(** Where [spawnPowerUp] puts a power-up. *)
Definition at_spawn_place (s : PowerUp.Sprite) : bool :=
  (850 <=? PowerUp.x s) && (PowerUp.x s <=? 950).

(** The power-ups made so far, [n] of them out of turn, have each had their
    [SPAWN_INTERVAL] of distance. *)
Definition spaced (n : nat) (w : World) : Prop :=
  SPAWN_INTERVAL * Z.of_nat (length (made w))
  + (if bonusSpawnPending (self w) then SPAWN_INTERVAL else 0)
  <= lastSpawnDistance (self w) + SPAWN_INTERVAL * Z.of_nat n.

(** Reference [i] names a power-up that has not been destroyed. *)
Definition live (w : World) (i : nat) : bool :=
  match nth_error (made w) i with
  | Some s => negb (PowerUp.isDestroyed s)
  | None => false
  end.

End PowerUpManager.

(** ** [class DottieBaconSchool] (js/zones/DottieBaconSchool.js)

    The school zone comes back every [ZONE_INTERVAL] pixels of distance
    until the library.  The building, the windows and the sign are drawn;
    their fields only guard their own [destroy()] and are left out.  The
    bullies are the objects of [Bully]; the zone keeps references to them,
    and each bully has its own events in the clock. *)

Module DottieBaconSchool.

Definition ZONE_INTERVAL : Z := 5000.
Definition ZONE_LENGTH : Z := 1500.

(** The local constant of [checkZone]. *)
Definition LIBRARY_DISTANCE : Z := 15000.

(** The closures handed to the scene clock by [createBullies] and by
    [fadeOutAndCleanup]. *)
Inductive Callback : Type :=
| CbFirstBully      (* 500 ms after the zone is created: a bully from the right *)
| CbSecondBully     (* 2500 ms after: a bully from the left *)
| CbCleanupBullies. (* 2000 ms after the zone is left *)

Record Zone : Type := {
  isCreated : bool;
  isActive : bool;
  currentZoneNumber : Z;
  bullies : list nat   (* references to bullies of the scene *)
}.

Definition set_isCreated (v : bool) (o : Zone) : Zone :=
  {| isCreated := v; isActive := isActive o;
     currentZoneNumber := currentZoneNumber o; bullies := bullies o |}.
Definition set_isActive (v : bool) (o : Zone) : Zone :=
  {| isCreated := isCreated o; isActive := v;
     currentZoneNumber := currentZoneNumber o; bullies := bullies o |}.
Definition set_currentZoneNumber (v : Z) (o : Zone) : Zone :=
  {| isCreated := isCreated o; isActive := isActive o;
     currentZoneNumber := v; bullies := bullies o |}.
Definition set_bullies (v : list nat) (o : Zone) : Zone :=
  {| isCreated := isCreated o; isActive := isActive o;
     currentZoneNumber := currentZoneNumber o; bullies := v |}.

Record World : Type := {
  self : Zone;   (* the zone, [this] *)
  time : Clock Callback;   (* [scene.time], the zone's events *)
  made : list Bully.World;   (* every bully the zone has made; a reference is a position *)
  powerUpManager : option PowerUpManager.World;   (* [scene.powerUpManager] *)
  uncaught : nat   (* exceptions that escaped into the game loop *)
}.

Definition set_self (v : Zone) (w : World) : World :=
  {| self := v; time := time w; made := made w;
     powerUpManager := powerUpManager w; uncaught := uncaught w |}.
Definition set_time (v : Clock Callback) (w : World) : World :=
  {| self := self w; time := v; made := made w;
     powerUpManager := powerUpManager w; uncaught := uncaught w |}.
Definition set_made (v : list Bully.World) (w : World) : World :=
  {| self := self w; time := time w; made := v;
     powerUpManager := powerUpManager w; uncaught := uncaught w |}.
Definition set_powerUpManager (v : option PowerUpManager.World) (w : World) : World :=
  {| self := self w; time := time w; made := made w;
     powerUpManager := v; uncaught := uncaught w |}.
Definition set_uncaught (v : nat) (w : World) : World :=
  {| self := self w; time := time w; made := made w;
     powerUpManager := powerUpManager w; uncaught := v |}.

Definition JS (A : Type) : Type := M World A.

Definition this {A} (f : Zone -> A) : JS A := gets (fun w => f (self w)).
Definition assign (f : Zone -> Zone) : JS unit :=
  modify (fun w => set_self (f (self w)) w).

Definition delayedCall (d : Z) (cb : Callback) : JS nat :=
  fun w => let (h, c) := schedule d false cb (time w) in Ok h (set_time c w).

(** [constructor(scene)]; [clk] is the clock of the scene and [m] its
    power-up manager, if it has one. *)
Definition constructor (clk : Clock Callback) (m : option PowerUpManager.World) : World :=
  {| self := {| isCreated := false; isActive := false; currentZoneNumber := 0;
                bullies := [] |};
     time := clk; made := []; powerUpManager := m; uncaught := 0 |}.

(** A method of bully [i], run in the scene of the zone. *)
Definition onBully (i : nat) (m : Bully.JS unit) : JS unit :=
  fun w =>
    match nth_error (made w) i with
    | None => Throw w
    | Some b =>
        match m b with
        | Ok _ b' => Ok tt (set_made (PowerUpManager.put i b' (made w)) w)
        | Throw b' => Throw (set_made (PowerUpManager.put i b' (made w)) w)
        end
    end.

(** A method of the power-up manager, if the scene has one. *)
Definition onManager (m : PowerUpManager.JS unit) : JS unit :=
  fun w =>
    match powerUpManager w with
    | None => Ok tt w
    | Some pm =>
        match m pm with
        | Ok _ pm' => Ok tt (set_powerUpManager (Some pm') w)
        | Throw pm' => Throw (set_powerUpManager (Some pm') w)
        end
    end.

Definition getNextZoneStart : JS Z :=
  n <- this currentZoneNumber ;;
  ret ((n + 1) * ZONE_INTERVAL).

Definition createBullies : JS unit :=
  _ <- delayedCall 500 CbFirstBully ;;
  _ <- delayedCall 2500 CbSecondBully ;;
  ret tt.

Definition createZone : JS unit :=
  c <- this isCreated ;;
  if c then ret tt
  else
    assign (set_isCreated true) ;;
    createBullies.

(** [bully.hasSeenPlayer], which [activateZone] resets, is not a field that
    [Bully] reads. *)
Definition activateZone : JS unit := assign (set_isActive true).

(** [this.bullies.forEach(bully => bully.cleanup())] *)
Fixpoint cleanupAll (refs : list nat) : JS unit :=
  match refs with
  | [] => ret tt
  | i :: rest => onBully i Bully.cleanup ;; cleanupAll rest
  end.

(** The closure of the delayed call of [fadeOutAndCleanup]. *)
Definition cleanupBullies : JS unit :=
  refs <- this bullies ;;
  cleanupAll refs ;;
  assign (set_bullies []).

Definition fadeOutAndCleanup : JS unit :=
  _ <- delayedCall 2000 CbCleanupBullies ;;
  assign (fun o => set_currentZoneNumber (currentZoneNumber o + 1) o) ;;
  assign (set_isCreated false).

Definition deactivateZone : JS unit :=
  assign (set_isActive false) ;;
  onManager PowerUpManager.scheduleBonusSpawn ;;
  fadeOutAndCleanup.

Definition checkZone (distance : Z) : JS unit :=
  nextZoneStart <- getNextZoneStart ;;
  if nextZoneStart >=? LIBRARY_DISTANCE then ret tt
  else
    c <- this isCreated ;;
    when (negb c && (distance >=? nextZoneStart - 200)) createZone ;;
    c <- this isCreated ;;
    when c
      (zoneStart <- getNextZoneStart ;;
       let inZone := (distance >=? zoneStart)
                     && (distance <=? zoneStart + ZONE_LENGTH) in
       a <- this isActive ;;
       if inZone && negb a then activateZone
       else if negb inZone && a then deactivateZone
       else ret tt).

(** [new Bully(this.scene, 0, 505, startFromRight)] and the push; [e] is the
    camera and the random source when the closure runs. *)
Definition addBully (e : Env) (startFromRight : bool) : JS unit :=
  fun w =>
    let b := Bully.constructor (emptyClock Bully.Callback) e 0 505 startFromRight in
    let ref := length (made w) in
    Ok tt (set_self (set_bullies (bullies (self w) ++ [ref]) (self w))
             (set_made (made w ++ [b]) w)).

(** [this.bullies.forEach(...)] of [update]. *)
Fixpoint updateAll (player : option Z) (e : Env) (refs : list nat) : JS unit :=
  match refs with
  | [] => ret tt
  | i :: rest =>
      w <- gets (fun w => w) ;;
      match nth_error (made w) i with
      | Some b => when (Bully.active (Bully.self b)) (onBully i (Bully.update player e))
      | None => ret tt
      end ;;
      updateAll player e rest
  end.

(** [update(player)]; [player] is the x of the student, if one is passed. *)
Definition update (player : option Z) (e : Env) : JS unit :=
  a <- this isActive ;;
  match player with
  | None => ret tt
  | Some _ =>
      if negb a then ret tt
      else
        refs <- this bullies ;;
        updateAll player e refs
  end.

Definition cleanup : JS unit :=
  refs <- this bullies ;;
  cleanupAll refs ;;
  assign (set_bullies []) ;;
  assign (set_isCreated false) ;;
  assign (set_isActive false).

Definition run_callback (cb : Callback) (e : Env) : JS unit :=
  match cb with
  | CbFirstBully => addBully e true
  | CbSecondBully => addBully e false
  | CbCleanupBullies => cleanupBullies
  end.

Inductive Event : Type :=
| EvCheckZone (distance : Z)              (* the scene calls [checkZone] *)
| EvTimer (h : nat) (e : Env)             (* the clock fires event [h] *)
| EvUpdate (player : option Z) (e : Env)  (* the scene calls [update] *)
| EvBully (i : nat) (ev : Bully.Event)    (* something happens to bully [i] *)
| EvCleanup.                              (* the scene calls [cleanup()] *)

Definition settle (r : Res World unit) : World :=
  match r with
  | Ok _ w => w
  | Throw w => set_uncaught (S (uncaught w)) w
  end.

Definition step (w : World) (ev : Event) : World :=
  match ev with
  | EvCheckZone d => settle (checkZone d w)
  | EvTimer h e =>
      match lookup h (time w) with
      | None => w
      | Some t => settle (run_callback (callback t) e
                            (set_time (dispatch t (time w)) w))
      end
  | EvUpdate player e => settle (update player e w)
  | EvBully i bev =>
      match nth_error (made w) i with
      | None => w
      | Some b => set_made (PowerUpManager.put i (Bully.step b bev) (made w)) w
      end
  | EvCleanup => settle (cleanup w)
  end.

Definition run (w : World) (evs : list Event) : World := fold_left step evs w.

(** *** Observations used in the statements *)

(** Where the school that comes next starts. *)
Definition nextZoneStart (w : World) : Z :=
  (currentZoneNumber (self w) + 1) * ZONE_INTERVAL.

(** [distance] is in the school after [n] schools have been left; there are
    schools before the library only. *)
Definition inSchool (n distance : Z) : bool :=
  ((n + 1) * ZONE_INTERVAL <? LIBRARY_DISTANCE)
  && ((n + 1) * ZONE_INTERVAL <=? distance)
  && (distance <=? (n + 1) * ZONE_INTERVAL + ZONE_LENGTH).

(** The scene leaves the bullies of the zone to the zone. *)
Definition hands_off (ev : Event) : bool :=
  match ev with
  | EvBully _ Bully.EvCleanup => false
  | _ => true
  end.

(** Bully [i] of the scene is in the scene and not destroyed. *)
Definition alive (w : World) (i : nat) : bool :=
  match nth_error (made w) i with
  | Some b => negb (Bully.isDestroyed (Bully.self b)) && Bully.scene (Bully.self b)
  | None => false
  end.

(** Bully [i] of the scene has been destroyed and taken out of the scene. *)
Definition cleaned (w : World) (i : nat) : bool :=
  match nth_error (made w) i with
  | Some b => Bully.isDestroyed (Bully.self b) && negb (Bully.scene (Bully.self b))
              && negb (Bully.active (Bully.self b))
  | None => false
  end.

(** The zone's state between two calls. *)
Definition zone_sound (o : Zone) : Prop :=
  0 <= currentZoneNumber o <= 2 /\
  (isActive o = true -> isCreated o = true) /\
  (isCreated o = true -> currentZoneNumber o <= 1).

(** The zone's list names each of its bullies once, and they are all in the
    scene. *)
Definition tended (w : World) : Prop :=
  NoDup (bullies (self w)) /\ forallb (alive w) (bullies (self w)) = true.

End DottieBaconSchool.

(** ** Invariants of the two patrol classes *)

Module Invariant.

(** The old man walks left or right at [PATROL_SPEED], or stands. *)
Definition oldman_steady (o : OldMan.Sprite) : Prop :=
  (OldMan.patrolDirection o = -1 \/ OldMan.patrolDirection o = 1) /\
  (OldMan.velocityX o = 0 \/
   OldMan.velocityX o = OldMan.PATROL_SPEED \/
   OldMan.velocityX o = - OldMan.PATROL_SPEED).

Definition bully_steady (o : Bully.Sprite) : Prop :=
  (Bully.patrolDirection o = -1 \/ Bully.patrolDirection o = 1) /\
  (Bully.velocityX o = 0 \/
   Bully.velocityX o = Bully.PATROL_SPEED \/
   Bully.velocityX o = - Bully.PATROL_SPEED).

(** The bully's bookkeeping: a timer event waiting in the clock is either a
    throw timer or one whose handle is in [pendingTimers]. *)
Definition recorded (hs : list nat) (t : TimerEvent Bully.Callback) : bool :=
  match callback t with
  | Bully.CbThrow => true
  | _ => existsb (Nat.eqb (tid t)) hs
  end.

Definition bully_books_kept (w : Bully.World) : bool :=
  forallb (recorded (Bully.pendingTimers (Bully.self w))) (pending (Bully.time w)).

Definition is_throw (t : TimerEvent Bully.Callback) : bool :=
  match callback t with
  | Bully.CbThrow => true
  | _ => false
  end.

(** What [cleanup] leaves of a bully. *)
Definition disposed (o : Bully.Sprite) : Prop :=
  Bully.isDestroyed o = true /\ Bully.scene o = false /\
  Bully.body o = false /\ Bully.active o = false /\
  Bully.pendingTimers o = [] /\ Bully.throwTimer o = None /\
  Bully.wordBubbles o = [].

(** A bully is either in its scene and not destroyed, or disposed of. *)
Definition bully_sound (o : Bully.Sprite) : Prop :=
  (Bully.isDestroyed o = false /\ Bully.scene o = true) \/ disposed o.

(** Events that happen while the scene has no player: [scene.student] is
    undefined and [update] is called without one. *)
Definition absent (e : Env) : bool :=
  match student e with None => true | Some _ => false end.

Definition oldman_playerless (ev : OldMan.Event) : bool :=
  match ev with
  | OldMan.EvTimer _ e => absent e
  | OldMan.EvFrame _ None e => absent e
  | OldMan.EvFrame _ (Some _) _ => false
  | OldMan.EvCleanup => true
  | OldMan.EvInvoke _ e => absent e
  end.

Definition bully_playerless (ev : Bully.Event) : bool :=
  match ev with
  | Bully.EvTimer _ e => absent e
  | Bully.EvFrame _ None e => absent e
  | Bully.EvFrame _ (Some _) _ => false
  | Bully.EvCleanup => true
  | Bully.EvInvoke _ e => absent e
  end.

(** A throw timer of the old man is not due before [D] and is never re-armed
    into the past; other events are as they like. *)
Definition throw_due_from (D : Z) (t : TimerEvent OldMan.Callback) : bool :=
  match callback t with
  | OldMan.CbThrow => (D <=? due t) && (0 <=? delay t)
  | _ => true
  end.

Definition throws_not_before (D : Z) (w : OldMan.World) : bool :=
  forallb (throw_due_from D) (pending (OldMan.time w)).


End Invariant.

From Stdlib Require PrimFloat.

(** ** The exit test on JavaScript's numbers

    [this.x], [camera.scrollX] and [camera.width] are binary64 numbers; the
    physics step leaves fractions in [x].  The classes above keep them as
    integers, on which the sums and comparisons of the exit test are exact.
    This module has the test of [update] as JavaScript computes it, the same
    lines in [OldMan] and in [Bully]. *)

Module Binary64.
Import PrimFloat.

#[local] Open Scope float_scope.

(** [const cameraLeft = camera.scrollX - 100] *)
Definition cameraLeft (scrollX : float) : float := scrollX - 100.

(** [const cameraRight = camera.scrollX + camera.width + 100] *)
Definition cameraRight (scrollX width : float) : float := scrollX + width + 100.

(** [this.patrolDirection === -1 && this.x < cameraLeft] *)
Definition exitedLeft (scrollX patrolDirection x : float) : bool :=
  (patrolDirection =? -1) && (x <? cameraLeft scrollX).

(** [this.patrolDirection === 1 && this.x > cameraRight] *)
Definition exitedRight (scrollX width patrolDirection x : float) : bool :=
  (patrolDirection =? 1) && (cameraRight scrollX width <? x).

(** A position a hair left of -100: the next binary64 number below it. *)
Definition just_left_of_the_threshold : float := -0x1.9000000000001p+6.

(** The camera before it scrolls, and the patrol direction of a sprite that
    walks left. *)
Definition at_rest : float := 0.
Definition leftwards : float := -1.

(** A coordinate moved by 1000. *)
Definition moved (v : float) : float := v + 1000.

End Binary64.

(** Integers small enough for the sums of the exit test to be exact in
    binary64, whatever is added to what. *)
Definition exact (v : Z) : Prop := - 2 ^ 50 <= v <= 2 ^ 50.

(** ** Concrete runs

    The runs below are the inputs at which the statements are exercised.
    Times are in milliseconds from the construction of the sprite; the
    viewport is 800 pixels wide and the ground is at y = 505. *)

Module Scenario.

(** The scene as the sprite sees it when an event happens: the camera
    scrolled to [sx], the player in the middle of the screen, and the two
    random sources. *)
Definition scene_at (sx r : Z) (u : Q) : Env :=
  {| camera := {| scrollX := sx; width := 800 |};
     student := Some (sx + 400);
     rnd := r;
     random := u |}.

Definition still : Env := scene_at 0 0 0.

(** A camera that has scrolled so far that world x = 850 is off screen. *)
Definition far_camera : Camera := {| scrollX := 5000; width := 800 |}.

Module Old.
Import OldMan.

Definition born : World := constructor (emptyClock Callback) 0 505.

(** Entry: warning at 2000, on screen at 3000, patrolling from 4500. *)
Definition entry : list Event :=
  [EvTimer 0 still; EvTimer 1 still; EvTimer 2 still].

(** Three newspapers (7000, 9500, 12000), back pain at 12500, the squirrel
    at 13500, recovery at 18500. *)
Definition attack_and_stall : list Event :=
  [EvTimer 3 still; EvTimer 3 still; EvTimer 3 still;
   EvTimer 4 still; EvTimer 5 still; EvTimer 6 still].

(** Seven seconds of walking after the recovery, then the frame in which the
    left threshold is crossed (25700). *)
Definition walk_off : list Event :=
  [EvFrame 7000 (Some 400) still; EvFrame 200 (Some 400) still].

Definition first_pass : list Event := entry ++ attack_and_stall ++ walk_off.

(** The old man one frame before he leaves (25500, x = -90). *)
Definition before_exit : World :=
  run born (entry ++ attack_and_stall ++ [EvFrame 7000 (Some 400) still]).

(** The same old man moved by the physics of the next 200 ms (x = -102),
    as [update] finds him. *)
Definition off_screen : World := physics 200 before_exit.

(** A pass cut short: the player runs right, the camera follows, and the old
    man is left behind at 6900, before his first throw and before his back
    pain.  The throw timer (3) and the phase timer (4, due at 16500) of this
    pass stay in the clock. *)
Definition cut_short : list Event :=
  [EvTimer 0 still; EvTimer 1 still; EvTimer 2 (scene_at 300 4000 0);
   EvFrame 2400 (Some 1180) (scene_at 780 0 0);
   EvTimer 3 (scene_at 800 0 0); EvTimer 3 (scene_at 800 0 0)].

(** The wait ends at 11900 and the second pass starts. *)
Definition reentry : list Event := [EvTimer 5 (scene_at 800 0 0)].

(** The second pass, camera at rest at 800.  Timer 3 is the throw timer left
    over from the first pass, timer 4 its phase timer. *)
Definition second_pass : list Event :=
  let e := scene_at 800 0 0 in
  [EvTimer 3 e;            (* 12000, still entering *)
   EvTimer 6 e;            (* 12900, on screen *)
   EvTimer 7 e;            (* 14400, patrolling; new throw timer 8 *)
   EvTimer 3 e;            (* 14500, newspaper *)
   EvTimer 4 e;            (* 16500, back pain; throw timer 8 removed *)
   EvTimer 3 e;            (* 17000 *)
   EvTimer 10 e;           (* 17500, squirrel *)
   EvTimer 3 e;            (* 19500 *)
   EvTimer 3 e;            (* 22000 *)
   EvTimer 9 e;            (* 22400, second phase timer: refused *)
   EvTimer 11 e;           (* 22500, recovery *)
   EvTimer 3 e;            (* 24500, newspaper *)
   EvTimer 3 e;            (* 27000, newspaper *)
   EvTimer 3 e;            (* 29500, newspaper *)
   EvTimer 3 e;            (* 32000, newspaper *)
   EvTimer 3 e;            (* 34500, newspaper *)
   EvFrame 1100 (Some 1200) e].  (* 35600, off screen on the left *)


(** The cut-short pass, the re-entry, and the second pass up to the moment
    the old man starts patrolling again (14400). *)
Definition second_patrol : list Event := cut_short ++ reentry ++ firstn 3 second_pass.


End Old.

Module Bul.
Import Bully.

Definition born : World := constructor (emptyClock Callback) still 0 505 true.

(** Warning at 500, on screen at 1300, charging (and the first word bubble)
    at 2300. *)
Definition entry : list Event :=
  [EvTimer 0 still; EvTimer 1 still; EvTimer 2 still].

(** Word bubbles at 4300, 6300 and 8300; the call at 10300 is refused. *)
Definition barrage : list Event :=
  [EvTimer 3 still; EvTimer 3 still; EvTimer 3 still; EvTimer 3 still].

(** The frame at 11400 finds the bully beyond the left threshold. *)
Definition walk_off : list Event := [EvFrame 1100 (Some 400) still].

Definition first_pass : list Event := entry ++ barrage ++ walk_off.

(** The bully after its last call to [tryToThrow] (10300, x = 0). *)
Definition before_exit : World := run born (entry ++ barrage).

(** The same bully moved by the physics of the next 1100 ms (x = -110), as
    [update] finds it. *)
Definition off_screen : World := physics 1100 before_exit.

(** The wait ends at 15400; the second pass reaches the charge at 17200 with
    the throw timer of the first pass (3) still running. *)
Definition second_entry : list Event :=
  [EvTimer 3 still; EvTimer 3 still;
   EvTimer 4 still; EvTimer 5 still; EvTimer 3 still; EvTimer 6 still].

End Bul.

End Scenario.

(** ** Further situations of the two patrol classes *)

Module Situation.

(** A scene without a player. *)
Definition deserted : Env :=
  {| camera := {| scrollX := 0; width := 800 |};
     student := None; rnd := 0; random := 0 |}.

Module Old.
Import OldMan.

(** The old man patrolling (4500), his throw timer armed. *)
Definition patrolling_now : World := run Scenario.Old.born Scenario.Old.entry.

(** Two firings of the throw timer and a long walk, all without a player. *)
Definition alone : list Event :=
  [EvTimer 3 deserted; EvTimer 3 deserted; EvFrame 60000 None deserted].

End Old.

Module Bul.
Import Bully.

(** The bully charging (2300), one word bubble thrown. *)
Definition charging_now : World := run Scenario.Bul.born Scenario.Bul.entry.

Definition alone : list Event :=
  [EvTimer 3 deserted; EvTimer 3 deserted; EvFrame 60000 None deserted].

End Bul.

End Situation.

(** ** Situations of the player *)

Module Playground.
Import Student.

Definition born : World := constructor (emptyClock Callback) 100 450.

(** The student with the meter of the scene attached. *)
Definition metered : World :=
  attachMeter (ConfidenceMeter.constructor MAX_CONFIDENCE) born.

(** A frame of 16 ms at [x]. *)
Definition frame (down : bool) (xx : Z) (right jump : bool) : Frame :=
  {| delta := 16; blockedDown := down; at_x := xx;
     leftDown := false; rightDown := right; jumpJustDown := jump |}.

(** A newspaper, the end of the stumble, a chocolate bar, a squirrel while
    the heal flash is still on, a word bubble that is blocked, the end of the
    second stumble. *)
Definition rough_day : list Event :=
  [EvDamage 10; EvTimer 0; EvHeal 15; EvDamage 15; EvDamage 12; EvTimer 2].

(** Seven squirrels, each after the stumble of the one before has ended. *)
Definition seven_squirrels : list Event :=
  [EvDamage 15; EvTimer 0; EvDamage 15; EvTimer 1; EvDamage 15; EvTimer 2;
   EvDamage 15; EvTimer 3; EvDamage 15; EvTimer 4; EvDamage 15; EvTimer 5;
   EvDamage 15; EvTimer 6].

Definition beaten : World := run metered seven_squirrels.

(** A chocolate bar for the defeated student, who keeps pressing right and
    jump on the way back, and walks off the screen. *)
Definition way_back : list Event :=
  [EvHeal 15; EvFrame (frame true 90 true true); EvFrame (frame true (-60) true true);
   EvFrame (frame true (-70) true true)].

(** Standing on the ground. *)
Definition grounded : World := run born [EvFrame (frame true 100 false false)].

(** Off the ledge, pressing jump in every frame. *)
Definition hammering : list Event :=
  [EvFrame (frame false 110 true true); EvFrame (frame false 120 true true);
   EvFrame (frame false 130 true true); EvDamage 10;
   EvFrame (frame false 140 true true)].

(** In the air with the coyote jump used up. *)
Definition falling : World := run born [EvFrame (frame false 100 false true)].

End Playground.

(** ** Encounters of the player with projectiles and power-ups *)

Module Encounter.

(** A game of 800 by 600 pixels at normal speed. *)
Definition stage : Stage :=
  {| gameSpeedMultiplier := None; configWidth := 800; configHeight := 600 |}.

(** A word bubble over the student; it hits, is touched again after the
    stumble, and the scene goes on emitting 'update'. *)
Definition bubble : WordBubble.World :=
  WordBubble.constructor stage Scenario.still 100 (-50) Playground.born.

Definition bubble_falls : list WordBubble.Event :=
  [WordBubble.EvUpdate 100 200;
   WordBubble.EvOverlap WordBubble.TheBubble WordBubble.ThePlayer;
   WordBubble.EvPlayer (Student.EvTimer 0);
   WordBubble.EvOverlap WordBubble.TheBubble WordBubble.ThePlayer;
   WordBubble.EvUpdate 100 710].

(** A squirrel at the old man's place: touched while it sits, it turns evil,
    runs, hits, is touched again after the stumble, and leaves. *)
Definition squirrel : Squirrel.World :=
  Squirrel.constructor (emptyClock Squirrel.Callback) 850 555 (Some Playground.born).

Definition squirrel_runs : list Squirrel.Event :=
  [Squirrel.EvOverlap; Squirrel.EvTimer 0; Squirrel.EvTimer 1; Squirrel.EvOverlap;
   Squirrel.EvPlayer (Student.EvTimer 0); Squirrel.EvOverlap;
   Squirrel.EvUpdate (-60)].

(** A student who has lost 30, and a chocolate bar: collected, touched again
    while it vanishes, gone. *)
Definition hurt : Student.World :=
  Student.run Playground.born [Student.EvDamage 30].

Definition chocolate_bar : PowerUp.World :=
  PowerUp.constructor 900 520 PowerUp.chocolate hurt.

Definition snack : list PowerUp.Event :=
  [PowerUp.EvOverlap; PowerUp.EvOverlap; PowerUp.EvTweenComplete; PowerUp.EvOverlap].

(** The camera has followed the player to x = 1000; the old man has entered
    there and patrols in view at x = 1750. *)
Definition down_the_road : Env := Scenario.scene_at 1000 0 0.

Definition old_man_in_view : OldMan.World :=
  OldMan.run Scenario.Old.born
    [OldMan.EvTimer 0 down_the_road; OldMan.EvTimer 1 down_the_road;
     OldMan.EvTimer 2 down_the_road;
     OldMan.EvFrame 1000 (Some 1400) down_the_road].

(** The last newspaper the old man has thrown. *)
Definition last_thrown (w : OldMan.World) : OldMan.Newspaper :=
  last (OldMan.created w)
    {| OldMan.paperX := 0; OldMan.paperY := 0; OldMan.targetX := 0 |}.

(** A candy bar over the hurt student: it falls, is caught and touched
    again, the burst ends, the manager cleans up, and the bounds check goes
    on firing. *)
Definition candy_bar : FallingCandyBar.World :=
  FallingCandyBar.constructor stage Scenario.still
    (emptyClock FallingCandyBar.Callback) 400 (-50) hurt.

Definition candy_caught : list FallingCandyBar.Event :=
  [FallingCandyBar.EvTimer 0; FallingCandyBar.EvMove 400 300;
   FallingCandyBar.EvOverlap true; FallingCandyBar.EvOverlap true;
   FallingCandyBar.EvTimer 1; FallingCandyBar.EvTimer 0;
   FallingCandyBar.EvCleanup; FallingCandyBar.EvTimer 0].

(** A walk of 1300 pixels with a bonus after a zone: power-ups at 600 and
    1300 and the bonus at 700; the first one is collected on the way. *)
Definition walk : list PowerUpManager.Event :=
  [PowerUpManager.EvUpdate 0 Scenario.still;
   PowerUpManager.EvUpdate 600 Scenario.still;
   PowerUpManager.EvPowerUp 0 PowerUp.EvOverlap;
   PowerUpManager.EvScheduleBonus;
   PowerUpManager.EvUpdate 700 (Scenario.scene_at 0 37 0);
   PowerUpManager.EvPowerUp 0 PowerUp.EvTweenComplete;
   PowerUpManager.EvUpdate 1300 (Scenario.scene_at 0 64 0);
   PowerUpManager.EvCleanup].

(** The first school: it is made 200 pixels ahead, its two bullies arrive,
    the student walks through it and leaves it, and two seconds later the
    bullies are cleaned up. *)
Definition school : DottieBaconSchool.World :=
  DottieBaconSchool.constructor (emptyClock DottieBaconSchool.Callback)
    (Some (PowerUpManager.constructor hurt)).

Definition school_day : list DottieBaconSchool.Event :=
  [DottieBaconSchool.EvCheckZone 4800;
   DottieBaconSchool.EvTimer 0 Scenario.still;
   DottieBaconSchool.EvCheckZone 5000;
   DottieBaconSchool.EvTimer 1 Scenario.still;
   DottieBaconSchool.EvBully 0 (Bully.EvTimer 0 Scenario.still);
   DottieBaconSchool.EvUpdate (Some 400) Scenario.still;
   DottieBaconSchool.EvBully 1 (Bully.EvTimer 0 Scenario.still);
   DottieBaconSchool.EvUpdate (Some 400) Scenario.still;
   DottieBaconSchool.EvCheckZone 6501;
   DottieBaconSchool.EvTimer 2 Scenario.still;
   DottieBaconSchool.EvCheckZone 9900;
   DottieBaconSchool.EvTimer 3 Scenario.still].

End Encounter.
(** * Properties *)

(** ** Proof automation for the method bodies *)

Ltac unfold_monad :=
  unfold when, bind, ret, gets, modify, throwTypeError, final, threw.

(** Turn boolean comparisons in the context into propositions. *)
Ltac zbool :=
  repeat match goal with
         | H : _ || _ = true |- _ => apply orb_true_iff in H; destruct H
         | H : _ || _ = false |- _ => apply orb_false_iff in H; destruct H
         | H : _ && _ = true |- _ => apply andb_true_iff in H; destruct H
         | H : negb _ = true |- _ => apply negb_true_iff in H
         | H : negb _ = false |- _ => apply negb_false_iff in H
         | H : (_ =? _) = true |- _ => apply Z.eqb_eq in H
         | H : (_ =? _) = false |- _ => apply Z.eqb_neq in H
         | H : (_ <? _) = true |- _ => apply Z.ltb_lt in H
         | H : (_ <? _) = false |- _ => apply Z.ltb_ge in H
         | H : (_ <=? _) = true |- _ => apply Z.leb_le in H
         | H : (_ <=? _) = false |- _ => apply Z.leb_gt in H
         | H : (_ >? _) = _ |- _ => rewrite Z.gtb_ltb in H
         | H : (_ >=? _) = _ |- _ => rewrite Z.geb_leb in H
         end.

(** ** The clock *)

Section ClockFacts.
Variable Callback : Type.
Variable P : Callback -> bool.
Implicit Types (c : Clock Callback) (t : TimerEvent Callback).

Lemma clock_lookup_in h c t : lookup h c = Some t -> In t (pending c) /\ tid t = h.
Proof.
  unfold lookup. intros H. apply find_some in H. destruct H as [Hin Heq].
  split; [exact Hin|]. apply Nat.eqb_eq, Heq.
Qed.

Lemma clock_lookup_all h c t :
  forallb P (map (@callback _) (pending c)) = true ->
  lookup h c = Some t -> P (callback t) = true.
Proof.
  intros Hall Hl. apply clock_lookup_in in Hl. destruct Hl as [Hin _].
  rewrite forallb_forall in Hall. apply Hall, in_map, Hin.
Qed.

Lemma clock_remove_all h c :
  forallb P (map (@callback _) (pending c)) = true ->
  forallb P (map (@callback _) (pending (remove h c))) = true.
Proof.
  rewrite !forallb_forall. intros Hall cb Hin. apply Hall.
  cbn in Hin. apply in_map_iff in Hin. destruct Hin as (t & <- & Hin).
  apply filter_In in Hin. apply in_map, Hin.
Qed.

Lemma clock_dispatch_all t c :
  forallb P (map (@callback _) (pending c)) = true ->
  forallb P (map (@callback _) (pending (dispatch t c))) = true.
Proof.
  rewrite !forallb_forall. intros Hall cb Hin. apply Hall.
  cbn in Hin. apply in_map_iff in Hin. destruct Hin as (u & <- & Hin).
  destruct (loop t).
  - apply in_map_iff in Hin. destruct Hin as (v & <- & Hin).
    destruct (Nat.eqb (tid v) (tid t)); cbn; apply in_map, Hin.
  - apply filter_In in Hin. apply in_map, Hin.
Qed.

Lemma clock_remove_gone h c : lookup h (remove h c) = None.
Proof.
  unfold lookup, remove; cbn.
  induction (pending c) as [|u l IH]; cbn; [reflexivity|].
  destruct (Nat.eqb (tid u) h) eqn:E; cbn; [exact IH|]. rewrite E. exact IH.
Qed.

Lemma clock_remove_keeps_gone h k c : lookup h c = None -> lookup h (remove k c) = None.
Proof.
  unfold lookup, remove; cbn.
  induction (pending c) as [|u l IH]; cbn; [reflexivity|].
  destruct (Nat.eqb (tid u) h) eqn:E; [discriminate|]. intros H.
  destruct (Nat.eqb (tid u) k); cbn; [auto|]. rewrite E. auto.
Qed.


End ClockFacts.

(** ** Exit geometry *)

Section ExitGeometry.
Variables (cam : Camera) (dir xx : Z).

Lemma oldman_exit_matches_spec :
  OldMan.exitedLeft cam dir xx
    = (dir =? -1) && CameraFrameSpec.hasExitedLeft cam xx 100 /\
  OldMan.exitedRight cam dir xx
    = (dir =? 1) && CameraFrameSpec.hasExitedRight cam xx 100.
Proof. split; reflexivity. Qed.

Lemma bully_exit_matches_spec :
  Bully.exitedLeft cam dir xx
    = (dir =? -1) && CameraFrameSpec.hasExitedLeft cam xx 100 /\
  Bully.exitedRight cam dir xx
    = (dir =? 1) && CameraFrameSpec.hasExitedRight cam xx 100.
Proof. split; reflexivity. Qed.

Lemma exitedLeft_shift (d : Z) :
  ((xx + d <? scrollX (shift d cam) - 100) = (xx <? scrollX cam - 100)).
Proof.
  unfold shift; cbn [scrollX].
  destruct (Z.ltb_spec (xx + d) (scrollX cam + d - 100));
    destruct (Z.ltb_spec xx (scrollX cam - 100)); try reflexivity; lia.
Qed.

Lemma exitedRight_shift (d : Z) :
  ((xx + d >? scrollX (shift d cam) + width (shift d cam) + 100)
   = (xx >? scrollX cam + width cam + 100)).
Proof.
  unfold shift; cbn [scrollX width].
  rewrite !Z.gtb_ltb.
  destruct (Z.ltb_spec (scrollX cam + d + width cam + 100) (xx + d));
    destruct (Z.ltb_spec (scrollX cam + width cam + 100) xx); try reflexivity; lia.
Qed.

Lemma oldman_exited_shift (d : Z) :
  OldMan.exitedLeft (shift d cam) dir (xx + d) = OldMan.exitedLeft cam dir xx /\
  OldMan.exitedRight (shift d cam) dir (xx + d) = OldMan.exitedRight cam dir xx.
Proof.
  unfold OldMan.exitedLeft, OldMan.exitedRight, OldMan.cameraLeft, OldMan.cameraRight.
  rewrite exitedLeft_shift, exitedRight_shift. split; reflexivity.
Qed.

Lemma bully_exited_shift (d : Z) :
  Bully.exitedLeft (shift d cam) dir (xx + d) = Bully.exitedLeft cam dir xx /\
  Bully.exitedRight (shift d cam) dir (xx + d) = Bully.exitedRight cam dir xx.
Proof.
  unfold Bully.exitedLeft, Bully.exitedRight, Bully.cameraLeft, Bully.cameraRight.
  rewrite exitedLeft_shift, exitedRight_shift. split; reflexivity.
Qed.

End ExitGeometry.

(** ** Facts about [OldMan] *)

Module OldManFacts.
Import OldMan.

Ltac unfold_methods :=
  repeat progress unfold run_callback, update, startWaiting, startEntering, enterTransit,
    startPatrolling, startBackPain, recoverFromBackPain, squirrelDue, spawnSquirrel,
    prepareReentry, tryToThrowNewspaper, throwNewspaper, cleanup, destroy,
    startExiting, startThrowingTimer, stopThrowingTimer, startWalkAnimation,
    stopWalkAnimation, showEntryWarning, showEntranceMessage, showGrumpyMessage,
    showBackPainMessage, playBackPainAnimation, showRecoveryMessage,
    showExitMessage, playThrowAnimation, setVisible, setActive, setFlipX,
    setVelocityX, draw, delayedCall, addEvent, timer_remove, the_scene, the_body,
    this, assign, settle, physics.

Ltac js_cbn :=
  cbn -[exitedLeft exitedRight Z.add Z.mul Z.div Z.sub Z.max Z.modulo Between
        dispatch remove lookup].

Ltac js_split :=
  repeat first
    [ match goal with
      | |- context [if ?b then _ else _] => is_var b; destruct b eqn:?; js_cbn
      | |- context [match ?o with Some _ => _ | None => _ end] =>
          is_var o; destruct o eqn:?; js_cbn
      end
    | match goal with
      | |- context [if ?b then _ else _] =>
          lazymatch type of b with bool => destruct b eqn:?; js_cbn end
      | |- context [match ?o with Some _ => _ | None => _ end] =>
          destruct o eqn:?; js_cbn
      end ].

Ltac open_world w :=
  destruct w as [[sx sy sgy svis sact sbody sscene sflip svx sst sdir sbpc sbptp
                  sfws stt spt snews sdbg] clk cr sq un].

(** Unfold a method on an opened world and follow every branch. *)
Ltac js_cases := unfold_methods; unfold_monad; js_cbn; js_split.

(** Moving camera and sprite together does not change what [update] decides. *)
Lemma oldman_update_shift (d : Z) (p : option Z) (e : Env) (w : World) :
  currentState (self (final (update p (shiftEnv d e) (moved d w))))
  = currentState (self (final (update p e w))).
Proof.
  open_world w.
  unfold moved; unfold_methods; unfold_monad.
  destruct p; [|reflexivity]. destruct sact; [|reflexivity].
  destruct sst; js_cbn; try reflexivity.
  all: destruct (oldman_exited_shift (camera e) sdir sx d) as [HL HR].
  all: rewrite HL, HR.
  all: js_split; reflexivity.
Qed.

(** No timer callback, and no [cleanup], leads to [waiting]; only [update]
    does, and only across the threshold on the side the sprite walks to. *)
Lemma oldman_callback_not_waiting (cb : Callback) (e : Env) (w : World) :
  currentState (self w) <> waiting ->
  currentState (self (settle (run_callback cb e w))) <> waiting.
Proof.
  open_world w. js_cbn. intros H.
  destruct cb; js_cases; try discriminate; try assumption.
Qed.

Lemma oldman_cleanup_state (w : World) :
  currentState (self (settle (cleanup w))) = currentState (self w).
Proof. open_world w. js_cases; reflexivity. Qed.

Lemma oldman_physics_fields (dt : Z) (w : World) :
  currentState (self (physics dt w)) = currentState (self w) /\
  patrolDirection (self (physics dt w)) = patrolDirection (self w) /\
  time (physics dt w) = time w.
Proof. open_world w. js_cases; repeat split. Qed.

Lemma oldman_update_exit (p : option Z) (e : Env) (w : World) :
  currentState (self w) <> waiting ->
  currentState (self (settle (update p e w))) = waiting ->
  (patrolDirection (self w) = -1 /\ x (self w) < cameraLeft (camera e)) \/
  (patrolDirection (self w) = 1 /\ x (self w) > cameraRight (camera e)).
Proof.
  open_world w. js_cbn. intros Hne.
  js_cases; intros Hw; try congruence; try discriminate.
  all: unfold exitedLeft, exitedRight in *; zbool.
  all: try (left; split; lia); try (right; split; lia).
Qed.

Lemma oldman_step_exit (w : World) (ev : Event) :
  currentState (self w) <> waiting ->
  currentState (self (step w ev)) = waiting ->
  exists dt p e,
    ev = EvFrame dt p e /\
    ((patrolDirection (self w) = -1 /\
      x (self (physics dt w)) < cameraLeft (camera e)) \/
     (patrolDirection (self w) = 1 /\
      x (self (physics dt w)) > cameraRight (camera e))).
Proof.
  intros Hne Hw. destruct ev as [h e | dt p e | | cb e]; cbn [step] in Hw.
  - exfalso. destruct (lookup h (time w)) as [t|]; [|contradiction].
    revert Hw. apply oldman_callback_not_waiting. cbn.
    destruct (oldman_physics_fields (Z.max 0 (due t - now (time w))) w) as (-> & _).
    exact Hne.
  - exists dt, p, e. split; [reflexivity|].
    destruct (oldman_physics_fields dt w) as (Hs & Hd & _).
    apply oldman_update_exit in Hw; cbn in *; rewrite ?Hs, ?Hd in *; auto.
  - exfalso. rewrite oldman_cleanup_state in Hw. contradiction.
  - exfalso. revert Hw. apply oldman_callback_not_waiting. exact Hne.
Qed.

(** *** The [exiting] state is never entered *)





(** *** One back pain per traversal *)












(** *** Where the sprite is placed *)

Lemma oldman_constructor_x (clk : Clock Callback) (xarg yarg : Z) :
  x (self (constructor clk xarg yarg)) = 980.
Proof. reflexivity. Qed.

Lemma oldman_enterTransit_x (e : Env) (w : World) :
  scene (self w) = true ->
  x (self (final (enterTransit e w)))
  = CameraFrameSpec.spawnX (camera e)
      (if patrolDirection (self w) =? -1 then Right else Left).
Proof.
  open_world w. js_cbn. intros ->.
  js_cases; reflexivity.
Qed.


(** *** Leaving the screen *)

Lemma oldman_update_to_waiting (px : Z) (e : Env) (w : World) :
  active (self w) = true -> scene (self w) = true -> body (self w) = true ->
  currentState (self w) = patrolling \/ currentState (self w) = exiting ->
  exitedLeft (camera e) (patrolDirection (self w)) (x (self w))
  || exitedRight (camera e) (patrolDirection (self w)) (x (self w)) = true ->
  let w' := final (update (Some px) e w) in
  threw (update (Some px) e w) = false /\
  currentState (self w') = waiting /\
  velocityX (self w') = 0 /\
  y (self w') = groundY (self w) /\
  visible (self w') = false /\
  x (self w') = x (self w) /\
  patrolDirection (self w') = patrolDirection (self w) /\
  waiting_callbacks w' = waiting_callbacks w ++ [CbReentry].
Proof.
  open_world w. unfold waiting_callbacks. js_cbn. intros -> -> -> Hst Hex.
  unfold_methods; unfold_monad.
  destruct Hst as [-> | ->]; js_cbn; rewrite Hex; js_cbn;
    rewrite map_app; repeat split.
Qed.

(** *** Attacks *)


(** No count is consulted: while patrolling with the player around, every
    call throws. *)
Lemma oldman_throw_never_refused (e : Env) (px : Z) (w : World) :
  currentState (self w) = patrolling ->
  scene (self w) = true ->
  student e = Some px ->
  spawned (final (tryToThrowNewspaper e w)) = spawned w + 1.
Proof.
  open_world w. unfold spawned. js_cbn. intros -> -> Hs.
  unfold_methods; unfold_monad; js_cbn. rewrite Hs. js_cbn.
  js_split; rewrite length_app; cbn [length]; lia.
Qed.


Lemma oldman_recover_effect (w : World) :
  scene (self w) = true -> body (self w) = true ->
  let w' := final (recoverFromBackPain w) in
  currentState (self w') = patrolling /\
  velocityX (self w') = patrolDirection (self w) * PATROL_SPEED /\
  x (self w') = x (self w) /\
  backPainThisPatrol (self w') = backPainThisPatrol (self w) /\
  throwTimer (self w') = throwTimer (self w) /\
  time w' = time w /\
  created w' = created w.
Proof.
  open_world w. js_cbn. intros -> ->.
  js_cases. repeat split.
Qed.

Lemma oldman_backpain_refused (e : Env) (w : World) :
  MAX_BACKPAIN_PER_PATROL <= backPainThisPatrol (self w) ->
  startBackPain e w = Ok tt w.
Proof.
  open_world w. js_cbn. intros H.
  unfold_methods; unfold_monad; js_cbn.
  destruct (Z.geb_spec sbptp MAX_BACKPAIN_PER_PATROL); [reflexivity|lia].
Qed.

(** *** The squirrel *)

Lemma oldman_spawnSquirrel_place (w : World) :
  scene (self w) = true ->
  squirrels (final (spawnSquirrel w)) = squirrels w ++ [(850, 555)].
Proof.
  open_world w. js_cbn. intros ->.
  js_cases; reflexivity.
Qed.

Lemma oldman_squirrelDue_place (w : World) :
  scene (self w) = true ->
  currentState (self w) = backpain ->
  squirrels (final (squirrelDue w)) = squirrels w ++ [(850, 555)].
Proof.
  open_world w. js_cbn. intros -> ->.
  js_cases; reflexivity.
Qed.

(** *** After a back pain the rest of the traversal is silent *)

Ltac clock_all :=
  rewrite ?map_app, ?forallb_app; cbn [map forallb callback arms_attack negb andb];
  rewrite ?andb_true_r;
  repeat first [assumption | reflexivity | apply clock_remove_all].


Lemma oldman_startBackPain_effect (e : Env) (h : nat) (w : World) :
  scene (self w) = true -> body (self w) = true ->
  backPainThisPatrol (self w) < MAX_BACKPAIN_PER_PATROL ->
  throwTimer (self w) = Some h ->
  attack_free (set_time (remove h (time w)) w) = true ->
  let w' := final (startBackPain e w) in
  currentState (self w') = backpain /\
  velocityX (self w') = 0 /\
  backPainThisPatrol (self w') = backPainThisPatrol (self w) + 1 /\
  backPainCount (self w') = backPainCount (self w) + 1 /\
  throwTimer (self w') = None /\
  (scene (self w') = true /\ body (self w') = true) /\
  patrolDirection (self w') = patrolDirection (self w) /\
  x (self w') = x (self w) /\
  created w' = created w /\
  waiting_callbacks w'
  = waiting_callbacks (set_time (remove h (time w)) w) ++ [CbSquirrel; CbRecover] /\
  attack_free w' = true.
Proof.
  open_world w. unfold attack_free, waiting_callbacks. js_cbn.
  intros -> -> Hlt -> Hf.
  unfold_methods; unfold_monad; js_cbn.
  destruct (Z.geb_spec sbptp MAX_BACKPAIN_PER_PATROL) as [Hge|_]; [lia|].
  js_cbn. rewrite <- !app_assoc, !map_app. cbn [app map callback].
  repeat split. clock_all.
Qed.

Lemma oldman_quiet_callback (cb : Callback) (e : Env) (w : World) :
  arms_attack cb = false -> is_entry cb = false ->
  attack_free w = true ->
  attack_free (settle (run_callback cb e w)) = true /\
  created (settle (run_callback cb e w)) = created w.
Proof.
  open_world w. unfold attack_free, waiting_callbacks. js_cbn.
  destruct cb; cbn [arms_attack is_entry]; intros Ha He Hf;
    try discriminate Ha; try discriminate He.
  all: js_cases; split; try reflexivity; clock_all.
Qed.

Lemma oldman_quiet_update (p : option Z) (e : Env) (w : World) :
  attack_free w = true ->
  attack_free (settle (update p e w)) = true /\
  created (settle (update p e w)) = created w.
Proof.
  open_world w. unfold attack_free, waiting_callbacks. js_cbn. intros Hf.
  js_cases; split; try reflexivity; clock_all.
Qed.

Lemma oldman_quiet_cleanup (w : World) :
  attack_free w = true ->
  attack_free (settle (cleanup w)) = true /\
  created (settle (cleanup w)) = created w.
Proof.
  open_world w. unfold attack_free, waiting_callbacks. js_cbn. intros Hf.
  js_cases; split; try reflexivity; clock_all.
Qed.

Lemma oldman_physics_world (dt : Z) (w : World) :
  time (physics dt w) = time w /\ created (physics dt w) = created w.
Proof. open_world w. js_cases; split; reflexivity. Qed.

Lemma oldman_quiet_step (w : World) (ev : Event) :
  natural ev = true -> enters w ev = false ->
  attack_free w = true ->
  attack_free (step w ev) = true /\ created (step w ev) = created w.
Proof.
  destruct ev as [h e | dt p e | | cb e]; cbn [natural step enters];
    intros Hn He Hf; try discriminate Hn.
  - destruct (lookup h (time w)) as [t|] eqn:Hl; [|split; [exact Hf|reflexivity]].
    pose proof (clock_lookup_all _ h (time w) Hf Hl) as Ht.
    apply negb_true_iff in Ht.
    destruct (oldman_physics_world (Z.max 0 (due t - now (time w))) w) as [Hp Hc].
    match goal with
    | |- context [run_callback _ _ ?w2] =>
        destruct (oldman_quiet_callback (callback t) e w2 Ht He) as [H1 H2]
    end.
    { unfold attack_free, waiting_callbacks. cbn [time set_time]. rewrite Hp.
      apply clock_dispatch_all, Hf. }
    split; [exact H1|]. rewrite H2. exact Hc.
  - destruct (oldman_physics_world dt w) as [Hp Hc].
    match goal with
    | |- context [update _ _ ?w2] =>
        destruct (oldman_quiet_update p e w2) as [H1 H2]
    end.
    { unfold attack_free, waiting_callbacks. cbn [time set_time pending elapse].
      rewrite Hp. exact Hf. }
    split; [exact H1|]. rewrite H2. exact Hc.
  - apply oldman_quiet_cleanup, Hf.
Qed.

Lemma oldman_quiet_run (evs : list Event) :
  forall w,
    forallb natural evs = true -> same_traversal w evs = true ->
    attack_free w = true ->
    created (run w evs) = created w.
Proof.
  induction evs as [|ev evs IH]; intros w Hn Ht Hf; [reflexivity|].
  change (run w (ev :: evs)) with (run (step w ev) evs).
  cbn [forallb same_traversal] in Hn, Ht.
  apply andb_true_iff in Hn, Ht. destruct Hn as [Hn Hns], Ht as [He Ht].
  apply negb_true_iff in He.
  destruct (oldman_quiet_step w ev Hn He Hf) as [Hf' Hc].
  rewrite (IH (step w ev) Hns Ht Hf'). exact Hc.
Qed.

(** *** The throw timer keeps throwing *)



End OldManFacts.
(** ** When the old man's first newspaper comes *)

Unset Implicit Arguments.

Module OldManTiming.
Import OldMan OldManFacts Invariant.

Section Late.
Variable D : Z.
Implicit Types (c : Clock Callback) (t : TimerEvent Callback).





End Late.









End OldManTiming.

Set Implicit Arguments.

(** ** Facts about [Bully] *)

Module BullyFacts.
Import Bully.

Ltac unfold_methods :=
  repeat progress unfold run_callback, update, startWaiting, startEntering, enterNow,
    startCharging, prepareReentry, tryToThrow, throwWordBubble, cleanup, destroy,
    startExiting, startThrowingTimer, stopThrowingTimer, startWalkAnimation,
    stopWalkAnimation, showEntryWarning, showEntranceTaunt, showAttackTaunt,
    showExitTaunt, playThrowAnimation, setVisible, setActive, setFlipX, draw,
    pushTimer, gone, delayedCall, addEvent, timer_remove, the_scene,
    this, assign, settle, physics.

Ltac js_cbn :=
  cbn -[exitedLeft exitedRight Z.add Z.mul Z.div Z.sub Z.max Z.modulo Between
        dispatch remove lookup removeAll].

Ltac js_split :=
  repeat first
    [ match goal with
      | |- context [if ?b then _ else _] => is_var b; destruct b eqn:?; js_cbn
      | |- context [match ?o with Some _ => _ | None => _ end] =>
          is_var o; destruct o eqn:?; js_cbn
      end
    | match goal with
      | |- context [if ?b then _ else _] =>
          lazymatch type of b with bool => destruct b eqn:?; js_cbn end
      | |- context [match ?o with Some _ => _ | None => _ end] =>
          destruct o eqn:?; js_cbn
      end ].

Ltac open_world w :=
  destruct w as [[sx sy sgy svis sact sbody sscene sflip svx sst sdir stc
                  sfws spend sdead stt sbub] clk cr un].

Ltac js_cases := unfold_methods; unfold_monad; js_cbn; js_split.

(** Moving camera and sprite together does not change what [update] decides. *)
Lemma bully_update_shift (d : Z) (p : option Z) (e : Env) (w : World) :
  currentState (self (final (update p (shiftEnv d e) (moved d w))))
  = currentState (self (final (update p e w))).
Proof.
  open_world w.
  unfold moved; unfold_methods; unfold_monad.
  destruct p; [|reflexivity]. destruct sact; [|reflexivity].
  destruct sst; js_cbn; try reflexivity.
  all: destruct (bully_exited_shift (camera e) sdir sx d) as [HL HR].
  all: rewrite HL, HR.
  all: js_split; reflexivity.
Qed.

Lemma bully_removeAll (hs : list nat) :
  forall w, removeAll hs w = Ok tt (set_time (removed_all hs (time w)) w).
Proof.
  induction hs as [|h hs IH]; intros w.
  - destruct w; reflexivity.
  - cbn [removeAll removed_all fold_left].
    unfold bind, timer_remove, modify. rewrite IH. destruct w; reflexivity.
Qed.

Lemma bully_callback_not_waiting (cb : Callback) (e : Env) (w : World) :
  currentState (self w) <> waiting ->
  currentState (self (settle (run_callback cb e w))) <> waiting.
Proof.
  open_world w. js_cbn. intros H.
  destruct cb; js_cases; try discriminate; try assumption.
Qed.

Lemma bully_cleanup_state (w : World) :
  currentState (self (settle (cleanup w))) = currentState (self w).
Proof.
  open_world w. unfold cleanup, bind, this, gets. js_cbn.
  rewrite bully_removeAll. js_cases; reflexivity.
Qed.

Lemma bully_physics_fields (dt : Z) (w : World) :
  currentState (self (physics dt w)) = currentState (self w) /\
  patrolDirection (self (physics dt w)) = patrolDirection (self w) /\
  throwCount (self (physics dt w)) = throwCount (self w) /\
  time (physics dt w) = time w /\
  created (physics dt w) = created w.
Proof. open_world w. js_cases; repeat split. Qed.

Lemma bully_update_exit (p : option Z) (e : Env) (w : World) :
  currentState (self w) <> waiting ->
  currentState (self (settle (update p e w))) = waiting ->
  (patrolDirection (self w) = -1 /\ x (self w) < cameraLeft (camera e)) \/
  (patrolDirection (self w) = 1 /\ x (self w) > cameraRight (camera e)).
Proof.
  open_world w. js_cbn. intros Hne.
  js_cases; intros Hw; try congruence; try discriminate.
  all: unfold exitedLeft, exitedRight in *; zbool.
  all: try (left; split; lia); try (right; split; lia).
Qed.

Lemma bully_step_exit (w : World) (ev : Event) :
  currentState (self w) <> waiting ->
  currentState (self (step w ev)) = waiting ->
  exists dt p e,
    ev = EvFrame dt p e /\
    ((patrolDirection (self w) = -1 /\
      x (self (physics dt w)) < cameraLeft (camera e)) \/
     (patrolDirection (self w) = 1 /\
      x (self (physics dt w)) > cameraRight (camera e))).
Proof.
  intros Hne Hw. destruct ev as [h e | dt p e | | cb e]; cbn [step] in Hw.
  - exfalso. destruct (lookup h (time w)) as [t|]; [|contradiction].
    revert Hw. apply bully_callback_not_waiting. cbn.
    destruct (bully_physics_fields (Z.max 0 (due t - now (time w))) w) as (-> & _).
    exact Hne.
  - exists dt, p, e. split; [reflexivity|].
    destruct (bully_physics_fields dt w) as (Hs & Hd & _).
    apply bully_update_exit in Hw; cbn in *; rewrite ?Hs, ?Hd in *; auto.
  - exfalso. rewrite bully_cleanup_state in Hw. contradiction.
  - exfalso. revert Hw. apply bully_callback_not_waiting. exact Hne.
Qed.

(** *** The [exiting] state is never entered *)





(** *** The attack budget *)




Lemma bully_cleanup_counters (w : World) :
  throwCount (self (settle (cleanup w))) = throwCount (self w) /\
  created (settle (cleanup w)) = created w.
Proof.
  open_world w. unfold cleanup, bind, this, gets. js_cbn.
  rewrite bully_removeAll. js_cases; split; reflexivity.
Qed.








(** *** Disposal *)

(** Every closure and the throw callback look at [isDestroyed] first. *)
Lemma bully_stale_callback (cb : Callback) (e : Env) (w : World) :
  isDestroyed (self w) = true ->
  run_callback cb e w = Ok tt w.
Proof.
  open_world w. js_cbn. intros ->.
  destruct cb; reflexivity.
Qed.

Lemma bully_removed_all_gone (hs : list nat) :
  forall (c : Clock Callback) h,
    In h hs \/ lookup h c = None -> lookup h (removed_all hs c) = None.
Proof.
  induction hs as [|k hs IH]; intros c h H; cbn [removed_all fold_left].
  - destruct H as [[]|H]; exact H.
  - apply IH. destruct H as [[->|H]|H].
    + right. apply clock_remove_gone.
    + left. exact H.
    + right. apply clock_remove_keeps_gone, H.
Qed.

Lemma bully_cleanup_effect (w : World) :
  scene (self w) = true ->
  let w' := final (cleanup w) in
  threw (cleanup w) = false /\
  isDestroyed (self w') = true /\
  pendingTimers (self w') = [] /\
  throwTimer (self w') = None /\
  (forall h, In h (pendingTimers (self w)) \/ throwTimer (self w) = Some h ->
             lookup h (time w') = None) /\
  currentState (self w') = currentState (self w) /\
  x (self w') = x (self w) /\
  created w' = created w.
Proof.
  open_world w. js_cbn. intros ->.
  unfold cleanup, bind, this, gets. js_cbn.
  rewrite bully_removeAll.
  js_cases; repeat split; try reflexivity.
  - intros h [H|H].
    + apply clock_remove_keeps_gone, bully_removed_all_gone. left; exact H.
    + injection H as ->. apply clock_remove_gone.
  - intros h [H|H]; [|discriminate].
    apply bully_removed_all_gone. left; exact H.
Qed.

(** *** Where the sprite is placed *)

Lemma bully_constructor_x (clk : Clock Callback) (e : Env) (xarg yarg : Z)
    (startFromRight : bool) :
  x (self (constructor clk e xarg yarg startFromRight))
  = CameraFrameSpec.spawnX (camera e) (if startFromRight then Right else Left).
Proof. destruct startFromRight; reflexivity. Qed.

Lemma bully_enterNow_x (fromRight : bool) (e : Env) (w : World) :
  gone (self w) = false -> scene (self w) = true ->
  x (self (final (enterNow fromRight e w)))
  = CameraFrameSpec.spawnX (camera e) (if fromRight then Right else Left).
Proof.
  open_world w. unfold gone. js_cbn. intros H ->.
  unfold_methods; unfold_monad; js_cbn. rewrite H. js_cbn.
  destruct fromRight; js_split; reflexivity.
Qed.


(** *** Leaving the screen *)

Lemma bully_update_to_waiting (px : Z) (e : Env) (w : World) :
  gone (self w) = false -> scene (self w) = true ->
  currentState (self w) = charging \/ currentState (self w) = exiting ->
  exitedLeft (camera e) (patrolDirection (self w)) (x (self w))
  || exitedRight (camera e) (patrolDirection (self w)) (x (self w)) = true ->
  let w' := final (update (Some px) e w) in
  threw (update (Some px) e w) = false /\
  currentState (self w') = waiting /\
  velocityX (self w') = 0 /\
  y (self w') = groundY (self w) /\
  visible (self w') = false /\
  x (self w') = x (self w) /\
  patrolDirection (self w') = patrolDirection (self w) /\
  waiting_callbacks w' = waiting_callbacks w ++ [CbReentry].
Proof.
  open_world w. unfold waiting_callbacks, gone. js_cbn. intros Hg -> Hst Hex.
  apply orb_false_iff in Hg. destruct Hg as [Hg Hb].
  apply orb_false_iff in Hg. destruct Hg as [-> Ha].
  apply negb_false_iff in Ha, Hb. subst sact sbody.
  unfold_methods; unfold_monad.
  destruct Hst as [-> | ->]; js_cbn; rewrite Hex; js_cbn;
    rewrite map_app; repeat split.
Qed.

(** *** Attacks *)


End BullyFacts.
(** ** The thresholds of the exit test *)

Unset Implicit Arguments.

Module ExitThresholds.

Lemma exit_test_iff (cam : Camera) (dir xx : Z) :
  (dir =? -1) && (xx <? scrollX cam - 100)
  || (dir =? 1) && (xx >? scrollX cam + width cam + 100) = true
  <-> (dir = -1 /\ xx < scrollX cam - 100) \/
      (dir = 1 /\ xx > scrollX cam + width cam + 100).
Proof.
  rewrite orb_true_iff, !andb_true_iff, !Z.eqb_eq, Z.ltb_lt, Z.gtb_ltb, Z.ltb_lt.
  split; intros [[H1 H2]|[H1 H2]]; [left|right|left|right]; split; lia.
Qed.

(** From [patrolling], [update] leaves the old man waiting exactly when he is
    beyond the threshold on the side he walks to. *)
Lemma oldman_update_waits_iff (px : Z) (e : Env) (w : OldMan.World) :
  OldMan.active (OldMan.self w) = true ->
  OldMan.scene (OldMan.self w) = true ->
  OldMan.body (OldMan.self w) = true ->
  OldMan.currentState (OldMan.self w) = OldMan.patrolling ->
  OldMan.currentState (OldMan.self (final (OldMan.update (Some px) e w)))
  = OldMan.waiting
  <-> (OldMan.patrolDirection (OldMan.self w) = -1 /\
       OldMan.x (OldMan.self w) < scrollX (camera e) - 100) \/
      (OldMan.patrolDirection (OldMan.self w) = 1 /\
       OldMan.x (OldMan.self w) > scrollX (camera e) + width (camera e) + 100).
Proof.
  intros Ha Hs Hb Hst. split.
  - intros Hw. apply (OldManFacts.oldman_update_exit (Some px) e w).
    + rewrite Hst. discriminate.
    + destruct (OldMan.update (Some px) e w); exact Hw.
  - intros H. apply exit_test_iff in H.
    apply (OldManFacts.oldman_update_to_waiting px e w Ha Hs Hb (or_introl Hst) H).
Qed.

(** The same for the bully, from [charging]. *)
Lemma bully_update_waits_iff (px : Z) (e : Env) (w : Bully.World) :
  Bully.gone (Bully.self w) = false ->
  Bully.scene (Bully.self w) = true ->
  Bully.currentState (Bully.self w) = Bully.charging ->
  Bully.currentState (Bully.self (final (Bully.update (Some px) e w)))
  = Bully.waiting
  <-> (Bully.patrolDirection (Bully.self w) = -1 /\
       Bully.x (Bully.self w) < scrollX (camera e) - 100) \/
      (Bully.patrolDirection (Bully.self w) = 1 /\
       Bully.x (Bully.self w) > scrollX (camera e) + width (camera e) + 100).
Proof.
  intros Hg Hs Hst. split.
  - intros Hw. apply (BullyFacts.bully_update_exit (Some px) e w).
    + rewrite Hst. discriminate.
    + destruct (Bully.update (Some px) e w); exact Hw.
  - intros H. apply exit_test_iff in H.
    apply (BullyFacts.bully_update_to_waiting px e w Hg Hs (or_introl Hst) H).
Qed.

End ExitThresholds.

Set Implicit Arguments.

(** * The claims *)

Import Scenario.
Unset Implicit Arguments.

(** ** Spawn geometry *)

(** C1.  Every placement made on entry or re-entry is camera relative, but the
    [OldMan] constructor is not: it puts the sprite at
    [SCREEN_RIGHT + SPAWN_OFFSET], world x = 980, whatever the camera shows.
    With the camera scrolled to 500 the camera-relative right spawn edge is
    1400, and 980 lies inside the visible region. *)
Theorem oldman_constructor_uses_fixed_world_x :
  let frame := {| scrollX := 500; width := 800 |} in
  (forall clk xarg yarg,
      OldMan.x (OldMan.self (OldMan.constructor clk xarg yarg))
      = OldMan.SCREEN_RIGHT + OldMan.SPAWN_OFFSET) /\
  OldMan.SCREEN_RIGHT + OldMan.SPAWN_OFFSET = 980 /\
  CameraFrameSpec.spawnX frame Right = 1400 /\
  in_view frame 980 = true.
Proof. repeat split. Qed.

(** C2, as stated, fails on JavaScript's numbers.  The positions are
    binary64 numbers and the physics step leaves fractions in them.  A
    sprite walking left at x = -100.00000000000001, the next number below
    -100, with the camera at 0 has exited on the left; with camera and sprite
    both moved by 1000 the sum x + 1000 is rounded to 900, the threshold
    itself, and the same test says it has not. *)
Lemma exit_test_moved_by_1000_rounds_onto_the_threshold :
  let x := Binary64.just_left_of_the_threshold in
  Binary64.exitedLeft Binary64.at_rest Binary64.leftwards x = true /\
  Binary64.moved x = Binary64.cameraLeft (Binary64.moved Binary64.at_rest) /\
  Binary64.exitedLeft (Binary64.moved Binary64.at_rest) Binary64.leftwards
    (Binary64.moved x) = false.
Proof. vm_compute. repeat split. Qed.

(** C2, amended.  The exit test of both classes is camera relative: from the
    attacking state [update] leaves the sprite waiting exactly when it walks
    left and is left of [scrollX - 100], or walks right and is right of
    [scrollX + width + 100].  On integer coordinates, where these sums are
    exact, the outcome only depends on [x - scrollX]: moving the camera and
    the sprite by the same integer [d] changes neither the exited-left nor
    the exited-right result, nor the state [update] leaves the sprite in,
    whatever the position and the patrol direction. *)
Theorem exit_detection_is_camera_relative :
  forall (e : Env) (px d : Z) (wo : OldMan.World) (wb : Bully.World),
    (OldMan.active (OldMan.self wo) = true ->
     OldMan.scene (OldMan.self wo) = true ->
     OldMan.body (OldMan.self wo) = true ->
     OldMan.currentState (OldMan.self wo) = OldMan.patrolling ->
     OldMan.currentState (OldMan.self (final (OldMan.update (Some px) e wo)))
     = OldMan.waiting
     <-> (OldMan.patrolDirection (OldMan.self wo) = -1 /\
          OldMan.x (OldMan.self wo) < scrollX (camera e) - 100) \/
         (OldMan.patrolDirection (OldMan.self wo) = 1 /\
          OldMan.x (OldMan.self wo) > scrollX (camera e) + width (camera e) + 100)) /\
    (Bully.gone (Bully.self wb) = false ->
     Bully.scene (Bully.self wb) = true ->
     Bully.currentState (Bully.self wb) = Bully.charging ->
     Bully.currentState (Bully.self (final (Bully.update (Some px) e wb)))
     = Bully.waiting
     <-> (Bully.patrolDirection (Bully.self wb) = -1 /\
          Bully.x (Bully.self wb) < scrollX (camera e) - 100) \/
         (Bully.patrolDirection (Bully.self wb) = 1 /\
          Bully.x (Bully.self wb) > scrollX (camera e) + width (camera e) + 100)) /\
    (exact d -> exact (scrollX (camera e)) -> exact (width (camera e)) ->
     (forall dir xx : Z,
         exact xx ->
         OldMan.exitedLeft (shift d (camera e)) dir (xx + d)
         = OldMan.exitedLeft (camera e) dir xx /\
         OldMan.exitedRight (shift d (camera e)) dir (xx + d)
         = OldMan.exitedRight (camera e) dir xx /\
         Bully.exitedLeft (shift d (camera e)) dir (xx + d)
         = Bully.exitedLeft (camera e) dir xx /\
         Bully.exitedRight (shift d (camera e)) dir (xx + d)
         = Bully.exitedRight (camera e) dir xx) /\
     (forall p : option Z,
         exact (OldMan.x (OldMan.self wo)) ->
         OldMan.currentState
           (OldMan.self (final (OldMan.update p (shiftEnv d e) (OldMan.moved d wo))))
         = OldMan.currentState (OldMan.self (final (OldMan.update p e wo)))) /\
     (forall p : option Z,
         exact (Bully.x (Bully.self wb)) ->
         Bully.currentState
           (Bully.self (final (Bully.update p (shiftEnv d e) (Bully.moved d wb))))
         = Bully.currentState (Bully.self (final (Bully.update p e wb))))).
Proof.
  intros e px d wo wb.
  split; [apply ExitThresholds.oldman_update_waits_iff|].
  split; [apply ExitThresholds.bully_update_waits_iff|].
  intros _ _ _. split; [|split].
  - intros dir xx _.
    destruct (oldman_exited_shift (camera e) dir xx d) as [H1 H2].
    destruct (bully_exited_shift (camera e) dir xx d) as [H3 H4].
    repeat split; assumption.
  - intros p _. apply OldManFacts.oldman_update_shift.
  - intros p _. apply BullyFacts.bully_update_shift.
Qed.

(** The old man of [Old.first_pass] and the bully of [Bul.first_pass], each
    moved by the physics of its last frame beyond the left threshold, and
    camera and sprite moved by 1000. *)
Lemma exit_detection_is_camera_relative_witness :
  OldMan.currentState
    (OldMan.self (final (OldMan.update (Some 400) still Old.off_screen)))
  = OldMan.waiting /\
  Bully.currentState
    (Bully.self (final (Bully.update (Some 400) still Bul.off_screen)))
  = Bully.waiting /\
  OldMan.exitedLeft (shift 1000 (camera still)) (-1) (-102 + 1000)
  = OldMan.exitedLeft (camera still) (-1) (-102) /\
  OldMan.currentState
    (OldMan.self
       (final (OldMan.update (Some 400) (shiftEnv 1000 still)
                 (OldMan.moved 1000 Old.off_screen))))
  = OldMan.currentState
      (OldMan.self (final (OldMan.update (Some 400) still Old.off_screen))) /\
  Bully.currentState
    (Bully.self
       (final (Bully.update (Some 400) (shiftEnv 1000 still)
                 (Bully.moved 1000 Bul.off_screen))))
  = Bully.currentState
      (Bully.self (final (Bully.update (Some 400) still Bul.off_screen))).
Proof.
  destruct (exit_detection_is_camera_relative still 400 1000
              Old.off_screen Bul.off_screen) as (Ho & Hb & Hs).
  split.
  { apply Ho; try (vm_compute; reflexivity).
    left. vm_compute. split; reflexivity. }
  split.
  { apply Hb; try (vm_compute; reflexivity).
    left. vm_compute. split; reflexivity. }
  assert (Hd : exact 1000) by (unfold exact; lia).
  assert (Hc : exact (scrollX (camera still))) by (unfold exact; cbn; lia).
  assert (Hw : exact (width (camera still))) by (unfold exact; cbn; lia).
  destruct (Hs Hd Hc Hw) as (Hx & Hwo & Hwb).
  split; [apply (Hx (-1) (-102)); unfold exact; lia|].
  split; [apply Hwo|apply Hwb]; unfold exact; vm_compute; split; discriminate.
Defined.

(** C6.  A sprite only leaves its traversal for [waiting] in a frame whose
    [update] finds it beyond the threshold on the side it walks to: with
    [patrolDirection = -1] left of [scrollX - 100], with [patrolDirection = 1]
    right of [scrollX + width + 100].  No timer callback, no [cleanup] and no
    crossing of the other threshold does it. *)
Theorem exit_only_in_patrol_direction :
  forall (wo : OldMan.World) (evo : OldMan.Event)
         (wb : Bully.World) (evb : Bully.Event),
    (OldMan.currentState (OldMan.self wo) <> OldMan.waiting ->
     OldMan.currentState (OldMan.self (OldMan.step wo evo)) = OldMan.waiting ->
     exists dt p e,
       evo = OldMan.EvFrame dt p e /\
       ((OldMan.patrolDirection (OldMan.self wo) = -1 /\
         OldMan.x (OldMan.self (OldMan.physics dt wo)) < scrollX (camera e) - 100) \/
        (OldMan.patrolDirection (OldMan.self wo) = 1 /\
         OldMan.x (OldMan.self (OldMan.physics dt wo))
         > scrollX (camera e) + width (camera e) + 100))) /\
    (Bully.currentState (Bully.self wb) <> Bully.waiting ->
     Bully.currentState (Bully.self (Bully.step wb evb)) = Bully.waiting ->
     exists dt p e,
       evb = Bully.EvFrame dt p e /\
       ((Bully.patrolDirection (Bully.self wb) = -1 /\
         Bully.x (Bully.self (Bully.physics dt wb)) < scrollX (camera e) - 100) \/
        (Bully.patrolDirection (Bully.self wb) = 1 /\
         Bully.x (Bully.self (Bully.physics dt wb))
         > scrollX (camera e) + width (camera e) + 100))).
Proof.
  intros wo evo wb evb. split.
  - apply OldManFacts.oldman_step_exit.
  - apply BullyFacts.bully_step_exit.
Qed.

(** The old man of [Old.first_pass] and the bully of [Bul.first_pass], each in
    the frame that takes it off screen on the left. *)
Lemma exit_only_in_patrol_direction_witness :
  (exists dt p e,
      OldMan.EvFrame 200 (Some 400) still = OldMan.EvFrame dt p e /\
      ((OldMan.patrolDirection (OldMan.self Old.before_exit) = -1 /\
        OldMan.x (OldMan.self (OldMan.physics dt Old.before_exit))
        < scrollX (camera e) - 100) \/
       (OldMan.patrolDirection (OldMan.self Old.before_exit) = 1 /\
        OldMan.x (OldMan.self (OldMan.physics dt Old.before_exit))
        > scrollX (camera e) + width (camera e) + 100))) /\
  (exists dt p e,
      Bully.EvFrame 1100 (Some 400) still = Bully.EvFrame dt p e /\
      ((Bully.patrolDirection (Bully.self Bul.before_exit) = -1 /\
        Bully.x (Bully.self (Bully.physics dt Bul.before_exit))
        < scrollX (camera e) - 100) \/
       (Bully.patrolDirection (Bully.self Bul.before_exit) = 1 /\
        Bully.x (Bully.self (Bully.physics dt Bul.before_exit))
        > scrollX (camera e) + width (camera e) + 100))).
Proof.
  destruct (exit_only_in_patrol_direction
              Old.before_exit (OldMan.EvFrame 200 (Some 400) still)
              Bul.before_exit (Bully.EvFrame 1100 (Some 400) still)) as [Ho Hb].
  split.
  - apply Ho; vm_compute; [discriminate | reflexivity].
  - apply Hb; vm_compute; [discriminate | reflexivity].
Defined.

(** ** Disposal *)

(** C3.  [Bully.cleanup] sets [isDestroyed] first and removes every timer in
    [pendingTimers], and every bully callback begins with the [isDestroyed]
    test.  [OldMan.cleanup] has neither: it removes the throw timer and the
    phase timer only, so the timers made by [delayedCall] stay in the clock
    and their closures still run on the destroyed sprite.
    - Disposed while waiting for the first entry: the constructor's timer is
      still pending; when it fires, [startEntering] sets [currentState] to
      [entering] and clears [backPainThisPatrol] before it fails on the
      missing scene.
    - Disposed mid-[entering]: the enter-transit timer is still pending; when
      it fires it fails on the missing scene (an uncaught [TypeError]).
    - Disposed while walking in: the pending closure sets [currentState] to
      [patrolling] before it fails. *)
Theorem oldman_cleanup_leaves_callbacks_alive :
  let w1 := OldMan.run Old.born [OldMan.EvCleanup] in
  let w2 := OldMan.run w1 [OldMan.EvTimer 0 still] in
  let m1 := OldMan.run Old.born [OldMan.EvTimer 0 still; OldMan.EvCleanup] in
  let m2 := OldMan.run m1 [OldMan.EvTimer 1 still] in
  let p1 := OldMan.run Old.born
              [OldMan.EvTimer 0 still; OldMan.EvTimer 1 still; OldMan.EvCleanup] in
  let p2 := OldMan.run p1 [OldMan.EvTimer 2 still] in
  (OldMan.uncaught w1 = 0%nat /\
   OldMan.waiting_callbacks w1 = [OldMan.CbConstructor] /\
   OldMan.currentState (OldMan.self w1) = OldMan.waiting /\
   OldMan.currentState (OldMan.self w2) = OldMan.entering /\
   OldMan.uncaught w2 = 1%nat) /\
  (OldMan.uncaught m1 = 0%nat /\
   OldMan.waiting_callbacks m1 = [OldMan.CbEnterTransit] /\
   OldMan.self m2 = OldMan.self m1 /\
   OldMan.uncaught m2 = 1%nat) /\
  (OldMan.uncaught p1 = 0%nat /\
   OldMan.waiting_callbacks p1 = [OldMan.CbStartPatrolling] /\
   OldMan.currentState (OldMan.self p1) = OldMan.entering /\
   OldMan.currentState (OldMan.self p2) = OldMan.patrolling /\
   OldMan.uncaught p2 = 1%nat).
Proof. vm_compute. repeat split. Qed.

(** The bully does what C3 asks: after [cleanup], [isDestroyed] is set, every
    timer it tracked is out of the clock, and whatever callback is still
    called returns at once. *)
Lemma bully_disposal_is_safe (cb : Bully.Callback) (e : Env) (w : Bully.World) :
  Bully.scene (Bully.self w) = true ->
  let w' := final (Bully.cleanup w) in
  Bully.isDestroyed (Bully.self w') = true /\
  (forall h, In h (Bully.pendingTimers (Bully.self w))
             \/ Bully.throwTimer (Bully.self w) = Some h ->
             lookup h (Bully.time w') = None) /\
  Bully.run_callback cb e w' = Ok tt w'.
Proof.
  intros Hs w'.
  destruct (BullyFacts.bully_cleanup_effect w Hs) as (_ & Hd & _ & _ & Hl & _).
  split; [exact Hd|]. split; [exact Hl|].
  apply BullyFacts.bully_stale_callback, Hd.
Qed.

(** What it does not track is a throw timer left over from an earlier pass:
    [startWaiting] does not stop the throw timer and [startThrowingTimer]
    overwrites the handle.  In the second pass of this run two throw timers
    are running; [cleanup] removes the one it knows, the other stays in the
    clock, and its callback finds [isDestroyed] set. *)
Lemma bully_cleanup_misses_leftover_throw_timer :
  let w := Bully.run Bul.born (Bul.first_pass ++ Bul.second_entry) in
  let w' := Bully.run w [Bully.EvCleanup] in
  let w'' := Bully.run w' [Bully.EvTimer 3 still] in
  Bully.chronological Bul.born (Bul.first_pass ++ Bul.second_entry) = true /\
  Bully.waiting_callbacks w = [Bully.CbThrow; Bully.CbThrow] /\
  Bully.throwTimer (Bully.self w) = Some 7%nat /\
  handles (Bully.time w') = [3%nat] /\
  (Bully.self w'' = Bully.self w' /\ Bully.created w'' = Bully.created w' /\
   Bully.uncaught w'' = 0%nat).
Proof. vm_compute. repeat split. Qed.

(** ** Phase stall *)



(** ** The squirrel *)

(** C10.  The squirrel of the back-pain phase is created at world position
    (850, 555), by [spawnSquirrel] and hence by the timer callback that calls
    it, with no reference to the camera; a camera whose visible region does
    not hold world x = 850 does not show it. *)
Theorem squirrel_spawns_at_fixed_world_position :
  forall (e : Env) (w : OldMan.World) (cam : Camera),
    (OldMan.scene (OldMan.self w) = true ->
     OldMan.squirrels (final (OldMan.spawnSquirrel w))
     = OldMan.squirrels w ++ [(850, 555)]) /\
    (OldMan.scene (OldMan.self w) = true ->
     OldMan.currentState (OldMan.self w) = OldMan.backpain ->
     OldMan.squirrels (final (OldMan.run_callback OldMan.CbSquirrel e w))
     = OldMan.squirrels w ++ [(850, 555)]) /\
    (850 < scrollX cam \/ scrollX cam + width cam < 850 ->
     in_view cam 850 = false).
Proof.
  intros e w cam. split; [|split].
  - apply OldManFacts.oldman_spawnSquirrel_place.
  - apply OldManFacts.oldman_squirrelDue_place.
  - unfold in_view. intros [H|H].
    + apply andb_false_iff. left. apply Z.leb_gt, H.
    + apply andb_false_iff. right. apply Z.leb_gt, H.
Qed.

(** The old man in pain at 12500 (see [Old.attack_and_stall]) under a camera
    scrolled to 5000. *)
Lemma squirrel_spawns_at_fixed_world_position_witness :
  let w := OldMan.run Old.born
             (Old.entry ++ [OldMan.EvTimer 3 still; OldMan.EvTimer 4 still]) in
  let e := scene_at 5000 0 0 in
  OldMan.squirrels (final (OldMan.spawnSquirrel w)) = OldMan.squirrels w ++ [(850, 555)] /\
  OldMan.squirrels (final (OldMan.run_callback OldMan.CbSquirrel e w))
  = OldMan.squirrels w ++ [(850, 555)] /\
  in_view far_camera 850 = false.
Proof.
  intros w e.
  destruct (squirrel_spawns_at_fixed_world_position e w far_camera) as (H1 & H2 & H3).
  split; [|split].
  - apply H1. vm_compute. reflexivity.
  - apply H2; vm_compute; reflexivity.
  - apply H3. left. vm_compute. reflexivity.
Defined.

(** ** Attack budget *)




(** ** Leaving and coming back *)




(** ** Attack timing *)




(** The proviso is needed.  In the chronological run [Old.second_patrol] the
    first pass was cut short before the back pain, so its throw timer is
    still in the clock when the old man starts patrolling again at 14400;
    it fires at 14500 and throws, 100 ms after the start and 2400 ms before
    the new timer is due. *)
Lemma oldman_leftover_timer_throws_early :
  let e := scene_at 800 0 0 in
  let w := OldMan.run Old.born Old.second_patrol in
  let w' := OldMan.run w [OldMan.EvTimer 3 e] in
  OldMan.chronological Old.born (Old.second_patrol ++ [OldMan.EvTimer 3 e]) = true /\
  (OldMan.currentState (OldMan.self w) = OldMan.patrolling /\
   now (OldMan.time w) = 14400 /\
   OldMan.spawned w = 0 /\
   Invariant.throws_not_before (14400 + OldMan.THROW_INTERVAL) w = false) /\
  (now (OldMan.time w') = 14500 /\ OldMan.spawned w' = 1).
Proof. vm_compute. repeat split. Qed.

(** ** Recovery *)

(** C9, as stated, fails: after the recovery no newspaper is thrown.  In the
    chronological run [Old.first_pass] the old man is back in [patrolling] at
    18500 with three newspapers thrown; 7000 ms later, still [patrolling] with
    the player on screen, the count is still three and no closure is left in
    the clock. *)
Lemma oldman_is_silent_after_recovery :
  let w := OldMan.run Old.born (Old.entry ++ Old.attack_and_stall) in
  OldMan.chronological Old.born
    (Old.entry ++ Old.attack_and_stall ++ [OldMan.EvFrame 7000 (Some 400) still])
  = true /\
  student still = Some 400 /\
  (OldMan.currentState (OldMan.self w) = OldMan.patrolling /\
   now (OldMan.time w) = 18500 /\
   OldMan.spawned w = 3) /\
  (OldMan.currentState (OldMan.self Old.before_exit) = OldMan.patrolling /\
   now (OldMan.time Old.before_exit) = 18500 + 7000 /\
   2 * OldMan.THROW_INTERVAL <= 7000 /\
   OldMan.spawned Old.before_exit = 3 /\
   OldMan.waiting_callbacks Old.before_exit = []).
Proof. vm_compute. repeat split; discriminate. Qed.

(** C9, amended.  Take an old man who has not had back pain in this
    traversal and whose only armed source of attacks is the throw timer he
    tracks.  When the phase timer fires he stops ([backpain]) and removes the
    throw timer; when the recovery timer fires he is [patrolling] again and
    walks on from where he stood at [patrolDirection * PATROL_SPEED], but the
    throw timer is not started again: nothing that can lead to an attack is
    left in the clock, no event of the rest of the traversal throws a
    newspaper, and a further phase callback is refused. *)
Theorem recovery_resumes_the_walk_without_attacks :
  forall (e e' : Env) (h : nat) (w : OldMan.World) (during : list OldMan.Event),
    OldMan.scene (OldMan.self w) = true ->
    OldMan.body (OldMan.self w) = true ->
    OldMan.backPainThisPatrol (OldMan.self w) = 0 ->
    OldMan.throwTimer (OldMan.self w) = Some h ->
    OldMan.attack_free (OldMan.set_time (remove h (OldMan.time w)) w) = true ->
    let w1 := final (OldMan.startBackPain e w) in
    let w2 := final (OldMan.recoverFromBackPain w1) in
    OldMan.currentState (OldMan.self w1) = OldMan.backpain /\
    OldMan.currentState (OldMan.self w2) = OldMan.patrolling /\
    OldMan.velocityX (OldMan.self w2)
    = OldMan.patrolDirection (OldMan.self w) * OldMan.PATROL_SPEED /\
    OldMan.x (OldMan.self w2) = OldMan.x (OldMan.self w) /\
    OldMan.throwTimer (OldMan.self w2) = None /\
    OldMan.attack_free w2 = true /\
    OldMan.startBackPain e' w2 = Ok tt w2 /\
    (forallb OldMan.natural during = true ->
     OldMan.same_traversal w2 during = true ->
     OldMan.created (OldMan.run w2 during) = OldMan.created w2).
Proof.
  intros e e' h w during Hs Hb Hz Ht Hf w1 w2.
  assert (Hlt : OldMan.backPainThisPatrol (OldMan.self w)
                < OldMan.MAX_BACKPAIN_PER_PATROL)
    by (rewrite Hz; reflexivity).
  destruct (OldManFacts.oldman_startBackPain_effect e w Hs Hb Hlt Ht Hf)
    as (S1 & _ & S2 & _ & S3 & (S4 & S5) & S6 & S7 & _ & _ & S8).
  fold w1 in S1, S2, S3, S4, S5, S6, S7, S8.
  destruct (OldManFacts.oldman_recover_effect w1 S4 S5)
    as (R1 & R2 & R3 & R4 & R5 & R6 & _).
  fold w2 in R1, R2, R3, R4, R5, R6.
  assert (Hf2 : OldMan.attack_free w2 = true).
  { unfold OldMan.attack_free, OldMan.waiting_callbacks in *. rewrite R6. exact S8. }
  repeat split.
  - exact S1.
  - exact R1.
  - rewrite R2, S6. reflexivity.
  - rewrite R3. exact S7.
  - rewrite R5. exact S3.
  - exact Hf2.
  - apply OldManFacts.oldman_backpain_refused.
    rewrite R4, S2, Hz. unfold OldMan.MAX_BACKPAIN_PER_PATROL. lia.
  - intros Hn Hsame. apply OldManFacts.oldman_quiet_run; assumption.
Qed.

(** The old man of [Old.first_pass] when his phase timer is due (12500), and
    the rest of that pass after the recovery. *)
Lemma recovery_resumes_the_walk_without_attacks_witness :
  let w := OldMan.run Old.born
             (Old.entry ++ [OldMan.EvTimer 3 still; OldMan.EvTimer 3 still;
                            OldMan.EvTimer 3 still]) in
  let w2 := final (OldMan.recoverFromBackPain (final (OldMan.startBackPain still w))) in
  OldMan.currentState (OldMan.self w2) = OldMan.patrolling /\
  OldMan.velocityX (OldMan.self w2) = -1 * OldMan.PATROL_SPEED /\
  OldMan.throwTimer (OldMan.self w2) = None /\
  OldMan.startBackPain still w2 = Ok tt w2 /\
  OldMan.created (OldMan.run w2 Old.walk_off) = OldMan.created w2.
Proof.
  intros w w2.
  destruct (recovery_resumes_the_walk_without_attacks still still 3 w Old.walk_off)
    as (_ & H1 & H2 & _ & H3 & _ & H4 & H5); try (vm_compute; reflexivity).
  split; [exact H1|]. split; [exact H2|]. split; [exact H3|]. split; [exact H4|].
  apply H5; vm_compute; reflexivity.
Defined.

(** * Further properties of the patrol classes *)

Module OldManMore.
Import OldMan OldManFacts Invariant.

Lemma oldman_steady_callback (cb : Callback) (e : Env) (w : World) :
  oldman_steady (self w) -> oldman_steady (self (settle (run_callback cb e w))).
Proof.
  open_world w. unfold oldman_steady, PATROL_SPEED. js_cbn. intros [Hd Hv].
  destruct cb; js_cases; split; try assumption; unfold PATROL_SPEED; lia.
Qed.

Lemma oldman_steady_update (p : option Z) (e : Env) (w : World) :
  oldman_steady (self w) -> oldman_steady (self (settle (update p e w))).
Proof.
  open_world w. unfold oldman_steady, PATROL_SPEED. js_cbn. intros [Hd Hv].
  js_cases; split; try assumption; unfold PATROL_SPEED; lia.
Qed.

Lemma oldman_steady_cleanup (w : World) :
  oldman_steady (self w) -> oldman_steady (self (settle (cleanup w))).
Proof.
  open_world w. unfold oldman_steady, PATROL_SPEED. js_cbn. intros [Hd Hv].
  js_cases; split; try assumption; unfold PATROL_SPEED; lia.
Qed.

Lemma oldman_steady_physics (dt : Z) (w : World) :
  oldman_steady (self w) -> oldman_steady (self (physics dt w)).
Proof.
  open_world w. unfold oldman_steady. js_cbn. intros H. js_cases; exact H.
Qed.

Lemma oldman_steady_step (w : World) (ev : Event) :
  oldman_steady (self w) -> oldman_steady (self (step w ev)).
Proof.
  intros H. destruct ev as [h e | dt p e | | cb e]; cbn [step].
  - destruct (lookup h (time w)) as [t|]; [|exact H].
    apply oldman_steady_callback. cbn [self set_time].
    apply oldman_steady_physics, H.
  - apply oldman_steady_update. cbn [self set_time].
    apply oldman_steady_physics, H.
  - apply oldman_steady_cleanup, H.
  - apply oldman_steady_callback, H.
Qed.

Lemma oldman_steady_run (evs : list Event) :
  forall w, oldman_steady (self w) -> oldman_steady (self (run w evs)).
Proof.
  induction evs as [|ev evs IH]; intros w H; [exact H|].
  apply (IH (step w ev)), oldman_steady_step, H.
Qed.

(** *** Where a newspaper starts *)

Lemma oldman_throw_place (e : Env) (px : Z) (w : World) :
  currentState (self w) = patrolling ->
  scene (self w) = true ->
  student e = Some px ->
  forall (bound : Z) (d : Newspaper),
    bound + 20 < x (self w) ->
    bound < paperX (last (created (final (tryToThrowNewspaper e w))) d).
Proof.
  open_world w. js_cbn. intros -> -> Hs bound d Hx.
  unfold_methods; unfold_monad; js_cbn. rewrite Hs. js_cbn.
  js_split; rewrite last_last; cbn [paperX]; lia.
Qed.

(** *** Without a player *)

Lemma oldman_callback_no_player (cb : Callback) (e : Env) (w : World) :
  student e = None ->
  created (settle (run_callback cb e w)) = created w.
Proof.
  open_world w. destruct e as [cam st r u]. cbn [student]. intros ->.
  destruct cb; js_cases; reflexivity.
Qed.

Lemma oldman_update_no_player (e : Env) (w : World) :
  settle (update None e w) = w.
Proof. open_world w. js_cases; reflexivity. Qed.

Lemma oldman_cleanup_created (w : World) :
  created (settle (cleanup w)) = created w.
Proof. open_world w. js_cases; reflexivity. Qed.

Lemma oldman_physics_created (dt : Z) (w : World) :
  created (physics dt w) = created w.
Proof. open_world w. js_cases; reflexivity. Qed.

Lemma absent_None (e : Env) : absent e = true -> student e = None.
Proof. unfold absent. destruct (student e); [discriminate|reflexivity]. Qed.

Lemma oldman_playerless_step (w : World) (ev : Event) :
  oldman_playerless ev = true ->
  created (step w ev) = created w /\
  (currentState (self w) <> waiting -> currentState (self (step w ev)) <> waiting).
Proof.
  destruct ev as [h e | dt p e | | cb e]; cbn [step oldman_playerless].
  - intros He. apply absent_None in He.
    destruct (lookup h (time w)) as [t|]; [|split; [reflexivity|auto]].
    rewrite (oldman_callback_no_player _ _ _ He). cbn [created set_time].
    rewrite oldman_physics_created. split; [reflexivity|].
    intros Hne. apply oldman_callback_not_waiting. cbn [self set_time].
    destruct (oldman_physics_fields (Z.max 0 (due t - now (time w))) w) as (-> & _).
    exact Hne.
  - destruct p; [discriminate|]. intros _.
    rewrite oldman_update_no_player. cbn [created self set_time].
    rewrite oldman_physics_created.
    destruct (oldman_physics_fields dt w) as (-> & _). split; [reflexivity|auto].
  - intros _. rewrite oldman_cleanup_created, oldman_cleanup_state.
    split; [reflexivity|auto].
  - intros He. apply absent_None in He.
    rewrite (oldman_callback_no_player _ _ _ He). split; [reflexivity|].
    apply oldman_callback_not_waiting.
Qed.

Lemma oldman_playerless_run (evs : list Event) :
  forall w,
    forallb oldman_playerless evs = true ->
    created (run w evs) = created w /\
    (currentState (self w) <> waiting -> currentState (self (run w evs)) <> waiting).
Proof.
  induction evs as [|ev evs IH]; intros w H; [split; [reflexivity|auto]|].
  cbn [forallb] in H. apply andb_true_iff in H. destruct H as [H1 H2].
  destruct (oldman_playerless_step w ev H1) as [Hc Hs].
  destruct (IH (step w ev) H2) as [Hc' Hs'].
  cbn [run fold_left]. fold (run (step w ev) evs).
  rewrite Hc', Hc. split; [reflexivity|auto].
Qed.

End OldManMore.

Module BullyMore.
Import Bully BullyFacts Invariant.

Lemma bully_steady_callback (cb : Callback) (e : Env) (w : World) :
  bully_steady (self w) -> bully_steady (self (settle (run_callback cb e w))).
Proof.
  open_world w. unfold bully_steady. js_cbn. intros [Hd Hv].
  destruct cb; js_cases; split; try assumption; unfold PATROL_SPEED; lia.
Qed.

Lemma bully_steady_update (p : option Z) (e : Env) (w : World) :
  bully_steady (self w) -> bully_steady (self (settle (update p e w))).
Proof.
  open_world w. unfold bully_steady. js_cbn. intros [Hd Hv].
  js_cases; split; try assumption; unfold PATROL_SPEED; lia.
Qed.

Lemma bully_steady_cleanup (w : World) :
  bully_steady (self w) -> bully_steady (self (settle (cleanup w))).
Proof.
  open_world w. unfold bully_steady. js_cbn. intros [Hd Hv].
  unfold cleanup, bind, this, gets. js_cbn. rewrite bully_removeAll.
  js_cases; split; assumption.
Qed.

Lemma bully_steady_physics (dt : Z) (w : World) :
  bully_steady (self w) -> bully_steady (self (physics dt w)).
Proof.
  open_world w. unfold bully_steady. js_cbn. intros H. js_cases; exact H.
Qed.

Lemma bully_steady_step (w : World) (ev : Event) :
  bully_steady (self w) -> bully_steady (self (step w ev)).
Proof.
  intros H. destruct ev as [h e | dt p e | | cb e]; cbn [step].
  - destruct (lookup h (time w)) as [t|]; [|exact H].
    apply bully_steady_callback. cbn [self set_time].
    apply bully_steady_physics, H.
  - apply bully_steady_update. cbn [self set_time].
    apply bully_steady_physics, H.
  - apply bully_steady_cleanup, H.
  - apply bully_steady_callback, H.
Qed.

Lemma bully_steady_run (evs : list Event) :
  forall w, bully_steady (self w) -> bully_steady (self (run w evs)).
Proof.
  induction evs as [|ev evs IH]; intros w H; [exact H|].
  apply (IH (step w ev)), bully_steady_step, H.
Qed.

(** *** The books of pending timers *)

Lemma recorded_more (hs hs' : list nat) (t : TimerEvent Callback) :
  recorded hs t = true -> recorded (hs ++ hs') t = true.
Proof.
  unfold recorded. destruct (callback t); try reflexivity;
    rewrite existsb_app; intros ->; reflexivity.
Qed.

Lemma books_more (hs hs' : list nat) (l : list (TimerEvent Callback)) :
  forallb (recorded hs) l = true -> forallb (recorded (hs ++ hs')) l = true.
Proof.
  rewrite !forallb_forall. intros H t Ht. apply recorded_more, H, Ht.
Qed.

Lemma books_dispatch (hs : list nat) (t : TimerEvent Callback) (c : Clock Callback) :
  forallb (recorded hs) (pending c) = true ->
  forallb (recorded hs) (pending (dispatch t c)) = true.
Proof.
  rewrite !forallb_forall. intros H u Hu. cbn in Hu.
  destruct (loop t).
  - apply in_map_iff in Hu. destruct Hu as (v & <- & Hv).
    specialize (H v Hv). destruct (Nat.eqb (tid v) (tid t)); exact H.
  - apply filter_In in Hu. apply H, Hu.
Qed.

Lemma books_remove (hs : list nat) (h : nat) (c : Clock Callback) :
  forallb (recorded hs) (pending c) = true ->
  forallb (recorded hs) (pending (remove h c)) = true.
Proof.
  rewrite !forallb_forall. intros H u Hu. cbn in Hu.
  apply filter_In in Hu. apply H, Hu.
Qed.

Lemma removed_all_spec (hs : list nat) :
  forall (c : Clock Callback) (t : TimerEvent Callback),
    In t (pending (removed_all hs c)) ->
    In t (pending c) /\ existsb (Nat.eqb (tid t)) hs = false.
Proof.
  induction hs as [|h hs IH]; intros c t Ht; cbn [removed_all fold_left] in *.
  - split; [exact Ht|reflexivity].
  - apply IH in Ht. destruct Ht as [Ht Hn]. cbn in Ht.
    apply filter_In in Ht. destruct Ht as [Ht Hh].
    split; [exact Ht|]. cbn [existsb]. rewrite Hn.
    apply negb_true_iff in Hh. rewrite Hh. reflexivity.
Qed.

Lemma books_after_removal (hs : list nat) (c : Clock Callback) :
  forallb (recorded hs) (pending c) = true ->
  forallb is_throw (pending (removed_all hs c)) = true.
Proof.
  rewrite !forallb_forall. intros H t Ht.
  apply removed_all_spec in Ht. destruct Ht as [Ht Hn].
  specialize (H t Ht). unfold recorded, is_throw in *.
  destruct (callback t); try reflexivity; congruence.
Qed.

Lemma throw_timers_are_recorded (hs : list nat) (l : list (TimerEvent Callback)) :
  forallb is_throw l = true -> forallb (recorded hs) l = true.
Proof.
  rewrite !forallb_forall. intros H t Ht. specialize (H t Ht).
  unfold recorded, is_throw in *. destruct (callback t); try reflexivity; discriminate.
Qed.

Lemma throw_timers_remove (h : nat) (c : Clock Callback) :
  forallb is_throw (pending c) = true ->
  forallb is_throw (pending (remove h c)) = true.
Proof.
  rewrite !forallb_forall. intros H u Hu. cbn in Hu.
  apply filter_In in Hu. apply H, Hu.
Qed.

Ltac books :=
  rewrite ?forallb_app; cbn [forallb recorded callback tid];
  rewrite ?existsb_app; cbn [existsb];
  rewrite ?Nat.eqb_refl, ?orb_true_r, ?andb_true_r;
  first [ assumption | apply books_more; assumption | reflexivity ].

Lemma books_callback (cb : Callback) (e : Env) (w : World) :
  bully_books_kept w = true ->
  bully_books_kept (settle (run_callback cb e w)) = true.
Proof.
  open_world w. unfold bully_books_kept. js_cbn. intros H.
  destruct cb; js_cases; books.
Qed.

Lemma books_update (p : option Z) (e : Env) (w : World) :
  bully_books_kept w = true ->
  bully_books_kept (settle (update p e w)) = true.
Proof.
  open_world w. unfold bully_books_kept. js_cbn. intros H.
  js_cases; books.
Qed.

Lemma books_physics (dt : Z) (w : World) :
  pendingTimers (self (physics dt w)) = pendingTimers (self w).
Proof. open_world w. js_cases; reflexivity. Qed.

(** After [cleanup], whatever state it was called in, the sprite is marked
    destroyed, its list is empty and only throw timers can be left. *)
Lemma books_cleanup (w : World) :
  bully_books_kept w = true ->
  let w' := settle (cleanup w) in
  isDestroyed (self w') = true /\
  pendingTimers (self w') = [] /\
  forallb is_throw (pending (time w')) = true.
Proof.
  open_world w. unfold bully_books_kept. js_cbn. intros H.
  pose proof (books_after_removal spend clk H) as Hr.
  unfold cleanup, bind, this, gets. js_cbn. rewrite bully_removeAll.
  js_cases; repeat split; try assumption; apply throw_timers_remove, Hr.
Qed.

Lemma books_step (w : World) (ev : Event) :
  bully_books_kept w = true -> bully_books_kept (step w ev) = true.
Proof.
  intros H. destruct ev as [h e | dt p e | | cb e]; cbn [step].
  - destruct (lookup h (time w)) as [t|]; [|exact H].
    apply books_callback. unfold bully_books_kept in *. cbn [self time set_time].
    rewrite books_physics.
    destruct (bully_physics_fields (Z.max 0 (due t - now (time w))) w)
      as (_ & _ & _ & -> & _).
    apply books_dispatch, H.
  - apply books_update. unfold bully_books_kept in *.
    cbn [self time set_time pending elapse].
    rewrite books_physics.
    destruct (bully_physics_fields dt w) as (_ & _ & _ & -> & _). exact H.
  - destruct (books_cleanup w H) as (_ & Hp & Ht).
    unfold bully_books_kept. rewrite Hp. apply throw_timers_are_recorded, Ht.
  - apply books_callback, H.
Qed.

Lemma books_run (evs : list Event) :
  forall w, bully_books_kept w = true -> bully_books_kept (run w evs) = true.
Proof.
  induction evs as [|ev evs IH]; intros w H; [exact H|].
  apply (IH (step w ev)), books_step, H.
Qed.

(** *** Without a player *)

Lemma bully_callback_no_player (cb : Callback) (e : Env) (w : World) :
  student e = None ->
  created (settle (run_callback cb e w)) = created w.
Proof.
  open_world w. destruct e as [cam st r u]. cbn [student]. intros ->.
  destruct cb; js_cases; reflexivity.
Qed.

Lemma bully_update_no_player (e : Env) (w : World) :
  settle (update None e w) = w.
Proof. open_world w. js_cases; reflexivity. Qed.

Lemma bully_playerless_step (w : World) (ev : Event) :
  bully_playerless ev = true ->
  created (step w ev) = created w /\
  (currentState (self w) <> waiting -> currentState (self (step w ev)) <> waiting).
Proof.
  destruct ev as [h e | dt p e | | cb e]; cbn [step bully_playerless].
  - intros He. apply OldManMore.absent_None in He.
    destruct (lookup h (time w)) as [t|]; [|split; [reflexivity|auto]].
    rewrite (bully_callback_no_player _ _ _ He). cbn [created set_time].
    destruct (bully_physics_fields (Z.max 0 (due t - now (time w))) w)
      as (Hst & _ & _ & _ & ->).
    split; [reflexivity|].
    intros Hne. apply bully_callback_not_waiting. cbn [self set_time].
    rewrite Hst. exact Hne.
  - destruct p; [discriminate|]. intros _.
    rewrite bully_update_no_player. cbn [created self set_time].
    destruct (bully_physics_fields dt w) as (-> & _ & _ & _ & ->).
    split; [reflexivity|auto].
  - intros _. rewrite bully_cleanup_state.
    destruct (bully_cleanup_counters w) as [_ ->]. split; [reflexivity|auto].
  - intros He. apply OldManMore.absent_None in He.
    rewrite (bully_callback_no_player _ _ _ He). split; [reflexivity|].
    apply bully_callback_not_waiting.
Qed.

Lemma bully_playerless_run (evs : list Event) :
  forall w,
    forallb bully_playerless evs = true ->
    created (run w evs) = created w /\
    (currentState (self w) <> waiting -> currentState (self (run w evs)) <> waiting).
Proof.
  induction evs as [|ev evs IH]; intros w H; [split; [reflexivity|auto]|].
  cbn [forallb] in H. apply andb_true_iff in H. destruct H as [H1 H2].
  destruct (bully_playerless_step w ev H1) as [Hc Hs].
  destruct (IH (step w ev) H2) as [Hc' Hs'].
  cbn [run fold_left]. fold (run (step w ev) evs).
  rewrite Hc', Hc. split; [reflexivity|auto].
Qed.

(** *** Disposal *)

Lemma sound_callback (cb : Callback) (e : Env) (w : World) :
  bully_sound (self w) -> bully_sound (self (settle (run_callback cb e w))).
Proof.
  intros [[Hd Hs]|D].
  - left. revert Hd Hs. open_world w. js_cbn. intros -> ->.
    destruct cb; js_cases; split; reflexivity.
  - right. destruct D as (Hd & D). rewrite (bully_stale_callback cb e w Hd).
    cbn [settle]. split; assumption.
Qed.

Lemma sound_update (p : option Z) (e : Env) (w : World) :
  bully_sound (self w) -> bully_sound (self (settle (update p e w))).
Proof.
  open_world w. unfold bully_sound, disposed. js_cbn.
  intros [[-> ->]|(-> & -> & -> & -> & -> & -> & ->)].
  - left. js_cases; split; reflexivity.
  - right. js_cases; repeat split; reflexivity.
Qed.

Lemma sound_cleanup (w : World) :
  bully_sound (self w) -> disposed (self (settle (cleanup w))).
Proof.
  open_world w. unfold bully_sound, disposed. js_cbn.
  intros [[-> ->]|(-> & -> & -> & -> & -> & -> & ->)];
    unfold cleanup, bind, this, gets; js_cbn; rewrite bully_removeAll;
    js_cases; repeat split; reflexivity.
Qed.

Lemma sound_physics (dt : Z) (w : World) :
  bully_sound (self w) -> bully_sound (self (physics dt w)).
Proof.
  open_world w. unfold bully_sound, disposed. js_cbn. intros H. js_cases; exact H.
Qed.

Lemma sound_step (w : World) (ev : Event) :
  bully_sound (self w) -> bully_sound (self (step w ev)).
Proof.
  intros H. destruct ev as [h e | dt p e | | cb e]; cbn [step].
  - destruct (lookup h (time w)) as [t|]; [|exact H].
    apply sound_callback. cbn [self set_time]. apply sound_physics, H.
  - apply sound_update. cbn [self set_time]. apply sound_physics, H.
  - right. apply sound_cleanup, H.
  - apply sound_callback, H.
Qed.

Lemma sound_run (evs : list Event) :
  forall w, bully_sound (self w) -> bully_sound (self (run w evs)).
Proof.
  induction evs as [|ev evs IH]; intros w H; [exact H|].
  apply (IH (step w ev)), sound_step, H.
Qed.

(** Nothing moves or changes a bully that has been disposed of. *)
Lemma disposed_step (w : World) (ev : Event) :
  disposed (self w) ->
  self (step w ev) = self w /\ created (step w ev) = created w.
Proof.
  intros D. destruct ev as [h e | dt p e | | cb e]; cbn [step].
  - destruct (lookup h (time w)) as [t|]; [|split; reflexivity].
    destruct D as (Hd & _ & Hb & _).
    rewrite bully_stale_callback.
    + cbn [settle self created set_time]. unfold physics. rewrite Hb.
      split; reflexivity.
    + cbn [self set_time]. unfold physics. rewrite Hb. exact Hd.
  - revert D. open_world w. unfold disposed. js_cbn.
    intros (-> & -> & -> & -> & -> & -> & ->). js_cases; split; reflexivity.
  - revert D. open_world w. unfold disposed. js_cbn.
    intros (-> & -> & -> & -> & -> & -> & ->). js_cases; split; reflexivity.
  - destruct D as (Hd & _). rewrite (bully_stale_callback cb e w Hd).
    split; reflexivity.
Qed.

Lemma disposed_run (evs : list Event) :
  forall w, disposed (self w) ->
            self (run w evs) = self w /\ created (run w evs) = created w.
Proof.
  induction evs as [|ev evs IH]; intros w D; [split; reflexivity|].
  destruct (disposed_step w ev D) as [Hs Hc].
  cbn [run fold_left]. fold (run (step w ev) evs).
  destruct (IH (step w ev)) as [Hs' Hc']; [rewrite Hs; exact D|].
  rewrite Hs', Hc', Hs, Hc. split; reflexivity.
Qed.

End BullyMore.

(** * Properties of the player *)

(** ** One-shot timers in a clock with distinct handles *)

Section ClockHandles.
Variable Callback : Type.
Variable P : TimerEvent Callback -> bool.
Implicit Types (c : Clock Callback) (t : TimerEvent Callback).

Lemma tidy_empty : tidy (emptyClock Callback).
Proof. split; [constructor|constructor]. Qed.

Lemma tidy_schedule d cb c :
  tidy c -> tidy (snd (schedule d false cb c)).
Proof.
  intros [Hnd Hall]. unfold schedule, tidy, handles. cbn.
  rewrite map_app. cbn. split.
  - apply NoDup_app_remove_l with (l := []). cbn.
    rewrite <- (rev_involutive (map _ _ ++ _)). apply NoDup_rev.
    rewrite rev_app_distr. cbn. constructor.
    + rewrite <- in_rev. intros Hin. apply in_map_iff in Hin.
      destruct Hin as (t & Ht & Hin).
      rewrite Forall_forall in Hall. specialize (Hall t Hin). lia.
    + apply NoDup_rev, Hnd.
  - apply Forall_app. split.
    + eapply Forall_impl; [|exact Hall]. cbn. intros t [H1 H2]. split; [lia|exact H2].
    + constructor; [|constructor]. cbn. split; [lia|reflexivity].
Qed.

Lemma tidy_dispatch t c : tidy c -> loop t = false -> tidy (dispatch t c).
Proof.
  intros [Hnd Hall] Hl. unfold dispatch, tidy, handles. cbn. rewrite Hl. split.
  - unfold handles in Hnd. clear Hall. induction (pending c) as [|u l IH]; cbn; [constructor|].
    inversion Hnd as [|? ? Hnot Hrest]; subst.
    destruct (negb (Nat.eqb (tid u) (tid t))); cbn; [|apply IH, Hrest].
    constructor; [|apply IH, Hrest].
    intros Hin. apply Hnot. apply in_map_iff in Hin.
    destruct Hin as (v & Hv & Hin). apply filter_In in Hin.
    apply in_map_iff. exists v. split; [exact Hv|apply Hin].
  - rewrite Forall_forall in *. intros u Hu. apply filter_In in Hu. apply Hall, Hu.
Qed.

Lemma tidy_elapse dt c : tidy c -> tidy (elapse dt c).
Proof. intros H. exact H. Qed.

Lemma tidy_lookup h c t : tidy c -> lookup h c = Some t -> loop t = false.
Proof.
  intros [_ Hall] Hl. apply clock_lookup_in in Hl. destruct Hl as [Hin _].
  rewrite Forall_forall in Hall. apply Hall, Hin.
Qed.

(** Dispatching a one-shot event takes exactly that event out of the clock. *)
Lemma tidy_dispatch_count h c t :
  tidy c -> lookup h c = Some t ->
  (length (filter P (pending (dispatch t c))) + (if P t then 1 else 0)
   = length (filter P (pending c)))%nat.
Proof.
  intros Ht Hl. pose proof (tidy_lookup h c t Ht Hl) as Hloop.
  destruct Ht as [Hnd _]. apply clock_lookup_in in Hl. destruct Hl as [Hin _].
  unfold dispatch, handles in *. cbn. rewrite Hloop.
  induction (pending c) as [|u l IH]; [destruct Hin|].
  inversion Hnd as [|? ? Hnot Hrest]; subst. cbn.
  destruct Hin as [->|Hin].
  - rewrite Nat.eqb_refl. cbn.
    assert (Hsame : filter (fun u => negb (Nat.eqb (tid u) (tid t))) l = l).
    { clear IH Hrest Hnd. revert Hnot.
      induction l as [|v l IHl]; intros Hnot; [reflexivity|]. cbn.
      destruct (Nat.eqb_spec (tid v) (tid t)) as [E|E].
      - exfalso. apply Hnot. left. exact E.
      - cbn. f_equal. apply IHl. intros H. apply Hnot. right. exact H. }
    rewrite Hsame. destruct (P t); cbn; lia.
  - destruct (Nat.eqb_spec (tid u) (tid t)) as [E|E].
    + exfalso. apply Hnot. rewrite E. apply in_map, Hin.
    + cbn. specialize (IH Hrest Hin). destruct (P u); cbn; lia.
Qed.

End ClockHandles.

(** ** The meter *)

Module MeterFacts.
Import ConfidenceMeter.

Lemma meter_update_in_range (amount : Z) (m : Meter) :
  0 <= maxConfidence m ->
  0 <= currentConfidence (updateConfidence amount m) <= maxConfidence m /\
  maxConfidence (updateConfidence amount m) = maxConfidence m.
Proof.
  destruct m as [mx cur]. unfold updateConfidence. cbn. intros H.
  rewrite Z.gtb_ltb.
  destruct (Z.ltb_spec (cur + amount) 0); cbn;
    match goal with |- context [?a <? ?b] => destruct (Z.ltb_spec a b) end;
    cbn; lia.
Qed.

Lemma meter_update_is_set (amount : Z) (m : Meter) :
  0 <= maxConfidence m ->
  updateConfidence amount m = setConfidence (currentConfidence m + amount) m.
Proof.
  destruct m as [mx cur]. unfold updateConfidence, setConfidence, set_currentConfidence.
  cbn [currentConfidence maxConfidence]. intros H.
  rewrite Z.gtb_ltb.
  destruct (Z.ltb_spec (cur + amount) 0); cbn [currentConfidence maxConfidence];
    match goal with |- context [?a <? ?b] => destruct (Z.ltb_spec a b) end;
    cbn [currentConfidence maxConfidence]; f_equal; lia.
Qed.

End MeterFacts.

(** ** The student *)

Module StudentFacts.
Import Student.

Ltac unfold_methods :=
  repeat progress unfold run_callback, update, updateJumpTimers, handleMovement,
    handleDefeatWalk, onWalkedOffScreen, handleHorizontalMovement, moveLeft,
    moveRight, stopHorizontalMovement, handleJump, tryToJump, jump,
    updateGroundedState, takeDamage, heal, updateExpression, flashDamage, stumble,
    stumbleEnd, flashHeal, onConfidenceDepleted, tellMeter, setVelocityX,
    setVelocityY, setFlipX, setTexture, setTint, clearTint, tween, delayedCall,
    this, assign, getConfidencePercent.

(** The setters are unfolded as soon as they are applied, so that every
    assignment builds a record from the fields of the one before and the
    states stay small. *)
#[local] Arguments set_self v w /.
#[local] Arguments set_time v w /.
#[local] Arguments set_confidenceMeter v w /.
#[local] Arguments set_gameOvers v w /.
#[local] Arguments set_jumps v w /.
#[local] Arguments set_x v o /.
#[local] Arguments set_velocityX v o /.
#[local] Arguments set_velocityY v o /.
#[local] Arguments set_flipX v o /.
#[local] Arguments set_texture v o /.
#[local] Arguments set_tint v o /.
#[local] Arguments set_alpha v o /.
#[local] Arguments set_collideWorldBounds v o /.
#[local] Arguments set_confidence v o /.
#[local] Arguments set_isOnGround v o /.
#[local] Arguments set_isStumbling v o /.
#[local] Arguments set_isDefeated v o /.
#[local] Arguments set_hasTriggeredGameOver v o /.
#[local] Arguments set_timeSinceGrounded v o /.
#[local] Arguments set_timeSinceJumpPressed v o /.
#[local] Arguments set_usedCoyoteJump v o /.

Ltac js_cbn :=
  cbn -[Z.add Z.mul Z.div Z.sub Z.opp Z.max Z.modulo dispatch lookup
        ConfidenceMeter.updateConfidence Qle_bool].

Ltac js_split :=
  repeat first
    [ match goal with
      | |- context [if ?b then _ else _] => is_var b; destruct b eqn:?; js_cbn
      | |- context [match ?o with Some _ => _ | None => _ end] =>
          is_var o; destruct o eqn:?; js_cbn
      end
    | match goal with
      | |- context [if ?b then _ else _] =>
          lazymatch type of b with bool => destruct b eqn:?; js_cbn end
      end ].

Ltac open_world w :=
  destruct w as [[sx svx svy sflip stex stint salpha scwb sconf sgnd sstum sdef
                  sgo stsg stsj suc] clk met go jm].

Ltac open_frame f :=
  destruct f as [fdt fdown fx fleft fright fjump].

Ltac js_cases := unfold_methods; unfold_monad; js_cbn; js_split.

(** *** Confidence *)

Lemma range_callback (cb : Callback) (w : World) :
  confidence (self (final (run_callback cb w))) = confidence (self w) /\
  isDefeated (self (final (run_callback cb w))) = isDefeated (self w) /\
  confidenceMeter (final (run_callback cb w)) = confidenceMeter w.
Proof. open_world w. destruct cb; js_cases; repeat split. Qed.

Lemma range_update (f : Frame) (w : World) :
  confidence (self (final (update f w))) = confidence (self w) /\
  isDefeated (self (final (update f w))) = isDefeated (self w) /\
  confidenceMeter (final (update f w)) = confidenceMeter w.
Proof. open_world w. open_frame f. js_cases; repeat split. Qed.

Lemma range_takeDamage (amount : Z) (w : World) :
  0 <= amount -> in_range w -> in_range (final (takeDamage amount w)).
Proof.
  open_world w. unfold in_range, MAX_CONFIDENCE. js_cbn. intros Ha [Hr Hd].
  js_cases; zbool; (split; [lia|]); intros; first [reflexivity | lia | auto].
Qed.

Lemma range_heal (amount : Z) (w : World) :
  0 <= amount -> in_range w -> in_range (final (heal amount w)).
Proof.
  open_world w. unfold in_range, MAX_CONFIDENCE. js_cbn. intros Ha [Hr Hd].
  js_cases; zbool; unfold MAX_CONFIDENCE in *; (split; [lia|]);
    intros; first [reflexivity | lia | apply Hd; lia].
Qed.

Lemma sync_takeDamage (amount : Z) (w : World) :
  0 <= amount -> in_range w -> in_sync w -> in_sync (final (takeDamage amount w)).
Proof.
  open_world w. unfold in_range, in_sync, MAX_CONFIDENCE. js_cbn.
  intros Ha [Hr _]. destruct met as [[mx cur]|]; js_cbn.
  - intros [-> ->].
    js_cases; trivial;
      rewrite ?MeterFacts.meter_update_is_set by (cbn; lia);
      unfold ConfidenceMeter.setConfidence, ConfidenceMeter.set_currentConfidence;
      cbn [ConfidenceMeter.maxConfidence ConfidenceMeter.currentConfidence];
      zbool; split; try reflexivity; lia.
  - intros _. js_cases; trivial.
Qed.

Lemma sync_heal (amount : Z) (w : World) :
  0 <= amount -> in_range w -> in_sync w -> in_sync (final (heal amount w)).
Proof.
  open_world w. unfold in_range, in_sync, MAX_CONFIDENCE. js_cbn.
  intros Ha [Hr _]. destruct met as [[mx cur]|]; js_cbn.
  - intros [-> ->].
    js_cases; trivial;
      rewrite ?MeterFacts.meter_update_is_set by (cbn; lia);
      unfold ConfidenceMeter.setConfidence, ConfidenceMeter.set_currentConfidence;
      cbn [ConfidenceMeter.maxConfidence ConfidenceMeter.currentConfidence];
      zbool; unfold MAX_CONFIDENCE in *; split; try reflexivity; lia.
  - intros _. js_cases; trivial.
Qed.

Lemma meter_stays_takeDamage (amount : Z) (w : World) :
  confidenceMeter w <> None -> confidenceMeter (final (takeDamage amount w)) <> None.
Proof.
  open_world w. js_cbn. intros H.
  destruct met; [|congruence]. js_cases; discriminate.
Qed.

Lemma meter_stays_heal (amount : Z) (w : World) :
  confidenceMeter w <> None -> confidenceMeter (final (heal amount w)) <> None.
Proof.
  open_world w. js_cbn. intros H.
  destruct met; [|congruence]. js_cases; discriminate.
Qed.

Lemma meter_stays_run (evs : list Event) :
  forall w, confidenceMeter w <> None -> confidenceMeter (run w evs) <> None.
Proof.
  induction evs as [|ev evs IH]; intros w H; [exact H|].
  apply (IH (step w ev)).
  destruct ev as [h | f | amount | amount]; cbn [step].
  - destruct (lookup h (time w)) as [t|]; [|exact H].
    destruct (range_callback (callback t) (set_time (dispatch t (time w)) w))
      as (_ & _ & ->). exact H.
  - match goal with |- context [update f ?w2] =>
      destruct (range_update f w2) as (_ & _ & ->) end.
    exact H.
  - apply meter_stays_takeDamage, H.
  - apply meter_stays_heal, H.
Qed.

Lemma confidence_step (w : World) (ev : Event) :
  fair ev = true ->
  in_range w /\ in_sync w -> in_range (step w ev) /\ in_sync (step w ev).
Proof.
  destruct ev as [h | f | amount | amount]; cbn [step fair]; intros Hf [Hr Hs].
  - destruct (lookup h (time w)) as [t|]; [|split; assumption].
    destruct (range_callback (callback t) (set_time (dispatch t (time w)) w))
      as (Hc & Hd & Hm).
    unfold in_range, in_sync in *. rewrite Hc, Hd, Hm. cbn. split; assumption.
  - match goal with |- context [update f ?w2] =>
      destruct (range_update f w2) as (Hc & Hd & Hm) end.
    unfold in_range, in_sync in *. rewrite Hc, Hd, Hm. cbn. split; assumption.
  - apply Z.leb_le in Hf. split.
    + apply range_takeDamage; assumption.
    + apply sync_takeDamage; assumption.
  - apply Z.leb_le in Hf. split.
    + apply range_heal; assumption.
    + apply sync_heal; assumption.
Qed.

Lemma confidence_run (evs : list Event) :
  forall w,
    forallb fair evs = true ->
    in_range w /\ in_sync w -> in_range (run w evs) /\ in_sync (run w evs).
Proof.
  induction evs as [|ev evs IH]; intros w Hf H; [exact H|].
  cbn [forallb] in Hf. apply andb_true_iff in Hf. destruct Hf as [H1 H2].
  apply (IH (step w ev) H2), confidence_step; assumption.
Qed.

(** What a hit or a heal does to the confidence, seen from the caller. *)
Lemma takeDamage_bound (amount : Z) (w : World) :
  0 <= amount ->
  confidence (self w) - amount <= confidence (self (final (takeDamage amount w))).
Proof.
  open_world w. js_cbn. intros Ha. js_cases; zbool; lia.
Qed.

Lemma heal_exact (amount : Z) (w : World) :
  confidence (self (final (heal amount w)))
  = Z.min MAX_CONFIDENCE (confidence (self w) + amount).
Proof.
  open_world w. unfold MAX_CONFIDENCE. js_cases; zbool; unfold MAX_CONFIDENCE in *; lia.
Qed.

(** The methods of the student always return. *)
Lemma takeDamage_returns (amount : Z) (w : World) :
  takeDamage amount w
  = Ok (negb (isStumbling (self w))) (final (takeDamage amount w)).
Proof. open_world w. js_cases; reflexivity. Qed.

Lemma heal_returns (amount : Z) (w : World) :
  heal amount w = Ok tt (final (heal amount w)).
Proof. open_world w. js_cases; reflexivity. Qed.

(** Timers and frames leave the confidence alone. *)
Lemma quiet_step (w : World) (ev : Event) :
  match ev with EvDamage _ | EvHeal _ => false | _ => true end = true ->
  confidence (self (step w ev)) = confidence (self w).
Proof.
  destruct ev as [h | f | amount | amount]; cbn [step]; intros H; try discriminate H.
  - destruct (lookup h (time w)) as [t|]; [|reflexivity].
    destruct (range_callback (callback t) (set_time (dispatch t (time w)) w))
      as (-> & _). reflexivity.
  - match goal with |- context [update f ?w2] =>
      destruct (range_update f w2) as (-> & _) end. reflexivity.
Qed.

(** *** Defeat and the end of the game *)

Lemma defeat_step (w : World) (ev : Event) :
  isDefeated (self w) = true -> isDefeated (self (step w ev)) = true.
Proof.
  destruct ev as [h | f | amount | amount]; cbn [step].
  - destruct (lookup h (time w)) as [t|]; [|auto].
    destruct (range_callback (callback t) (set_time (dispatch t (time w)) w))
      as (_ & -> & _). auto.
  - match goal with |- context [update f ?w2] =>
      destruct (range_update f w2) as (_ & -> & _) end. auto.
  - open_world w. js_cbn. intros ->. js_cases; reflexivity.
  - open_world w. js_cbn. intros ->. js_cases; reflexivity.
Qed.

Lemma defeat_run (evs : list Event) :
  forall w, isDefeated (self w) = true -> isDefeated (self (run w evs)) = true.
Proof.
  induction evs as [|ev evs IH]; intros w H; [exact H|].
  apply (IH (step w ev)), defeat_step, H.
Qed.

Lemma game_over_step (w : World) (ev : Event) :
  game_over_once w -> game_over_once (step w ev).
Proof.
  destruct ev as [h | f | amount | amount]; cbn [step].
  - destruct (lookup h (time w)) as [t|]; [|auto].
    generalize (dispatch t (time w)). intros c.
    open_world w. unfold game_over_once. js_cbn. intros [Hn Hd].
    destruct (callback t); js_cases; split; assumption.
  - open_world w. open_frame f. unfold game_over_once. js_cbn. intros [Hn Hd].
    js_cases; split; try assumption; try reflexivity; auto; try discriminate.
  - open_world w. unfold game_over_once. js_cbn. intros [Hn Hd].
    js_cases; split; try assumption; try reflexivity; auto; try discriminate;
      (destruct sgo; [discriminate (Hd eq_refl)|exact Hn]).
  - open_world w. unfold game_over_once. js_cbn. intros [Hn Hd].
    js_cases; split; assumption.
Qed.

Lemma game_over_run (evs : list Event) :
  forall w, game_over_once w -> game_over_once (run w evs).
Proof.
  induction evs as [|ev evs IH]; intros w H; [exact H|].
  apply (IH (step w ev)), game_over_step, H.
Qed.

(** *** Stumbling *)

Lemma stumble_step (w : World) (ev : Event) :
  stumble_ends w -> stumble_ends (step w ev).
Proof.
  destruct ev as [h | f | amount | amount]; cbn [step].
  - destruct (lookup h (time w)) as [t|] eqn:Hl; [|auto].
    intros [Ht Hc].
    pose proof (tidy_dispatch_count Callback is_stumble_end h (time w) t Ht Hl) as Hn.
    pose proof (tidy_dispatch Callback t (time w) Ht
                  (tidy_lookup Callback h (time w) t Ht Hl)) as Ht'.
    revert Hc Hn Ht'. unfold is_stumble_end at 2. generalize (dispatch t (time w)).
    intros c. open_world w. unfold stumble_ends, stumble_timers. js_cbn.
    intros Hc Hn Ht'.
    destruct (callback t); js_cases; (split; [exact Ht'|]); destruct sstum; lia.
  - open_world w. open_frame f. unfold stumble_ends, stumble_timers. js_cbn.
    intros [Ht Hc]. js_cases; (split; [exact Ht|exact Hc]).
  - open_world w. unfold stumble_ends, stumble_timers. js_cbn. intros [Ht Hc].
    js_cases; try (split; [exact Ht|exact Hc]);
      (split; [exact (tidy_schedule Callback 400 CbStumbleEnd clk Ht)|]);
      rewrite filter_app, length_app, Hc; reflexivity.
  - open_world w. unfold stumble_ends, stumble_timers. js_cbn. intros [Ht Hc].
    js_cases; (split; [exact (tidy_schedule Callback 150 CbHealFlashEnd clk Ht)|]);
      rewrite filter_app, length_app, Hc; cbn; lia.
Qed.

Lemma stumble_run (evs : list Event) :
  forall w, stumble_ends w -> stumble_ends (run w evs).
Proof.
  induction evs as [|ev evs IH]; intros w H; [exact H|].
  apply (IH (step w ev)), stumble_step, H.
Qed.

(** Right after any call of [takeDamage] the student is stumbling. *)
Lemma takeDamage_stumbles (amount : Z) (w : World) :
  isStumbling (self (final (takeDamage amount w))) = true.
Proof. open_world w. js_cases; reflexivity. Qed.

Lemma takeDamage_blocked (amount : Z) (w : World) :
  isStumbling (self w) = true -> takeDamage amount w = Ok false w.
Proof. open_world w. js_cbn. intros ->. reflexivity. Qed.

(** *** Jumping *)

Lemma jumps_callback (cb : Callback) (w : World) :
  jumps (final (run_callback cb w)) = jumps w /\
  isOnGround (self (final (run_callback cb w))) = isOnGround (self w) /\
  usedCoyoteJump (self (final (run_callback cb w))) = usedCoyoteJump (self w) /\
  timeSinceGrounded (self (final (run_callback cb w))) = timeSinceGrounded (self w) /\
  timeSinceJumpPressed (self (final (run_callback cb w)))
  = timeSinceJumpPressed (self w).
Proof. open_world w. destruct cb; js_cases; repeat split. Qed.

Lemma jumps_takeDamage (amount : Z) (w : World) :
  jumps (final (takeDamage amount w)) = jumps w /\
  isOnGround (self (final (takeDamage amount w))) = isOnGround (self w) /\
  usedCoyoteJump (self (final (takeDamage amount w))) = usedCoyoteJump (self w) /\
  timeSinceGrounded (self (final (takeDamage amount w))) = timeSinceGrounded (self w) /\
  timeSinceJumpPressed (self (final (takeDamage amount w)))
  = timeSinceJumpPressed (self w).
Proof. open_world w. js_cases; repeat split. Qed.

Lemma jumps_heal (amount : Z) (w : World) :
  jumps (final (heal amount w)) = jumps w /\
  isOnGround (self (final (heal amount w))) = isOnGround (self w) /\
  usedCoyoteJump (self (final (heal amount w))) = usedCoyoteJump (self w) /\
  timeSinceGrounded (self (final (heal amount w))) = timeSinceGrounded (self w) /\
  timeSinceJumpPressed (self (final (heal amount w)))
  = timeSinceJumpPressed (self w).
Proof. open_world w. js_cases; repeat split. Qed.

Lemma air_update (f : Frame) (w : World) :
  blockedDown f = false -> 0 <= delta f ->
  (jumps (final (update f w)) + air_jumps (final (update f w))
   <= jumps w + air_jumps w)%nat.
Proof.
  open_world w. open_frame f. unfold air_jumps, COYOTE_TIME. js_cbn.
  intros -> Hd.
  js_cases; zbool; unfold COYOTE_TIME in *;
    repeat match goal with
           | |- context [?a <=? ?b] => destruct (Z.leb_spec a b)
           | H : context [?a <=? ?b] |- _ => destruct (Z.leb_spec a b)
           end;
    cbn [orb negb andb] in *; try discriminate; try congruence; lia.
Qed.

Lemma air_step (w : World) (ev : Event) :
  airborne ev = true -> forward ev = true ->
  (jumps (step w ev) + air_jumps (step w ev) <= jumps w + air_jumps w)%nat.
Proof.
  destruct ev as [h | f | amount | amount]; cbn [step airborne forward]; intros Ha Hf.
  - destruct (lookup h (time w)) as [t|]; [|lia].
    destruct (jumps_callback (callback t) (set_time (dispatch t (time w)) w))
      as (Hj & Hg & Hu & Hs & _).
    unfold air_jumps. rewrite Hj, Hg, Hu, Hs. cbn. lia.
  - apply negb_true_iff in Ha. apply Z.leb_le in Hf.
    match goal with |- context [update f ?w2] =>
      pose proof (air_update f w2 Ha Hf) as H end.
    unfold air_jumps in *. cbn in H. exact H.
  - destruct (jumps_takeDamage amount w) as (Hj & Hg & Hu & Hs & _).
    unfold air_jumps. rewrite Hj, Hg, Hu, Hs. lia.
  - destruct (jumps_heal amount w) as (Hj & Hg & Hu & Hs & _).
    unfold air_jumps. rewrite Hj, Hg, Hu, Hs. lia.
Qed.

Lemma air_run (evs : list Event) :
  forall w,
    forallb airborne evs = true -> forallb forward evs = true ->
    (jumps (run w evs) + air_jumps (run w evs) <= jumps w + air_jumps w)%nat.
Proof.
  induction evs as [|ev evs IH]; intros w Ha Hf; [cbn; lia|].
  cbn [forallb] in Ha, Hf.
  apply andb_true_iff in Ha. apply andb_true_iff in Hf.
  destruct Ha as [Ha1 Ha2]. destruct Hf as [Hf1 Hf2].
  pose proof (air_step w ev Ha1 Hf1). pose proof (IH (step w ev) Ha2 Hf2).
  cbn [run fold_left]. fold (run (step w ev) evs). lia.
Qed.

Lemma jumps_grow_step (w : World) (ev : Event) : (jumps w <= jumps (step w ev))%nat.
Proof.
  destruct ev as [h | f | amount | amount]; cbn [step].
  - destruct (lookup h (time w)) as [t|]; [|lia].
    destruct (jumps_callback (callback t) (set_time (dispatch t (time w)) w))
      as (-> & _). cbn. lia.
  - open_world w. open_frame f. js_cases; lia.
  - destruct (jumps_takeDamage amount w) as (-> & _). lia.
  - destruct (jumps_heal amount w) as (-> & _). lia.
Qed.

Lemma jumps_grow_run (evs : list Event) :
  forall w, (jumps w <= jumps (run w evs))%nat.
Proof.
  induction evs as [|ev evs IH]; intros w; [cbn; lia|].
  pose proof (jumps_grow_step w ev). pose proof (IH (step w ev)).
  cbn [run fold_left]. fold (run (step w ev) evs). lia.
Qed.

(** *** The walk back to school *)

Lemma defeated_frame (f : Frame) (w : World) :
  isDefeated (self w) = true ->
  velocityX (self (final (update f w))) = -100 /\
  flipX (self (final (update f w))) = true.
Proof.
  open_world w. open_frame f. js_cbn. intros ->.
  js_cases; split; reflexivity.
Qed.

(** A defeated student jumps at most once more: the jump buffered before the
    defeat. *)
Lemma defeated_update (j0 : nat) (f : Frame) (w : World) :
  isDefeated (self w) = true ->
  jumps w = j0 \/ (jumps w = S j0 /\ timeSinceJumpPressed (self w) = None) ->
  jumps (final (update f w)) = j0 \/
  (jumps (final (update f w)) = S j0 /\
   timeSinceJumpPressed (self (final (update f w))) = None).
Proof.
  open_world w. open_frame f. js_cbn. intros -> H.
  destruct H as [H|[H ->]]; js_cases; auto.
Qed.

Lemma defeated_step (j0 : nat) (w : World) (ev : Event) :
  isDefeated (self w) = true ->
  jumps w = j0 \/ (jumps w = S j0 /\ timeSinceJumpPressed (self w) = None) ->
  jumps (step w ev) = j0 \/
  (jumps (step w ev) = S j0 /\ timeSinceJumpPressed (self (step w ev)) = None).
Proof.
  destruct ev as [h | f | amount | amount]; cbn [step]; intros Hd H.
  - destruct (lookup h (time w)) as [t|]; [|exact H].
    destruct (jumps_callback (callback t) (set_time (dispatch t (time w)) w))
      as (-> & _ & _ & _ & ->). exact H.
  - apply defeated_update; assumption.
  - destruct (jumps_takeDamage amount w) as (-> & _ & _ & _ & ->). exact H.
  - destruct (jumps_heal amount w) as (-> & _ & _ & _ & ->). exact H.
Qed.

Lemma defeated_run (j0 : nat) (evs : list Event) :
  forall w,
    isDefeated (self w) = true ->
    jumps w = j0 \/ (jumps w = S j0 /\ timeSinceJumpPressed (self w) = None) ->
    (jumps (run w evs) <= S j0)%nat.
Proof.
  induction evs as [|ev evs IH]; intros w Hd H.
  - cbn. destruct H as [->|[-> _]]; lia.
  - apply (IH (step w ev)).
    + apply defeat_step, Hd.
    + apply defeated_step; assumption.
Qed.

(** *** The jump buffer *)

Lemma buffer_press (f : Frame) (w : World) :
  isDefeated (self w) = false ->
  isOnGround (self w) = false ->
  usedCoyoteJump (self w) = true ->
  blockedDown f = false ->
  jumpJustDown f = true ->
  let w1 := final (update f w) in
  jumps w1 = jumps w /\
  timeSinceJumpPressed (self w1) = Some 0 /\
  isDefeated (self w1) = false.
Proof.
  open_world w. open_frame f. js_cbn. intros -> -> -> -> ->.
  js_cases; repeat split.
Qed.

Lemma buffer_landing (t : Z) (f : Frame) (w : World) :
  timeSinceJumpPressed (self w) = Some t ->
  blockedDown f = true ->
  jumpJustDown f = false ->
  let w2 := final (update f w) in
  jumps w2 = Nat.add (jumps w) (if t + delta f <? JUMP_BUFFER_TIME then 1%nat else 0%nat) /\
  (t + delta f < JUMP_BUFFER_TIME -> velocityY (self w2) = JUMP_POWER).
Proof.
  open_world w. open_frame f. unfold JUMP_BUFFER_TIME, JUMP_POWER. js_cbn.
  intros -> -> ->.
  js_cases; zbool; unfold JUMP_BUFFER_TIME in *; split; intros; try lia; reflexivity.
Qed.

End StudentFacts.

(** * Properties of the projectiles and power-ups *)

(** Follow the branches of the goal, innermost conditions first. *)
Ltac simple_condition b :=
  lazymatch type of b with bool => idtac end;
  lazymatch b with
  | context [if _ then _ else _] => fail
  | context [match _ with Ok _ _ => _ | Throw _ => _ end] => fail
  | _ => idtac
  end.

Ltac split_ifs_with simp :=
  repeat first
    [ match goal with
      | |- context [if ?b then _ else _] => is_var b; destruct b eqn:?; simp
      end
    | match goal with
      | |- context [if ?b then _ else _] => simple_condition b; destruct b eqn:?; simp
      end ].

(** ** Word bubbles *)

Module WordBubbleFacts.
Import WordBubble.

#[local] Arguments set_self v w /.
#[local] Arguments set_player v w /.
#[local] Arguments set_hits v w /.
#[local] Arguments set_uncaught v w /.
#[local] Arguments set_x v o /.
#[local] Arguments set_y v o /.
#[local] Arguments set_hasHitPlayer v o /.
#[local] Arguments set_isDestroyed v o /.
#[local] Arguments set_listening v o /.
#[local] Arguments set_scene v o /.

Ltac unfold_methods :=
  repeat progress unfold hitPlayer, checkOffScreen, cleanup, destroy, showHitEffect,
    onPlayer, the_scene, this, assign, settle.

Ltac js_cbn :=
  cbn -[Z.add Z.sub Z.opp Z.mul Student.takeDamage Student.step Z.gtb Z.ltb].

Ltac open_world w :=
  destruct w as [[bx by_ bvx bvy bhit bdead blis bscene] p hs un].

Ltac split_ifs := split_ifs_with js_cbn.

(** What the student still has to fear from the bubble. *)
Lemma bubble_step (c0 : Z) (w : World) (ev : Event) :
  calm ev = true ->
  c0 <= Student.confidence (Student.self (player w))
        - (if hasHitPlayer (self w) then 0 else DAMAGE) /\
  (hits w <= (if hasHitPlayer (self w) then 1 else 0))%nat ->
  c0 <= Student.confidence (Student.self (player (step w ev)))
        - (if hasHitPlayer (self (step w ev)) then 0 else DAMAGE) /\
  (hits (step w ev) <= (if hasHitPlayer (self (step w ev)) then 1 else 0))%nat.
Proof.
  destruct ev as [xx yy | a b | | pev]; cbn [step calm].
  - intros _. open_world w. js_cbn. intros H.
    unfold_methods; unfold_monad; js_cbn.
    destruct bscene, blis; js_cbn; try exact H; split_ifs; exact H.
  - intros _. open_world w. unfold DAMAGE. js_cbn. intros [Hc Hh].
    pose proof (StudentFacts.takeDamage_bound 12 p ltac:(lia)) as Hb.
    unfold_methods; unfold_monad; js_cbn.
    destruct bhit; js_cbn; [split; assumption|].
    destruct bdead; js_cbn; [split; assumption|].
    unfold DAMAGE.
    destruct (pick a b); js_cbn;
      try (destruct (Student.takeDamage 12 p) as [r q|q] eqn:E; js_cbn;
           cbn [final] in Hb);
      split_ifs; split; try lia.
  - intros _. open_world w. js_cbn. intros H.
    unfold_methods; unfold_monad; js_cbn. split_ifs; exact H.
  - intros Hq. open_world w. js_cbn. intros [Hc Hh].
    rewrite StudentFacts.quiet_step; [split; assumption|].
    destruct pev; try reflexivity; discriminate Hq.
Qed.

Lemma bubble_run (c0 : Z) (evs : list Event) :
  forall w,
    forallb calm evs = true ->
    c0 <= Student.confidence (Student.self (player w))
          - (if hasHitPlayer (self w) then 0 else DAMAGE) /\
    (hits w <= (if hasHitPlayer (self w) then 1 else 0))%nat ->
    c0 <= Student.confidence (Student.self (player (run w evs))) /\
    (hits (run w evs) <= 1)%nat.
Proof.
  induction evs as [|ev evs IH]; intros w Hc H.
  - cbn. destruct H as [H1 H2]. unfold DAMAGE in *.
    destruct (hasHitPlayer (self w)); split; lia.
  - cbn [forallb] in Hc. apply andb_true_iff in Hc. destruct Hc as [Hc1 Hc2].
    apply (IH (step w ev) Hc2), bubble_step; assumption.
Qed.

(** A bubble that touches a stumbling student is used up without effect. *)
Lemma bubble_wasted (w : World) :
  hasHitPlayer (self w) = false -> isDestroyed (self w) = false ->
  scene (self w) = true ->
  Student.isStumbling (Student.self (player w)) = true ->
  let w' := step w (EvOverlap TheBubble ThePlayer) in
  player w' = player w /\ isDestroyed (self w') = true /\
  hasHitPlayer (self w') = true /\ listening (self w') = false.
Proof.
  open_world w. js_cbn. intros -> -> -> Hs.
  unfold_methods; unfold_monad; js_cbn.
  rewrite (StudentFacts.takeDamage_blocked DAMAGE p Hs). js_cbn.
  repeat split.
Qed.

End WordBubbleFacts.

(** ** Squirrels *)

Module SquirrelFacts.
Import Squirrel.

#[local] Arguments set_self v w /.
#[local] Arguments set_time v w /.
#[local] Arguments set_player v w /.
#[local] Arguments set_hits v w /.
#[local] Arguments set_uncaught v w /.
#[local] Arguments set_x v o /.
#[local] Arguments set_y v o /.
#[local] Arguments set_velocityX v o /.
#[local] Arguments set_flipX v o /.
#[local] Arguments set_isEvil v o /.
#[local] Arguments set_isRunning v o /.
#[local] Arguments set_hasHitPlayer v o /.
#[local] Arguments set_isDestroyed v o /.
#[local] Arguments set_colliding v o /.
#[local] Arguments set_listening v o /.
#[local] Arguments set_scene v o /.

Ltac unfold_methods :=
  repeat progress unfold run_callback, startRunning, transformToEvil,
    showEvilIndicator, setupPlayerCollision, setupCleanup, hitPlayer,
    showVictoryMessage, update, cleanup, destroy, damagePlayer, the_scene, this,
    assign, settle.

Ltac js_cbn :=
  cbn -[Z.add Z.sub Z.opp Z.mul Z.div Student.takeDamage Student.step Z.gtb Z.ltb
        dispatch lookup inject_Z Qmult speedMultiplier].

Ltac open_world w :=
  destruct w as [[qx qy qvx qflip qevil qrun qhit qdead qcol qlis qscene]
                 clk p hs un].

Ltac split_ifs := split_ifs_with js_cbn.

Lemma squirrel_player_step (p : option Student.World) (pev : Student.Event) :
  match pev with Student.EvDamage _ | Student.EvHeal _ => false | _ => true end = true ->
  match option_map (fun q => Student.step q pev) p with
  | Some q => Student.confidence (Student.self q)
  | None => 0
  end
  = match p with Some q => Student.confidence (Student.self q) | None => 0 end.
Proof.
  intros H. destruct p as [q|]; [|reflexivity]. cbn [option_map].
  apply StudentFacts.quiet_step, H.
Qed.

Lemma squirrel_step (st : Stage) (c0 : Z) (w : World) (ev : Event) :
  calm ev = true ->
  harmless_so_far c0 w -> harmless_so_far c0 (step st w ev).
Proof.
  destruct ev as [h | xx | | | pev]; cbn [step calm]; intros Hq.
  - destruct (lookup h (time w)) as [t|]; [|auto].
    generalize (dispatch t (time w)). intros c.
    open_world w. unfold harmless_so_far, playerConfidence. js_cbn.
    intros (H1 & H2 & H3 & H4).
    destruct (callback t); unfold_methods; unfold_monad; js_cbn;
      split_ifs; repeat split; auto; try discriminate.
  - open_world w. unfold harmless_so_far, playerConfidence. js_cbn.
    intros (H1 & H2 & H3 & H4).
    unfold_methods; unfold_monad; js_cbn.
    destruct qscene, qlis; js_cbn; split_ifs; repeat split; auto.
  - open_world w. unfold harmless_so_far, playerConfidence, DAMAGE. js_cbn.
    intros (H1 & H2 & H3 & H4).
    destruct qcol; js_cbn; [|repeat split; auto].
    specialize (H3 eq_refl). subst qrun.
    unfold_methods; unfold_monad; js_cbn.
    destruct qhit; js_cbn; [repeat split; auto|].
    destruct qdead; js_cbn; [repeat split; auto|].
    unfold DAMAGE.
    destruct p as [q|]; js_cbn.
    + pose proof (StudentFacts.takeDamage_bound 15 q ltac:(lia)) as Hb.
      unfold final in Hb.
      split_ifs; repeat split; auto; lia.
    + repeat split; auto; lia.
  - open_world w. unfold harmless_so_far, playerConfidence. js_cbn.
    intros (H1 & H2 & H3 & H4).
    unfold_methods; unfold_monad; js_cbn. split_ifs; repeat split; auto.
  - open_world w. unfold harmless_so_far, playerConfidence. js_cbn.
    intros (H1 & H2 & H3 & H4).
    rewrite squirrel_player_step; [repeat split; auto|].
    destruct pev; try reflexivity; discriminate Hq.
Qed.

Lemma squirrel_run (st : Stage) (c0 : Z) (evs : list Event) :
  forall w,
    forallb calm evs = true ->
    harmless_so_far c0 w -> harmless_so_far c0 (run st w evs).
Proof.
  induction evs as [|ev evs IH]; intros w Hc H; [exact H|].
  cbn [forallb] in Hc. apply andb_true_iff in Hc. destruct Hc as [Hc1 Hc2].
  apply (IH (step st w ev) Hc2), squirrel_step; assumption.
Qed.

(** A squirrel that has been cleaned up ignores its timers. *)
Lemma squirrel_stale_callback (st : Stage) (cb : Callback) (w : World) :
  isDestroyed (self w) = true -> run_callback st cb w = Ok tt w.
Proof.
  open_world w. js_cbn. intros ->. destruct cb; reflexivity.
Qed.

End SquirrelFacts.

(** ** Power-ups *)

Module PowerUpFacts.
Import PowerUp.

#[local] Arguments set_self v w /.
#[local] Arguments set_player v w /.
#[local] Arguments set_uncaught v w /.
#[local] Arguments set_x v o /.
#[local] Arguments set_y v o /.
#[local] Arguments set_isCollected v o /.
#[local] Arguments set_isDestroyed v o /.
#[local] Arguments set_colliding v o /.
#[local] Arguments set_vanishing v o /.
#[local] Arguments set_scene v o /.

Ltac unfold_methods :=
  repeat progress unfold collect, showCollectionEffect, playCollectionAnimation,
    cleanup, destroy, onPlayer, the_scene, this, assign, settle.

Ltac js_cbn :=
  cbn -[Z.add Z.sub Z.opp Z.mul Z.min Student.heal Student.step Z.gtb Z.ltb].

Ltac open_world w :=
  destruct w as [[ux uy ukind ucol udead ureg uvan uscene] p un].

Ltac split_ifs := split_ifs_with js_cbn.

Lemma powerup_step (c0 : Z) (w : World) (ev : Event) :
  calm ev = true ->
  Student.confidence (Student.self (player w))
  = (if isCollected (self w)
     then Z.min Student.MAX_CONFIDENCE (c0 + CONFIDENCE_BOOST) else c0) ->
  Student.confidence (Student.self (player (step w ev)))
  = (if isCollected (self (step w ev))
     then Z.min Student.MAX_CONFIDENCE (c0 + CONFIDENCE_BOOST) else c0).
Proof.
  destruct ev as [ | | | pev]; cbn [step calm]; intros Hq.
  - open_world w. js_cbn. intros H.
    destruct ureg; js_cbn; [|exact H].
    unfold_methods; unfold_monad; js_cbn.
    destruct ucol; js_cbn; [exact H|].
    destruct udead; js_cbn; [exact H|].
    pose proof (StudentFacts.heal_exact CONFIDENCE_BOOST p) as Hh.
    destruct (Student.heal CONFIDENCE_BOOST p) as [r q|q] eqn:E; js_cbn;
      cbn [final] in Hh; split_ifs; rewrite Hh, H; reflexivity.
  - open_world w. js_cbn. intros H.
    destruct uvan; js_cbn; [|exact H].
    unfold_methods; unfold_monad; js_cbn. split_ifs; exact H.
  - open_world w. js_cbn. intros H.
    unfold_methods; unfold_monad; js_cbn. split_ifs; exact H.
  - open_world w. js_cbn. intros H.
    rewrite StudentFacts.quiet_step; [exact H|].
    destruct pev; try reflexivity; discriminate Hq.
Qed.

Lemma powerup_run (c0 : Z) (evs : list Event) :
  forall w,
    forallb calm evs = true ->
    Student.confidence (Student.self (player w))
    = (if isCollected (self w)
       then Z.min Student.MAX_CONFIDENCE (c0 + CONFIDENCE_BOOST) else c0) ->
    Student.confidence (Student.self (player (run w evs)))
    = (if isCollected (self (run w evs))
       then Z.min Student.MAX_CONFIDENCE (c0 + CONFIDENCE_BOOST) else c0).
Proof.
  induction evs as [|ev evs IH]; intros w Hc H; [exact H|].
  cbn [forallb] in Hc. apply andb_true_iff in Hc. destruct Hc as [Hc1 Hc2].
  apply (IH (step w ev) Hc2), powerup_step; assumption.
Qed.

(** The first touch collects a power-up that is still there. *)
Lemma powerup_first_touch (w : World) :
  isCollected (self w) = false -> isDestroyed (self w) = false ->
  colliding (self w) = true -> scene (self w) = true ->
  let w' := step w EvOverlap in
  isCollected (self w') = true /\ vanishing (self w') = true /\
  uncaught w' = uncaught w.
Proof.
  open_world w. js_cbn. intros -> -> -> ->.
  unfold_methods; unfold_monad; js_cbn.
  rewrite StudentFacts.heal_returns. js_cbn. repeat split.
Qed.

(** Nothing in the class moves a power-up or brings it back. *)
Lemma powerup_step_place (w : World) (ev : Event) :
  x (self (step w ev)) = x (self w) /\
  (isDestroyed (self w) = true -> isDestroyed (self (step w ev)) = true).
Proof.
  destruct ev as [ | | | pev]; cbn [step].
  - open_world w. js_cbn. destruct ureg; js_cbn; [|repeat split; auto].
    unfold_methods; unfold_monad; js_cbn.
    destruct ucol; js_cbn; [repeat split; auto|].
    destruct udead; js_cbn; [repeat split; auto|].
    rewrite StudentFacts.heal_returns. js_cbn. split_ifs; repeat split; auto.
  - open_world w. js_cbn. destruct uvan; js_cbn; [|repeat split; auto].
    unfold_methods; unfold_monad; js_cbn. split_ifs; repeat split; auto.
  - open_world w. js_cbn.
    unfold_methods; unfold_monad; js_cbn. split_ifs; repeat split; auto.
  - open_world w. js_cbn. repeat split; auto.
Qed.

End PowerUpFacts.

(** ** Newspapers *)

Module NewspaperFacts.
Import Newspaper.

#[local] Arguments set_self v w /.
#[local] Arguments set_player v w /.
#[local] Arguments set_uncaught v w /.
#[local] Arguments set_x v o /.
#[local] Arguments set_y v o /.
#[local] Arguments set_isDestroyed v o /.
#[local] Arguments set_updateListener v o /.
#[local] Arguments set_scene v o /.

Ltac unfold_methods :=
  repeat progress unfold listener, checkBounds, hitPlayer, createImpactEffect,
    cleanup, destroy, onPlayer, the_scene, this, assign, settle.

Ltac js_cbn :=
  cbn -[Z.add Z.sub Z.opp Z.mul Student.takeDamage Z.gtb Z.ltb isOffScreen
        inject_Z Qmult speedMultiplier].

Ltac open_world w :=
  destruct w as [[nx ny nvx nvy nflip ndead nlis nscene] p un].

Ltac split_ifs := split_ifs_with js_cbn.

(** A live newspaper is removed by the 'update' that finds it outside the
    fixed window, and only by that. *)
Lemma newspaper_cull (st : Stage) (xx yy : Z) (w : World) :
  isDestroyed (self w) = false -> updateListener (self w) = true ->
  scene (self w) = true ->
  let w' := step st w (EvUpdate xx yy) in
  let out := (xx <? -100) || (xx >? configWidth st + 100)
             || (yy >? configHeight st + 100) in
  isDestroyed (self w') = out /\
  updateListener (self w') = negb out /\
  scene (self w') = negb out /\
  player w' = player w /\ uncaught w' = uncaught w.
Proof.
  open_world w. js_cbn. intros -> -> ->.
  unfold_methods; unfold_monad; js_cbn. unfold isOffScreen. js_cbn.
  destruct ((xx <? -100) || (xx >? configWidth st + 100)
            || (yy >? configHeight st + 100)); js_cbn; repeat split.
Qed.

(** Once removed, nothing the scene emits reaches it. *)
Lemma newspaper_gone (st : Stage) (xx yy : Z) (w : World) :
  updateListener (self w) = false -> scene (self w) = false ->
  step st w (EvUpdate xx yy) = w.
Proof.
  open_world w. js_cbn. intros -> ->. reflexivity.
Qed.

Lemma newspaper_hit (st : Stage) (w : World) :
  scene (self w) = true ->
  let w' := step st w EvOverlap in
  player w' = final (Student.takeDamage DAMAGE (player w)) /\
  isDestroyed (self w') = true /\
  updateListener (self w') = false /\
  scene (self w') = false /\
  uncaught w' = uncaught w.
Proof.
  open_world w. js_cbn. intros ->.
  unfold_methods; unfold_monad; js_cbn.
  rewrite StudentFacts.takeDamage_returns. destruct nlis; js_cbn; repeat split.
Qed.

End NewspaperFacts.

(** * Properties of the candy bars and of the power-up manager *)

Module CandyBarFacts.
Import FallingCandyBar.

#[local] Arguments set_self v w /.
#[local] Arguments set_time v w /.
#[local] Arguments set_player v w /.
#[local] Arguments set_uncaught v w /.
#[local] Arguments set_x v o /.
#[local] Arguments set_y v o /.
#[local] Arguments set_isCollected v o /.
#[local] Arguments set_isDestroyed v o /.
#[local] Arguments set_colliding v o /.
#[local] Arguments set_scene v o /.

Ltac unfold_methods :=
  repeat progress unfold run_callback, boundsCheck, collectCandyBar,
    showCollectEffect, delayedCall, cleanup, destroy, onPlayer, the_scene, this,
    assign, settle.

Ltac js_cbn :=
  cbn -[Z.add Z.sub Z.opp Z.mul Z.min Student.heal Student.step Z.gtb Z.ltb
        dispatch lookup handles schedule bounds_armed].

Ltac open_world w :=
  destruct w as [[cx cy cvx cvy crot ccol cdead creg cscene] clk p un].

Ltac split_ifs := split_ifs_with js_cbn.

(** *** The bounds check in the clock *)

Lemma armed_shape (c : Clock Callback) :
  bounds_armed c = true ->
  exists b rest,
    pending c = b :: rest /\ tid b = 0%nat /\ loop b = true /\
    callback b = CbBounds /\
    forallb (fun t => negb (Nat.eqb (tid t) 0)) rest = true /\
    (0 < next_id c)%nat.
Proof.
  unfold bounds_armed. destruct (pending c) as [|b rest]; [discriminate|].
  intros H. repeat (apply andb_true_iff in H; destruct H as [H ?]).
  exists b, rest. repeat split; auto.
  - apply Nat.eqb_eq; assumption.
  - destruct (callback b); [reflexivity|discriminate].
  - apply Nat.ltb_lt; assumption.
Qed.

Lemma armed_lookup (c : Clock Callback) :
  bounds_armed c = true ->
  exists t, lookup 0 c = Some t /\ loop t = true /\ callback t = CbBounds.
Proof.
  intros H. destruct (armed_shape c H) as (b & rest & Hp & Ht & Hl & Hc & _).
  exists b. unfold lookup. rewrite Hp. cbn. rewrite Ht. cbn. auto.
Qed.

Lemma armed_schedule (d : Z) (lp : bool) (cb : Callback) (c : Clock Callback) :
  bounds_armed c = true -> bounds_armed (snd (schedule d lp cb c)) = true.
Proof.
  intros H. destruct (armed_shape c H) as (b & rest & Hp & Ht & Hl & Hc & Hr & Hn).
  unfold bounds_armed, schedule. cbn [snd pending next_id]. rewrite Hp.
  cbn [app]. rewrite Ht, Hl, Hc, forallb_app, Hr. cbn.
  destruct (next_id c); [lia|reflexivity].
Qed.

Lemma others_map (f : TimerEvent Callback -> TimerEvent Callback)
    (l : list (TimerEvent Callback)) :
  (forall u, tid (f u) = tid u) ->
  forallb (fun t => negb (Nat.eqb (tid t) 0)) l = true ->
  forallb (fun t => negb (Nat.eqb (tid t) 0)) (map f l) = true.
Proof.
  intros Hf. induction l as [|a l IH]; [reflexivity|].
  cbn. rewrite Hf. intros H. apply andb_true_iff in H. destruct H as [-> H].
  exact (IH H).
Qed.

Lemma others_filter (g : TimerEvent Callback -> bool)
    (l : list (TimerEvent Callback)) :
  forallb (fun t => negb (Nat.eqb (tid t) 0)) l = true ->
  forallb (fun t => negb (Nat.eqb (tid t) 0)) (filter g l) = true.
Proof.
  intros H. apply forallb_forall. intros u Hu. apply filter_In in Hu.
  rewrite forallb_forall in H. apply H, Hu.
Qed.

Lemma others_same (h : nat) (l : list (TimerEvent Callback)) :
  forallb (fun t => negb (Nat.eqb (tid t) 0)) l = true ->
  map (fun u => if Nat.eqb (tid u) 0 then rearm u else u) l = l.
Proof.
  induction l as [|a l IH]; [reflexivity|].
  cbn. intros H. apply andb_true_iff in H. destruct H as [Ha H].
  destruct (Nat.eqb (tid a) 0); [discriminate|]. rewrite (IH H). reflexivity.
Qed.

(** Firing an event never takes the bounds check out of the clock. *)
Lemma armed_dispatch (h : nat) (c : Clock Callback) (t : TimerEvent Callback) :
  bounds_armed c = true -> lookup h c = Some t ->
  bounds_armed (dispatch t c) = true.
Proof.
  intros H Hk. destruct (armed_shape c H) as (b & rest & Hp & Ht & Hl & Hc & Hr & Hn).
  pose proof (@clock_lookup_in _ h c t Hk) as [_ Hh].
  assert (Hb : h = 0%nat -> t = b).
  { intros ->. unfold lookup in Hk. rewrite Hp in Hk. cbn in Hk.
    rewrite Ht in Hk. cbn in Hk. congruence. }
  unfold bounds_armed, dispatch. cbn [pending next_id]. rewrite Hp.
  destruct h as [|h].
  - rewrite (Hb eq_refl), Hl. cbn [map]. rewrite Ht. cbn.
    rewrite Ht, Hl, Hc. cbn.
    rewrite others_map; [|intros u; destruct (Nat.eqb (tid u) 0); reflexivity|exact Hr].
    destruct (next_id c); [lia|reflexivity].
  - rewrite Hh. destruct (loop t).
    + cbn [map]. rewrite Ht. cbn. rewrite Ht, Hl, Hc. cbn.
      rewrite others_map;
        [|intros u; destruct (Nat.eqb (tid u) (S h)); reflexivity|exact Hr].
      destruct (next_id c); [lia|reflexivity].
    + cbn [filter]. rewrite Ht. cbn. rewrite Ht, Hl, Hc. cbn.
      rewrite others_filter; [|exact Hr].
      destruct (next_id c); [lia|reflexivity].
Qed.

Lemma armed_constructor (st : Stage) (e : Env) (xx yy : Z) (p : Student.World) :
  bounds_armed (time (constructor st e (emptyClock Callback) xx yy p)) = true.
Proof. reflexivity. Qed.

(** *** One event *)

Lemma candy_step (c0 : Z) (w : World) (ev : Event) :
  calm ev = true ->
  bounds_armed (time w) = true /\ healed_once c0 w ->
  bounds_armed (time (step w ev)) = true /\ healed_once c0 (step w ev).
Proof.
  unfold healed_once.
  destruct ev as [h | xx yy | particle | | pev]; cbn [step calm]; intros Hq.
  - destruct (lookup h (time w)) as [t|] eqn:Hl; [|auto].
    intros [Ha H].
    pose proof (armed_dispatch h (time w) t Ha Hl) as Hd.
    revert Hd H. generalize (dispatch t (time w)). intros c.
    open_world w. js_cbn. intros Hd H.
    destruct (callback t); unfold_methods; unfold_monad; js_cbn;
      [split_ifs; split; assumption|split; assumption].
  - open_world w. js_cbn. intros H. destruct cscene; exact H.
  - open_world w. js_cbn. intros [Ht H].
    destruct creg; js_cbn; [|split; assumption].
    unfold_methods; unfold_monad; js_cbn.
    destruct ccol; js_cbn; [split; assumption|].
    destruct cdead; js_cbn; [split; assumption|].
    pose proof (StudentFacts.heal_exact CONFIDENCE_BOOST p) as Hh.
    rewrite StudentFacts.heal_returns. js_cbn.
    pose proof (armed_schedule 600 false CbBurstEnd clk Ht) as Hs.
    rewrite H in Hh.
    destruct cscene; js_cbn; [|split; [exact Ht|exact Hh]].
    destruct particle; js_cbn; (split; [first [exact Hs|exact Ht]|exact Hh]).
  - open_world w. js_cbn. intros H.
    unfold_methods; unfold_monad; js_cbn. split_ifs; exact H.
  - open_world w. js_cbn. intros [Ht H]. split; [exact Ht|].
    rewrite StudentFacts.quiet_step; [exact H|].
    destruct pev; try reflexivity; discriminate Hq.
Qed.

Lemma candy_run (c0 : Z) (evs : list Event) :
  forall w,
    forallb calm evs = true ->
    bounds_armed (time w) = true /\ healed_once c0 w ->
    bounds_armed (time (run w evs)) = true /\ healed_once c0 (run w evs).
Proof.
  induction evs as [|ev evs IH]; intros w Hc H; [exact H|].
  cbn [forallb] in Hc. apply andb_true_iff in Hc. destruct Hc as [Hc1 Hc2].
  apply (IH (step w ev) Hc2), candy_step; assumption.
Qed.

Lemma candy_stale_callback (cb : Callback) (w : World) :
  isDestroyed (self w) = true -> run_callback cb w = Ok tt w.
Proof. open_world w. js_cbn. intros ->. destruct cb; reflexivity. Qed.

End CandyBarFacts.

Module ManagerFacts.
Import PowerUpManager.

#[local] Arguments set_self v w /.
#[local] Arguments set_made v w /.
#[local] Arguments set_dropped v w /.
#[local] Arguments set_player v w /.
#[local] Arguments set_uncaught v w /.
#[local] Arguments set_powerUps v o /.
#[local] Arguments set_fallingCandyBars v o /.
#[local] Arguments set_lastSpawnDistance v o /.
#[local] Arguments set_lastCandyBarDistance v o /.
#[local] Arguments set_bonusSpawnPending v o /.

Ltac open_world w :=
  destruct w as [[mrefs mcrefs mlast mclast mbonus] mk dr p un].

Lemma put_length {A} (i : nat) (v : A) (l : list A) : length (put i v l) = length l.
Proof.
  revert i. induction l as [|a l IH]; intros i; [destruct i; reflexivity|].
  destruct i; cbn; [reflexivity|]. rewrite IH. reflexivity.
Qed.

Lemma put_nth {A} (i j : nat) (v : A) (l : list A) :
  nth_error (put i v l) j
  = if Nat.eqb i j then option_map (fun _ => v) (nth_error l j) else nth_error l j.
Proof.
  revert i j. induction l as [|a l IH]; intros i j.
  - destruct i, j; cbn; try reflexivity; destruct (Nat.eqb i j); reflexivity.
  - destruct i, j; cbn; try reflexivity. apply IH.
Qed.

Lemma put_map {A B} (f : A -> B) (i : nat) (v a : A) (l : list A) :
  nth_error l i = Some a -> f v = f a -> map f (put i v l) = map f l.
Proof.
  revert i. induction l as [|b l IH]; intros i H E; [destruct i; reflexivity|].
  destruct i; cbn in *.
  - injection H as ->. rewrite E. reflexivity.
  - rewrite (IH i H E). reflexivity.
Qed.

(** Cleaning a power-up up moves nothing. *)
Lemma powerup_cleanup_place (pw : PowerUp.World) :
  PowerUp.x (PowerUp.self (final (PowerUp.cleanup pw))) = PowerUp.x (PowerUp.self pw) /\
  PowerUp.isDestroyed (PowerUp.self (final (PowerUp.cleanup pw))) = true.
Proof.
  destruct pw as [[ux uy uk ucol udead ureg uvan usc] q n].
  unfold PowerUp.cleanup, PowerUp.destroy, PowerUp.the_scene, PowerUp.this,
    PowerUp.assign. unfold_monad. cbn.
  destruct udead; cbn; [repeat split|]. destruct usc; cbn; repeat split.
Qed.

(** *** What [cleanupOffScreen] keeps *)

(** With every power-up where [spawnPowerUp] puts it, none is off the screen:
    the filter only forgets the destroyed ones and cleans nothing up. *)
Lemma keep_all_placed (refs : list nat) (w : World) :
  forallb at_spawn_place (made w) = true ->
  keepOnScreen refs w = Ok (filter (live w) refs) w.
Proof.
  intros Hp. induction refs as [|i rest IH]; [reflexivity|].
  cbn [keepOnScreen filter]. unfold live at 1.
  destruct (nth_error (made w) i) as [s|] eqn:E; [|exact IH].
  destruct (PowerUp.isDestroyed s); cbn [negb]; [exact IH|].
  rewrite forallb_forall in Hp. specialize (Hp s (nth_error_In _ _ E)).
  unfold at_spawn_place in Hp.
  apply andb_true_iff in Hp. destruct Hp as [Hp _]. apply Z.leb_le in Hp.
  destruct (Z.ltb_spec (PowerUp.x s) (-50)); [lia|].
  rewrite IH. reflexivity.
Qed.

Lemma filter_live_all (w : World) (refs : list nat) :
  forallb (live w) (filter (live w) refs) = true.
Proof.
  apply forallb_forall. intros i Hi. apply filter_In in Hi. apply Hi.
Qed.

(** The general filter keeps the number of power-ups and the bookkeeping. *)
Lemma keep_counts (refs : list nat) :
  forall w,
    length (made (final (keepOnScreen refs w))) = length (made w) /\
    self (final (keepOnScreen refs w)) = self w.
Proof.
  induction refs as [|i rest IH]; intros w; [split; reflexivity|].
  cbn [keepOnScreen].
  destruct (nth_error (made w) i) as [s|] eqn:E; [|apply IH].
  destruct (PowerUp.isDestroyed s); [apply IH|].
  destruct (PowerUp.x s <? -50).
  - unfold onPowerUp. rewrite E.
    destruct (PowerUp.cleanup _) as [r pw|pw]; cbv beta iota zeta.
    + match goal with |- context [keepOnScreen rest ?w1] =>
        destruct (IH w1) as [H1 H2] end.
      rewrite H1, H2. cbn. rewrite put_length. split; reflexivity.
    + cbn. rewrite put_length. split; reflexivity.
  - destruct (IH w) as [H1 H2].
    destruct (keepOnScreen rest w) as [kept w1|w1]; cbn in *; split; assumption.
Qed.

Lemma put_forallb {A} (P : A -> bool) (i : nat) (v : A) (l : list A) :
  forallb P l = true -> P v = true -> forallb P (put i v l) = true.
Proof.
  revert i. induction l as [|a l IH]; intros i Hl Hv; [destruct i; reflexivity|].
  cbn in Hl. apply andb_true_iff in Hl. destruct Hl as [Ha Hl].
  destruct i; cbn; [rewrite Hv, Hl; reflexivity|].
  rewrite Ha, (IH i Hl Hv). reflexivity.
Qed.

Lemma between_range (e : Env) (lo hi : Z) :
  lo <= hi -> lo <= Between e lo hi <= hi.
Proof.
  intros H. unfold Between.
  pose proof (Z.mod_pos_bound (rnd e) (hi - lo + 1) ltac:(lia)). lia.
Qed.

Lemma cleanupOffScreen_counts (w : World) :
  let w' := settle (cleanupOffScreen w) in
  length (made w') = length (made w) /\
  lastSpawnDistance (self w') = lastSpawnDistance (self w) /\
  bonusSpawnPending (self w') = bonusSpawnPending (self w).
Proof.
  unfold cleanupOffScreen, this, assign. unfold_monad.
  destruct (keep_counts (powerUps (self w)) w) as [H1 H2].
  destruct (keepOnScreen (powerUps (self w)) w) as [kept w1|w1]; cbn in *;
    rewrite H1, H2; repeat split.
Qed.

Lemma cleanupOffScreen_placed (w : World) :
  forallb at_spawn_place (made w) = true ->
  let w' := settle (cleanupOffScreen w) in
  made w' = made w /\ player w' = player w /\ uncaught w' = uncaught w /\
  powerUps (self w') = filter (live w) (powerUps (self w)).
Proof.
  intros Hp. unfold cleanupOffScreen, this, assign. unfold_monad. cbn.
  rewrite (keep_all_placed _ _ Hp). cbn. repeat split.
Qed.

(** What one [update] adds. *)
Lemma update_counts (st : Stage) (e : Env) (d : Z) (w : World) :
  let w' := settle (update st e d w) in
  let regular := d - lastSpawnDistance (self w) >=? SPAWN_INTERVAL in
  Z.of_nat (length (made w'))
  = Z.of_nat (length (made w)) + (if regular then 1 else 0)
    + (if bonusSpawnPending (self w) then 1 else 0) /\
  lastSpawnDistance (self w')
  = (if regular then d else lastSpawnDistance (self w)) /\
  bonusSpawnPending (self w') = false.
Proof.
  open_world w. unfold update, spawnPowerUp, addPowerUp, spawnFallingCandyBar,
    this, assign. unfold_monad.
  cbn -[cleanupOffScreen Z.geb Z.sub Z.add Between FallingCandyBar.constructor
        PowerUp.constructor Z.of_nat length].
  destruct (d - mlast >=? SPAWN_INTERVAL);
    cbn -[cleanupOffScreen Z.geb Z.sub Z.add Between FallingCandyBar.constructor
          PowerUp.constructor Z.of_nat length];
    destruct (d - mclast >=? FallingCandyBar.SPAWN_INTERVAL_PIXELS);
    cbn -[cleanupOffScreen Z.geb Z.sub Z.add Between FallingCandyBar.constructor
          PowerUp.constructor Z.of_nat length];
    destruct mbonus;
    cbn -[cleanupOffScreen Z.geb Z.sub Z.add Between FallingCandyBar.constructor
          PowerUp.constructor Z.of_nat length];
    match goal with |- context [cleanupOffScreen ?W] =>
      destruct (cleanupOffScreen_counts W) as (H1 & H2 & H3);
      fold (settle (cleanupOffScreen W))
    end;
    rewrite H1, H2, H3; cbn [made self lastSpawnDistance bonusSpawnPending];
    rewrite ?length_app; cbn [length]; repeat split; lia.
Qed.

(** *** [cleanup] *)

Lemma cleanupPowerUps_keeps (Q : PowerUp.Sprite -> bool) (refs : list nat) :
  (forall pw, Q (PowerUp.self pw) = true ->
              Q (PowerUp.self (final (PowerUp.cleanup pw))) = true) ->
  forall w,
    length (made (final (cleanupPowerUps refs w))) = length (made w) /\
    self (final (cleanupPowerUps refs w)) = self w /\
    (forallb Q (made w) = true ->
     forallb Q (made (final (cleanupPowerUps refs w))) = true).
Proof.
  intros HQ. induction refs as [|i rest IH]; intros w; [repeat split; auto|].
  cbn [cleanupPowerUps]. unfold_monad. cbv beta.
  destruct (nth_error (made w) i) as [s|] eqn:E.
  - destruct (PowerUp.isDestroyed s); cbn [negb]; cbv beta iota.
    + apply IH.
    + unfold onPowerUp. rewrite E.
      match goal with |- context [PowerUp.cleanup ?pw0] =>
        pose proof (HQ pw0) as Hq; destruct (PowerUp.cleanup pw0) as [r pw|pw]
      end; cbv beta iota zeta; cbn [final] in Hq.
      * match goal with |- context [cleanupPowerUps rest ?w1] =>
          destruct (IH w1) as (H1 & H2 & H3) end.
        unfold final in H1, H2, H3. rewrite H1, H2. cbn. rewrite put_length. repeat split.
        intros Hall. apply H3. cbn. apply put_forallb; [exact Hall|].
        apply Hq. cbn. rewrite forallb_forall in Hall.
        apply Hall, (nth_error_In _ _ E).
      * cbn. rewrite put_length. repeat split.
        intros Hall. apply put_forallb; [exact Hall|].
        apply Hq. cbn. rewrite forallb_forall in Hall.
        apply Hall, (nth_error_In _ _ E).
  - apply IH.
Qed.

Lemma cleanupCandyBars_keeps (refs : list nat) :
  forall w,
    made (final (cleanupCandyBars refs w)) = made w /\
    self (final (cleanupCandyBars refs w)) = self w.
Proof.
  induction refs as [|i rest IH]; intros w; [split; reflexivity|].
  cbn [cleanupCandyBars]. unfold_monad. cbv beta.
  destruct (nth_error (dropped w) i) as [s|] eqn:E.
  - destruct (FallingCandyBar.isDestroyed s); cbn [negb]; cbv beta iota.
    + apply IH.
    + unfold onCandyBar. rewrite E.
      destruct (FallingCandyBar.cleanup _) as [r cw|cw]; cbv beta iota zeta.
      * match goal with |- context [cleanupCandyBars rest ?w1] =>
          destruct (IH w1) as (H1 & H2) end.
        unfold final in H1, H2. rewrite H1, H2. cbn. split; reflexivity.
      * cbn. split; reflexivity.
  - apply IH.
Qed.

Lemma cleanup_keeps (Q : PowerUp.Sprite -> bool) (w : World) :
  (forall pw, Q (PowerUp.self pw) = true ->
              Q (PowerUp.self (final (PowerUp.cleanup pw))) = true) ->
  let w' := settle (cleanup w) in
  length (made w') = length (made w) /\
  lastSpawnDistance (self w') = lastSpawnDistance (self w) /\
  bonusSpawnPending (self w') = bonusSpawnPending (self w) /\
  (forallb Q (made w) = true -> forallb Q (made w') = true).
Proof.
  intros HQ. unfold cleanup, this, assign. unfold_monad. cbv beta.
  destruct (cleanupPowerUps_keeps Q (powerUps (self w)) HQ w) as (H1 & H2 & H3).
  destruct (cleanupPowerUps (powerUps (self w)) w) as [r w1|w1];
    cbn [final] in H1, H2, H3; cbv beta iota zeta.
  - match goal with |- context [cleanupCandyBars ?refs ?w2] =>
      destruct (cleanupCandyBars_keeps refs w2) as (H4 & H5);
      destruct (cleanupCandyBars refs w2) as [r2 w3|w3]
    end; cbn [final] in H4, H5; cbn in *; rewrite ?H4, ?H5, ?H1, ?H2; cbn;
      repeat split; auto.
  - cbn. rewrite H1, H2. repeat split; auto.
Qed.

(** *** Spacing *)

Lemma spaced_step (st : Stage) (n : nat) (w : World) (ev : Event) :
  spaced n w -> spaced (n + extra ev) (step st w ev).
Proof.
  unfold spaced, SPAWN_INTERVAL. intros H.
  destruct ev as [d e | | xx e | i pev | ]; cbn [step extra].
  - destruct (update_counts st e d w) as (H1 & H2 & H3). cbv zeta in H1, H2, H3.
    rewrite H2, H3. unfold SPAWN_INTERVAL in *.
    destruct (Z.geb_spec (d - lastSpawnDistance (self w)) 600);
      destruct (bonusSpawnPending (self w)); lia.
  - open_world w. cbn -[Z.mul Z.of_nat Nat.add] in *. destruct mbonus; lia.
  - open_world w. cbn -[Z.mul Z.of_nat Nat.add] in *. rewrite length_app.
    cbn [length]. destruct mbonus; lia.
  - destruct (nth_error (made w) i) as [s|]; [|rewrite Nat.add_0_r; exact H].
    cbn. rewrite put_length, Nat.add_0_r. exact H.
  - destruct (cleanup_keeps (fun _ => true) w (fun _ _ => eq_refl))
      as (H1 & H2 & H3 & _).
    rewrite H1, H2, H3, Nat.add_0_r. exact H.
Qed.

Lemma spaced_run (st : Stage) (evs : list Event) :
  forall n w, spaced n w -> spaced (n + extras evs) (run st w evs).
Proof.
  induction evs as [|ev evs IH]; intros n w H; cbn [run fold_left extras fold_right].
  - rewrite Nat.add_0_r. exact H.
  - rewrite Nat.add_assoc. apply IH, spaced_step, H.
Qed.

(** *** Where the power-ups are *)

Lemma placed_new (e : Env) (k : PowerUp.Kind) (p : Student.World) :
  at_spawn_place (PowerUp.self (PowerUp.constructor (850 + Between e 0 100) SPAWN_Y k p))
  = true.
Proof.
  unfold at_spawn_place. cbn -[Between Z.add].
  pose proof (between_range e 0 100 ltac:(lia)).
  apply andb_true_iff. split; apply Z.leb_le; lia.
Qed.

Lemma update_placed (st : Stage) (e : Env) (d : Z) (w : World) :
  forallb at_spawn_place (made w) = true ->
  forallb at_spawn_place (made (settle (update st e d w))) = true.
Proof.
  intros Hp. open_world w. unfold update, spawnPowerUp, addPowerUp,
    spawnFallingCandyBar, this, assign. unfold_monad.
  cbn -[cleanupOffScreen Z.geb Z.sub Z.add Between FallingCandyBar.constructor
        PowerUp.constructor at_spawn_place] in *.
  destruct (d - mlast >=? SPAWN_INTERVAL);
    cbn -[cleanupOffScreen Z.geb Z.sub Z.add Between FallingCandyBar.constructor
          PowerUp.constructor at_spawn_place];
    destruct (d - mclast >=? FallingCandyBar.SPAWN_INTERVAL_PIXELS);
    cbn -[cleanupOffScreen Z.geb Z.sub Z.add Between FallingCandyBar.constructor
          PowerUp.constructor at_spawn_place];
    destruct mbonus;
    cbn -[cleanupOffScreen Z.geb Z.sub Z.add Between FallingCandyBar.constructor
          PowerUp.constructor at_spawn_place];
    match goal with |- context [cleanupOffScreen ?W] =>
      assert (Hw : forallb at_spawn_place (made W) = true)
        by (cbn [made]; rewrite ?forallb_app, Hp; cbn [forallb];
            rewrite ?placed_new; reflexivity);
      destruct (cleanupOffScreen_placed W Hw) as (H1 & _);
      fold (settle (cleanupOffScreen W));
      rewrite H1; exact Hw
    end.
Qed.

Lemma placed_step (st : Stage) (w : World) (ev : Event) :
  unforced ev = true ->
  forallb at_spawn_place (made w) = true ->
  forallb at_spawn_place (made (step st w ev)) = true.
Proof.
  destruct ev as [d e | | xx e | i pev | ]; cbn [step unforced]; intros Hu Hp.
  - apply update_placed, Hp.
  - exact Hp.
  - discriminate Hu.
  - destruct (nth_error (made w) i) as [s|] eqn:E; [|exact Hp].
    cbn. apply put_forallb; [exact Hp|].
    match goal with |- context [PowerUp.step ?pw0 pev] =>
      destruct (PowerUpFacts.powerup_step_place pw0 pev) as [Hx _]
    end.
    unfold at_spawn_place in *. rewrite Hx. cbn.
    rewrite forallb_forall in Hp. apply (Hp s), (nth_error_In _ _ E).
  - apply (cleanup_keeps at_spawn_place w); [|exact Hp].
    intros pw H. unfold at_spawn_place in *.
    destruct (powerup_cleanup_place pw) as [Hx _]. rewrite Hx. exact H.
Qed.

Lemma placed_run (st : Stage) (evs : list Event) :
  forall w,
    forallb unforced evs = true ->
    forallb at_spawn_place (made w) = true ->
    forallb at_spawn_place (made (run st w evs)) = true.
Proof.
  induction evs as [|ev evs IH]; intros w Hu Hp; [exact Hp|].
  cbn [forallb] in Hu. apply andb_true_iff in Hu. destruct Hu as [Hu1 Hu2].
  apply (IH (step st w ev) Hu2), placed_step; assumption.
Qed.

End ManagerFacts.
(** * Properties of the school zone *)

(** ** Bullies that are in the scene *)

Module BullyAlive.
Import Bully BullyFacts.

Lemma alive_callback (cb : Callback) (e : Env) (w : World) :
  isDestroyed (self w) = false -> scene (self w) = true ->
  isDestroyed (self (settle (run_callback cb e w))) = false /\
  scene (self (settle (run_callback cb e w))) = true.
Proof.
  open_world w. js_cbn. intros -> ->.
  destruct cb; js_cases; split; reflexivity.
Qed.

Lemma alive_update (p : option Z) (e : Env) (w : World) :
  isDestroyed (self w) = false -> scene (self w) = true ->
  threw (update p e w) = false /\
  isDestroyed (self (final (update p e w))) = false /\
  scene (self (final (update p e w))) = true.
Proof.
  open_world w. js_cbn. intros -> ->.
  js_cases; repeat split; reflexivity.
Qed.

Lemma alive_physics (dt : Z) (w : World) :
  isDestroyed (self (physics dt w)) = isDestroyed (self w) /\
  scene (self (physics dt w)) = scene (self w).
Proof. open_world w. js_cases; split; reflexivity. Qed.

Lemma alive_step (w : World) (ev : Event) :
  match ev with EvCleanup => False | _ => True end ->
  isDestroyed (self w) = false -> scene (self w) = true ->
  isDestroyed (self (step w ev)) = false /\ scene (self (step w ev)) = true.
Proof.
  intros Hev Hd Hs. destruct ev as [h e | dt p e | | cb e]; cbn [step].
  - destruct (lookup h (time w)) as [t|]; [|split; assumption].
    destruct (alive_physics (Z.max 0 (due t - now (time w))) w) as [H1 H2].
    apply alive_callback; cbn [self set_time]; congruence.
  - destruct (alive_physics dt w) as [H1 H2].
    destruct (alive_update p e (set_time (elapse dt (time (physics dt w))) (physics dt w)))
      as (Ht & H3 & H4); cbn [self set_time]; try congruence.
    destruct (update p e _); cbn in *; split; assumption.
  - destruct Hev.
  - apply alive_callback; assumption.
Qed.

Lemma cleanup_cleans (w : World) :
  scene (self w) = true ->
  threw (cleanup w) = false /\
  isDestroyed (self (final (cleanup w))) = true /\
  scene (self (final (cleanup w))) = false /\
  active (self (final (cleanup w))) = false.
Proof.
  open_world w. js_cbn. intros ->.
  unfold cleanup, bind, this, gets. js_cbn.
  rewrite bully_removeAll. js_cases; repeat split; reflexivity.
Qed.

End BullyAlive.

(** ** The zone *)

Lemma tidy_schedule_lookup (Callback : Type) (d : Z) (cb : Callback)
    (c : Clock Callback) :
  tidy c ->
  option_map (@callback Callback) (lookup (next_id c) (snd (schedule d false cb c)))
  = Some cb.
Proof.
  intros [_ Hall]. unfold lookup, schedule. cbn [snd pending].
  induction (pending c) as [|t l IH]; cbn [app find tid].
  - rewrite Nat.eqb_refl. reflexivity.
  - inversion Hall as [|? ? [Ht _] Hl]; subst.
    destruct (Nat.eqb_spec (tid t) (next_id c)) as [E|_]; [lia|]. exact (IH Hl).
Qed.

Module SchoolFacts.
Import DottieBaconSchool.

#[local] Arguments set_self v w /.
#[local] Arguments set_time v w /.
#[local] Arguments set_made v w /.
#[local] Arguments set_powerUpManager v w /.
#[local] Arguments set_uncaught v w /.
#[local] Arguments set_isCreated v o /.
#[local] Arguments set_isActive v o /.
#[local] Arguments set_currentZoneNumber v o /.
#[local] Arguments set_bullies v o /.

Ltac unfold_methods :=
  repeat progress unfold checkZone, getNextZoneStart, createZone, createBullies,
    activateZone, deactivateZone, fadeOutAndCleanup, onManager,
    PowerUpManager.scheduleBonusSpawn, PowerUpManager.assign, delayedCall,
    this, assign, settle.

Ltac js_cbn :=
  cbn -[Z.add Z.sub Z.mul Z.geb Z.leb Z.ltb dispatch lookup
        PowerUpManager.put Bully.cleanup Bully.update Bully.step Bully.constructor].

Ltac open_world w := destruct w as [[zc za zn zb] clk mk pm un].

Ltac split_ifs := split_ifs_with js_cbn.

(** Decide the comparisons of the goal. *)
Ltac compare_all :=
  repeat match goal with
         | |- context [?a >=? ?b] =>
             let E := fresh "E" in
             destruct (a >=? b) eqn:E; rewrite Z.geb_leb in E;
             [apply Z.leb_le in E|apply Z.leb_gt in E]
         | |- context [?a <=? ?b] => destruct (Z.leb_spec a b)
         | |- context [?a <? ?b] => destruct (Z.ltb_spec a b)
         end.

Ltac conjuncts := repeat match goal with |- _ /\ _ => split end.

Ltac finish :=
  conjuncts; js_cbn; conjuncts; auto; try lia; try discriminate;
  try (intros; lia).

(** *** [checkZone] *)

Lemma checkZone_spec (d : Z) (w : World) :
  zone_sound (self w) ->
  let n := currentZoneNumber (self w) in
  let leaves := isActive (self w) && negb (inSchool n d) in
  let w' := final (checkZone d w) in
  threw (checkZone d w) = false /\
  zone_sound (self w') /\
  isActive (self w') = inSchool n d /\
  currentZoneNumber (self w') = (if leaves then n + 1 else n) /\
  (leaves = true ->
   isCreated (self w') = false /\
   option_map (fun m => PowerUpManager.bonusSpawnPending (PowerUpManager.self m))
     (powerUpManager w')
   = option_map (fun _ => true) (powerUpManager w) /\
   (tidy (time w) ->
    option_map (@callback Callback) (lookup (next_id (time w)) (time w'))
    = Some CbCleanupBullies)) /\
  made w' = made w /\ bullies (self w') = bullies (self w) /\
  uncaught w' = uncaught w /\
  (tidy (time w) -> tidy (time w')).
Proof.
  open_world w. unfold zone_sound, inSchool, ZONE_INTERVAL, ZONE_LENGTH,
    LIBRARY_DISTANCE. js_cbn. intros (Hn & Ha & Hc).
  unfold_methods; unfold_monad; js_cbn.
  unfold ZONE_INTERVAL, ZONE_LENGTH, LIBRARY_DISTANCE.
  destruct zc, za; js_cbn; repeat (progress compare_all; js_cbn);
    try (exfalso; first [discriminate (Ha eq_refl)|specialize (Hc eq_refl); lia|lia]);
    finish;
    destruct pm; js_cbn; finish;
    intros; conjuncts; auto; try discriminate; try (intros; lia);
    intros;
    first [ apply (tidy_schedule_lookup Callback 2000 CbCleanupBullies clk); assumption
          | apply (tidy_schedule Callback 2000 CbCleanupBullies clk); assumption
          | apply (tidy_schedule Callback 2500 CbSecondBully
                     (snd (schedule 500 false CbFirstBully clk))),
                  (tidy_schedule Callback 500 CbFirstBully clk); assumption ].
Qed.

(** *** The bullies of the zone *)

Lemma alive_put (i j : nat) (b : Bully.World) (w : World) :
  alive (set_made (PowerUpManager.put i b (made w)) w) j
  = if Nat.eqb i j
    then match nth_error (made w) j with
         | Some _ => negb (Bully.isDestroyed (Bully.self b)) && Bully.scene (Bully.self b)
         | None => false
         end
    else alive w j.
Proof.
  unfold alive. cbn [made set_made]. rewrite ManagerFacts.put_nth.
  destruct (Nat.eqb i j); [|reflexivity].
  destruct (nth_error (made w) j); reflexivity.
Qed.

Lemma cleaned_put (i j : nat) (b : Bully.World) (w : World) :
  cleaned (set_made (PowerUpManager.put i b (made w)) w) j
  = if Nat.eqb i j
    then match nth_error (made w) j with
         | Some _ => Bully.isDestroyed (Bully.self b) && negb (Bully.scene (Bully.self b))
                     && negb (Bully.active (Bully.self b))
         | None => false
         end
    else cleaned w j.
Proof.
  unfold cleaned. cbn [made set_made]. rewrite ManagerFacts.put_nth.
  destruct (Nat.eqb i j); [|reflexivity].
  destruct (nth_error (made w) j); reflexivity.
Qed.

(** [forEach] over the bullies leaves the zone itself alone. *)
Lemma cleanupAll_frame (refs : list nat) :
  forall w,
    self (final (cleanupAll refs w)) = self w /\
    time (final (cleanupAll refs w)) = time w /\
    powerUpManager (final (cleanupAll refs w)) = powerUpManager w /\
    uncaught (final (cleanupAll refs w)) = uncaught w.
Proof.
  induction refs as [|i rest IH]; intros w; [repeat split|].
  cbn [cleanupAll]. unfold_monad. unfold onBully.
  destruct (nth_error (made w) i) as [b|]; [|repeat split].
  destruct (Bully.cleanup b) as [r b'|b']; [|repeat split].
  match goal with |- context [cleanupAll rest ?w1] =>
    destruct (IH w1) as (H1 & H2 & H3 & H4) end.
  unfold final in H1, H2, H3, H4. rewrite H1, H2, H3, H4. repeat split.
Qed.

(** Cleaning up bullies that are in the scene, each named once, throws
    nothing and leaves each of them destroyed. *)
Lemma cleanupAll_ok (refs : list nat) :
  forall w,
    NoDup refs -> forallb (alive w) refs = true ->
    threw (cleanupAll refs w) = false /\
    forallb (cleaned (final (cleanupAll refs w))) refs = true /\
    (forall j, ~ In j refs ->
               cleaned (final (cleanupAll refs w)) j = cleaned w j /\
               alive (final (cleanupAll refs w)) j = alive w j).
Proof.
  induction refs as [|i rest IH]; intros w Hnd Hal; [repeat split|].
  inversion Hnd as [|? ? Hni Hnd']; subst.
  cbn [forallb] in Hal. apply andb_true_iff in Hal. destruct Hal as [Hi Hal].
  cbn [cleanupAll]. unfold_monad. unfold onBully.
  unfold alive in Hi.
  destruct (nth_error (made w) i) as [b|] eqn:E; [|discriminate Hi].
  apply andb_true_iff in Hi. destruct Hi as [_ Hs].
  destruct (BullyAlive.cleanup_cleans b Hs) as (Ht & Hd & Hsc & Hac).
  unfold threw, final in Ht, Hd, Hsc, Hac.
  destruct (Bully.cleanup b) as [r b'|b']; [|discriminate Ht].
  set (w1 := set_made (PowerUpManager.put i b' (made w)) w).
  assert (Hal1 : forallb (alive w1) rest = true).
  { apply forallb_forall. intros j Hj. unfold w1. rewrite alive_put.
    destruct (Nat.eqb_spec i j) as [->|_]; [contradiction|].
    rewrite forallb_forall in Hal. apply Hal, Hj. }
  destruct (IH w1 Hnd' Hal1) as (H1 & H2 & H3).
  unfold threw, final in H1, H2, H3 |- *.
  split; [exact H1|]. split.
  - cbn [forallb]. rewrite H2, andb_true_r.
    destruct (H3 i Hni) as [Hc _]. rewrite Hc. unfold w1. rewrite cleaned_put.
    rewrite Nat.eqb_refl, E, Hd, Hsc, Hac. reflexivity.
  - intros j Hj. destruct (H3 j) as [Hc Ha]; [intros Hin; apply Hj; right; exact Hin|].
    rewrite Hc, Ha. unfold w1. rewrite cleaned_put, alive_put.
    destruct (Nat.eqb_spec i j) as [->|_]; [exfalso; apply Hj; left; reflexivity|].
    split; reflexivity.
Qed.

Lemma updateAll_frame (p : option Z) (e : Env) (refs : list nat) :
  forall w,
    self (final (updateAll p e refs w)) = self w /\
    time (final (updateAll p e refs w)) = time w /\
    powerUpManager (final (updateAll p e refs w)) = powerUpManager w /\
    uncaught (final (updateAll p e refs w)) = uncaught w.
Proof.
  induction refs as [|i rest IH]; intros w; [repeat split|].
  cbn [updateAll]. unfold_monad. cbv beta.
  destruct (nth_error (made w) i) as [b|] eqn:E; [|apply IH].
  destruct (Bully.active (Bully.self b)); cbv beta iota; [|apply IH].
  unfold onBully. rewrite E.
  destruct (Bully.update p e b) as [r b'|b']; [|repeat split].
  match goal with |- context [updateAll p e rest ?w1] =>
    destruct (IH w1) as (H1 & H2 & H3 & H4) end.
  unfold final in H1, H2, H3, H4. rewrite H1, H2, H3, H4. repeat split.
Qed.

(** Updating bullies that are in the scene throws nothing and leaves them in
    the scene. *)
Lemma updateAll_ok (p : option Z) (e : Env) (refs : list nat) :
  forall w,
    forallb (alive w) refs = true ->
    threw (updateAll p e refs w) = false /\
    (forall j, alive w j = true -> alive (final (updateAll p e refs w)) j = true).
Proof.
  induction refs as [|i rest IH]; intros w Hal; [split; [reflexivity|auto]|].
  cbn [forallb] in Hal. apply andb_true_iff in Hal. destruct Hal as [Hi Hal].
  cbn [updateAll]. unfold_monad. cbv beta.
  pose proof Hi as Hi'. unfold alive in Hi'.
  destruct (nth_error (made w) i) as [b|] eqn:E; [|discriminate Hi'].
  apply andb_true_iff in Hi'. destruct Hi' as [Hd Hs].
  apply negb_true_iff in Hd.
  destruct (Bully.active (Bully.self b)); cbv beta iota; [|apply IH, Hal].
  unfold onBully. rewrite E.
  destruct (BullyAlive.alive_update p e b Hd Hs) as (Ht & Hd' & Hs').
  unfold threw, final in Ht, Hd', Hs'.
  destruct (Bully.update p e b) as [r b'|b']; [|discriminate Ht].
  set (w1 := set_made (PowerUpManager.put i b' (made w)) w).
  assert (Hkeep : forall j, alive w j = true -> alive w1 j = true).
  { intros j Hj. unfold w1. rewrite alive_put.
    destruct (Nat.eqb_spec i j) as [->|_]; [|exact Hj].
    rewrite E, Hd', Hs'. reflexivity. }
  assert (Hal1 : forallb (alive w1) rest = true).
  { apply forallb_forall. intros j Hj. apply Hkeep.
    rewrite forallb_forall in Hal. apply Hal, Hj. }
  destruct (IH w1 Hal1) as (H1 & H2).
  unfold threw, final in H1, H2 |- *.
  split; [exact H1|]. intros j Hj. apply H2, Hkeep, Hj.
Qed.

(** *** One event *)

Lemma settle_fields (r : Res World unit) :
  self (settle r) = self (final r) /\ time (settle r) = time (final r) /\
  made (settle r) = made (final r) /\
  powerUpManager (settle r) = powerUpManager (final r) /\
  (threw r = false -> uncaught (settle r) = uncaught (final r)).
Proof. destruct r; cbn; repeat split; auto; discriminate. Qed.

Lemma alive_same (w w' : World) (i : nat) : made w' = made w -> alive w' i = alive w i.
Proof. unfold alive. intros ->. reflexivity. Qed.

Lemma cleaned_same (w w' : World) (i : nat) :
  made w' = made w -> cleaned w' i = cleaned w i.
Proof. unfold cleaned. intros ->. reflexivity. Qed.

Lemma cleaned_all_same (w w' : World) (l : list nat) :
  made w' = made w -> forallb (cleaned w') l = forallb (cleaned w) l.
Proof.
  intros Hm. induction l as [|i l IH]; [reflexivity|].
  cbn [forallb]. rewrite IH, (cleaned_same w w' i Hm). reflexivity.
Qed.

Lemma tended_same (w w' : World) :
  made w' = made w -> bullies (self w') = bullies (self w) -> tended w -> tended w'.
Proof.
  unfold tended. intros Hm Hb [Hnd Hal]. rewrite Hb. split; [exact Hnd|].
  apply forallb_forall. intros i Hi. rewrite (alive_same w w' i Hm).
  rewrite forallb_forall in Hal. apply Hal, Hi.
Qed.

Lemma alive_bound (w : World) (i : nat) :
  alive w i = true -> (i < length (made w))%nat.
Proof.
  unfold alive. intros H. apply nth_error_Some.
  destruct (nth_error (made w) i); [discriminate|discriminate H].
Qed.

Lemma cleanupBullies_spec (w : World) :
  tended w ->
  let w' := final (cleanupBullies w) in
  threw (cleanupBullies w) = false /\
  self w' = set_bullies [] (self w) /\ time w' = time w /\
  uncaught w' = uncaught w /\
  forallb (cleaned w') (bullies (self w)) = true.
Proof.
  intros [Hnd Hal]. unfold cleanupBullies, this, assign. unfold_monad. cbv beta.
  destruct (cleanupAll_ok (bullies (self w)) w Hnd Hal) as (Ht & Hc & _).
  destruct (cleanupAll_frame (bullies (self w)) w) as (H1 & H2 & _ & H4).
  unfold threw, final in Ht, Hc, H1, H2, H4.
  destruct (cleanupAll (bullies (self w)) w) as [r w1|w1]; [|discriminate Ht].
  cbn. rewrite H1, H2, H4. repeat split. exact Hc.
Qed.

Lemma cleanup_spec (w : World) :
  tended w ->
  let w' := final (cleanup w) in
  threw (cleanup w) = false /\
  self w' = set_isActive false (set_isCreated false (set_bullies [] (self w))) /\
  time w' = time w /\ uncaught w' = uncaught w /\
  forallb (cleaned w') (bullies (self w)) = true.
Proof.
  intros [Hnd Hal]. unfold cleanup, this, assign. unfold_monad. cbv beta.
  destruct (cleanupAll_ok (bullies (self w)) w Hnd Hal) as (Ht & Hc & _).
  destruct (cleanupAll_frame (bullies (self w)) w) as (H1 & H2 & _ & H4).
  unfold threw, final in Ht, Hc, H1, H2, H4.
  destruct (cleanupAll (bullies (self w)) w) as [r w1|w1]; [|discriminate Ht].
  cbn. rewrite H1, H2, H4. repeat split. exact Hc.
Qed.

Lemma addBully_tended (e : Env) (fromRight : bool) (w : World) :
  tended w -> tended (final (addBully e fromRight w)).
Proof.
  intros [Hnd Hal]. unfold addBully, tended. cbn [final self made set_self set_made
    bullies set_bullies].
  assert (Hlt : forall i, In i (bullies (self w)) -> (i < length (made w))%nat).
  { intros i Hi. apply alive_bound. rewrite forallb_forall in Hal. apply Hal, Hi. }
  split.
  - apply NoDup_app; [exact Hnd|repeat constructor; intros []|].
    intros i Hi [E|[]]. specialize (Hlt i Hi). lia.
  - rewrite forallb_app. apply andb_true_iff. split.
    + apply forallb_forall. intros i Hi. unfold alive. cbn [made].
      rewrite nth_error_app1 by (apply Hlt, Hi).
      rewrite forallb_forall in Hal. apply (Hal i Hi).
    + cbn [forallb]. unfold alive. cbn [made].
      rewrite nth_error_app2 by lia. rewrite Nat.sub_diag. reflexivity.
Qed.

(** The zone's own state and its clock, whatever happens. *)
Lemma zone_sound_step (w : World) (ev : Event) :
  zone_sound (self w) -> tidy (time w) ->
  zone_sound (self (step w ev)) /\ tidy (time (step w ev)).
Proof.
  intros Hz Ht. destruct ev as [d | h e | p e | i bev | ]; cbn [step].
  - destruct (checkZone_spec d w Hz) as (_ & Hz' & _ & _ & _ & _ & _ & _ & Ht').
    destruct (settle_fields (checkZone d w)) as (-> & -> & _).
    split; [exact Hz'|exact (Ht' Ht)].
  - destruct (lookup h (time w)) as [t|] eqn:Hl; [|split; assumption].
    pose proof (tidy_dispatch Callback t (time w) Ht
                  (tidy_lookup Callback h (time w) t Ht Hl)) as Hd.
    match goal with |- context [run_callback _ e ?w1] =>
      destruct (settle_fields (run_callback (callback t) e w1)) as (-> & -> & _)
    end.
    destruct (callback t); cbn [run_callback].
    + split; [exact Hz|exact Hd].
    + split; [exact Hz|exact Hd].
    + unfold cleanupBullies, this, assign. unfold_monad. cbv beta.
      match goal with |- context [cleanupAll ?refs ?w1] =>
        destruct (cleanupAll_frame refs w1) as (H1 & H2 & _);
        unfold final in H1, H2; destruct (cleanupAll refs w1)
      end; cbn in *; rewrite H1, H2; split; assumption.
  - destruct (settle_fields (update p e w)) as (-> & -> & _).
    unfold update, this. unfold_monad. cbv beta.
    destruct p; [|split; assumption].
    destruct (isActive (self w)); cbn [negb]; [|split; assumption].
    destruct (updateAll_frame (Some z) e (bullies (self w)) w) as (H1 & H2 & _).
    unfold final in H1, H2. rewrite H1, H2. split; assumption.
  - destruct (nth_error (made w) i); split; assumption.
  - destruct (settle_fields (cleanup w)) as (-> & -> & _).
    unfold cleanup, this, assign. unfold_monad. cbv beta.
    destruct (cleanupAll_frame (bullies (self w)) w) as (H1 & H2 & _).
    unfold final in H1, H2.
    destruct (cleanupAll (bullies (self w)) w); cbn in *; rewrite H1, H2;
      [|split; assumption].
    split; [|exact Ht]. destruct Hz as (Hn & _ & _).
    unfold zone_sound. cbn. repeat split; try apply Hn; discriminate.
Qed.

Lemma zone_sound_run (evs : list Event) :
  forall w,
    zone_sound (self w) -> tidy (time w) ->
    zone_sound (self (run w evs)) /\ tidy (time (run w evs)).
Proof.
  induction evs as [|ev evs IH]; intros w Hz Ht; [split; assumption|].
  destruct (zone_sound_step w ev Hz Ht) as [Hz' Ht']. apply (IH (step w ev) Hz' Ht').
Qed.

(** The bullies of the zone, as long as the scene leaves them to it. *)
Lemma tended_step (w : World) (ev : Event) :
  hands_off ev = true -> zone_sound (self w) -> tended w ->
  tended (step w ev) /\ uncaught (step w ev) = uncaught w.
Proof.
  intros Hev Hz Hw. destruct ev as [d | h e | p e | i bev | ]; cbn [step].
  - destruct (checkZone_spec d w Hz) as (Hth & _ & _ & _ & _ & Hm & Hb & Hu & _).
    destruct (settle_fields (checkZone d w)) as (Hs & _ & Hmm & _ & Hun).
    split; [|rewrite (Hun Hth); exact Hu].
    apply (tended_same w); [rewrite Hmm; exact Hm|rewrite Hs; exact Hb|exact Hw].
  - destruct (lookup h (time w)) as [t|] eqn:Hl; [|split; [exact Hw|reflexivity]].
    set (w1 := set_time (dispatch t (time w)) w).
    assert (Hw1 : tended w1) by (apply (tended_same w); [reflexivity|reflexivity|exact Hw]).
    destruct (callback t); cbn [run_callback].
    + split; [apply (addBully_tended e true w1 Hw1)|reflexivity].
    + split; [apply (addBully_tended e false w1 Hw1)|reflexivity].
    + destruct (cleanupBullies_spec w1 Hw1) as (Hth & Hs & _ & Hu & _).
      destruct (settle_fields (cleanupBullies w1)) as (Hss & _ & _ & _ & Hun).
      split; [|rewrite (Hun Hth); exact Hu].
      unfold tended. rewrite Hss, Hs. cbn. split; [constructor|reflexivity].
  - destruct (settle_fields (update p e w)) as (Hs & _ & Hm & _ & Hun).
    assert (H : threw (update p e w) = false /\
                self (final (update p e w)) = self w /\
                uncaught (final (update p e w)) = uncaught w /\
                (forall j, alive w j = true -> alive (final (update p e w)) j = true)).
    { unfold update, this. unfold_monad. cbv beta.
      destruct p as [px|]; [|repeat split; auto].
      destruct (isActive (self w)); cbn [negb]; [|repeat split; auto].
      destruct Hw as [_ Hal].
      destruct (updateAll_ok (Some px) e (bullies (self w)) w Hal) as (H1 & H2).
      destruct (updateAll_frame (Some px) e (bullies (self w)) w) as (H3 & _ & _ & H4).
      unfold threw, final in H1, H2, H3, H4. repeat split; assumption. }
    destruct H as (Hth & Hself & Hu & Hal').
    split; [|rewrite (Hun Hth); exact Hu].
    destruct Hw as [Hnd Hal]. unfold tended. rewrite Hs, Hself.
    split; [exact Hnd|]. apply forallb_forall. intros j Hj.
    rewrite (alive_same (final (update p e w)) (settle (update p e w)) j Hm).
    apply Hal'. rewrite forallb_forall in Hal. apply Hal, Hj.
  - destruct (nth_error (made w) i) as [b|] eqn:E; [|split; [exact Hw|reflexivity]].
    split; [|reflexivity]. destruct Hw as [Hnd Hal].
    unfold tended. split; [exact Hnd|].
    apply forallb_forall. intros j Hj. rewrite alive_put.
    rewrite forallb_forall in Hal. specialize (Hal j Hj).
    destruct (Nat.eqb_spec i j) as [->|_]; [|exact Hal].
    unfold alive in Hal. rewrite E in Hal |- *.
    apply andb_true_iff in Hal. destruct Hal as [Hd Hs].
    apply negb_true_iff in Hd.
    destruct (BullyAlive.alive_step b bev) as [Hd' Hs']; try assumption.
    { destruct bev; try exact I. discriminate Hev. }
    rewrite Hd', Hs'. reflexivity.
  - destruct (cleanup_spec w Hw) as (Hth & Hs & _ & Hu & _).
    destruct (settle_fields (cleanup w)) as (Hss & _ & _ & _ & Hun).
    split; [|rewrite (Hun Hth); exact Hu].
    unfold tended. rewrite Hss, Hs. cbn. split; [constructor|reflexivity].
Qed.

Lemma tended_run (evs : list Event) :
  forall w,
    forallb hands_off evs = true ->
    zone_sound (self w) -> tidy (time w) -> tended w ->
    tended (run w evs) /\ uncaught (run w evs) = uncaught w.
Proof.
  induction evs as [|ev evs IH]; intros w Hev Hz Ht Hw; [split; [exact Hw|reflexivity]|].
  cbn [forallb] in Hev. apply andb_true_iff in Hev. destruct Hev as [Hev1 Hev2].
  destruct (zone_sound_step w ev Hz Ht) as [Hz' Ht'].
  destruct (tended_step w ev Hev1 Hz Hw) as [Hw' Hu].
  destruct (IH (step w ev) Hev2 Hz' Ht' Hw') as [Hw'' Hu'].
  split; [exact Hw''|]. cbn [run fold_left] in *. rewrite <- Hu. exact Hu'.
Qed.

End SchoolFacts.

(** * Further properties read off the code *)

(** ** The patrol classes *)

(** X1.  Whatever happens to an old man or a bully after its construction
    (timers firing in any order, frames, closures called out of turn,
    cleanup), [patrolDirection] is -1 or 1 and the horizontal velocity of the
    body is 0, [PATROL_SPEED] or [-PATROL_SPEED]: every assignment is
    [setVelocityX(0)] or [setVelocityX(patrolDirection * PATROL_SPEED)]. *)
Theorem patrol_direction_and_speed_are_steady :
  forall (clko : Clock OldMan.Callback) (clkb : Clock Bully.Callback) (e0 : Env)
         (xarg yarg : Z) (startFromRight : bool)
         (evo : list OldMan.Event) (evb : list Bully.Event),
    Invariant.oldman_steady
      (OldMan.self (OldMan.run (OldMan.constructor clko xarg yarg) evo)) /\
    Invariant.bully_steady
      (Bully.self (Bully.run (Bully.constructor clkb e0 xarg yarg startFromRight) evb)).
Proof.
  intros. split.
  - apply OldManMore.oldman_steady_run. unfold Invariant.oldman_steady.
    cbn. split; [left; reflexivity | left; reflexivity].
  - apply BullyMore.bully_steady_run. unfold Invariant.bully_steady.
    destruct startFromRight; cbn; split; auto.
Qed.

(** X2.  [Bully.cleanup] is final.  Take a bully built in a scene whose clock
    holds no timer of its own yet, let anything happen to it, and call
    [cleanup()]: the sprite is marked destroyed, [pendingTimers] is empty, the
    only events of the bully left in the clock are throw timers (those of
    earlier passes, whose handle [startThrowingTimer] overwrote), and from
    then on no event changes the sprite or creates a word bubble. *)
Theorem bully_cleanup_is_final :
  forall (e0 : Env) (xarg yarg : Z) (startFromRight : bool)
         (before after : list Bully.Event),
    let born := Bully.constructor (emptyClock Bully.Callback) e0 xarg yarg
                  startFromRight in
    let w := Bully.step (Bully.run born before) Bully.EvCleanup in
    Bully.isDestroyed (Bully.self w) = true /\
    Bully.pendingTimers (Bully.self w) = [] /\
    forallb Invariant.is_throw (pending (Bully.time w)) = true /\
    Bully.self (Bully.run w after) = Bully.self w /\
    Bully.created (Bully.run w after) = Bully.created w.
Proof.
  intros e0 xarg yarg r before after born w.
  assert (Hbooks : Invariant.bully_books_kept (Bully.run born before) = true).
  { apply BullyMore.books_run. unfold born. destruct r; reflexivity. }
  assert (Hsound : Invariant.bully_sound (Bully.self (Bully.run born before))).
  { apply BullyMore.sound_run. left. unfold born. destruct r; split; reflexivity. }
  destruct (BullyMore.books_cleanup _ Hbooks) as (Hd & Hp & Ht).
  pose proof (BullyMore.sound_cleanup _ Hsound) as D.
  destruct (BullyMore.disposed_run after w D) as [Hs Hc].
  unfold w at 1 2 3. cbn [Bully.step].
  repeat split; assumption.
Qed.

(** X4.  Without a player neither class attacks or leaves.  Over any events
    during which [scene.student] is undefined and [update] is called without
    a player, no newspaper and no word bubble is created, and an NPC that is
    on stage (not in 'waiting') never gets to 'waiting': [update] returns
    before its exit check, so the NPC walks on past the thresholds. *)
Theorem without_a_player_no_attack_and_no_exit :
  forall (wo : OldMan.World) (evo : list OldMan.Event)
         (wb : Bully.World) (evb : list Bully.Event),
    forallb Invariant.oldman_playerless evo = true ->
    forallb Invariant.bully_playerless evb = true ->
    OldMan.state_eqb (OldMan.currentState (OldMan.self wo)) OldMan.waiting = false ->
    Bully.state_eqb (Bully.currentState (Bully.self wb)) Bully.waiting = false ->
    OldMan.created (OldMan.run wo evo) = OldMan.created wo /\
    OldMan.state_eqb (OldMan.currentState (OldMan.self (OldMan.run wo evo)))
      OldMan.waiting = false /\
    Bully.created (Bully.run wb evb) = Bully.created wb /\
    Bully.state_eqb (Bully.currentState (Bully.self (Bully.run wb evb)))
      Bully.waiting = false.
Proof.
  intros wo evo wb evb Ho Hb Hwo Hwb.
  destruct (OldManMore.oldman_playerless_run evo wo Ho) as [Hc Hs].
  destruct (BullyMore.bully_playerless_run evb wb Hb) as [Hc' Hs'].
  repeat split; try assumption.
  - destruct (OldMan.currentState (OldMan.self (OldMan.run wo evo))) eqn:E;
      try reflexivity.
    exfalso. apply Hs; [|reflexivity].
    intros Hw. rewrite Hw in Hwo. discriminate Hwo.
  - destruct (Bully.currentState (Bully.self (Bully.run wb evb))) eqn:E;
      try reflexivity.
    exfalso. apply Hs'; [|reflexivity].
    intros Hw. rewrite Hw in Hwb. discriminate Hwb.
Qed.

Lemma without_a_player_no_attack_and_no_exit_witness :
  OldMan.created (OldMan.run Situation.Old.patrolling_now Situation.Old.alone)
  = OldMan.created Situation.Old.patrolling_now /\
  OldMan.state_eqb
    (OldMan.currentState
       (OldMan.self (OldMan.run Situation.Old.patrolling_now Situation.Old.alone)))
    OldMan.waiting = false /\
  Bully.created (Bully.run Situation.Bul.charging_now Situation.Bul.alone)
  = Bully.created Situation.Bul.charging_now /\
  Bully.state_eqb
    (Bully.currentState
       (Bully.self (Bully.run Situation.Bul.charging_now Situation.Bul.alone)))
    Bully.waiting = false.
Proof.
  apply (without_a_player_no_attack_and_no_exit
           Situation.Old.patrolling_now Situation.Old.alone
           Situation.Bul.charging_now Situation.Bul.alone);
    vm_compute; reflexivity.
Defined.

(** ** The player and the meter *)

(** X5.  [ConfidenceMeter.updateConfidence] keeps the meter between 0 and
    [maxConfidence] whatever amount it is given, and it sets the meter to the
    same value as [setConfidence(currentConfidence + amount)]: the two
    clamps, one written with two [if]s and one with [Math.max] and
    [Math.min], agree.  This needs [maxConfidence] not to be negative. *)
Theorem meter_update_clamps_like_set :
  forall (m : ConfidenceMeter.Meter) (amount : Z),
    0 <= ConfidenceMeter.maxConfidence m ->
    0 <= ConfidenceMeter.currentConfidence (ConfidenceMeter.updateConfidence amount m)
      <= ConfidenceMeter.maxConfidence m /\
    ConfidenceMeter.updateConfidence amount m
    = ConfidenceMeter.setConfidence (ConfidenceMeter.currentConfidence m + amount) m.
Proof.
  intros m amount H. split.
  - apply MeterFacts.meter_update_in_range, H.
  - apply MeterFacts.meter_update_is_set, H.
Qed.

Lemma meter_update_clamps_like_set_witness :
  let m := ConfidenceMeter.constructor 100 in
  0 <= ConfidenceMeter.currentConfidence (ConfidenceMeter.updateConfidence (-130) m)
    <= ConfidenceMeter.maxConfidence m /\
  ConfidenceMeter.updateConfidence (-130) m
  = ConfidenceMeter.setConfidence (ConfidenceMeter.currentConfidence m + -130) m.
Proof.
  apply (meter_update_clamps_like_set (ConfidenceMeter.constructor 100) (-130)).
  cbn. lia.
Defined.

(** X6.  The confidence of the student stays a percentage, and a student
    whose confidence is zero is defeated: from the construction on, over any
    timers, frames, hits and heals whose amounts are not negative,
    0 <= confidence <= MAX_CONFIDENCE, and confidence = 0 implies
    [isDefeated].  ([takeDamage] only clamps at 0 and [heal] only at
    MAX_CONFIDENCE, so a negative amount would leave the range.) *)
Theorem confidence_stays_a_percentage :
  forall (clk : Clock Student.Callback) (xarg yarg : Z) (evs : list Student.Event),
    forallb Student.fair evs = true ->
    let w := Student.run (Student.constructor clk xarg yarg) evs in
    0 <= Student.confidence (Student.self w) <= Student.MAX_CONFIDENCE /\
    (Student.confidence (Student.self w) = 0 ->
     Student.isDefeated (Student.self w) = true).
Proof.
  intros clk xarg yarg evs Hf w.
  destruct (StudentFacts.confidence_run evs (Student.constructor clk xarg yarg) Hf)
    as [Hr _]; [|exact Hr].
  split; [|exact I].
  split; cbn; [unfold Student.MAX_CONFIDENCE; lia|].
  unfold Student.MAX_CONFIDENCE. discriminate.
Qed.

Lemma confidence_stays_a_percentage_witness :
  let w := Student.run (Student.constructor (emptyClock Student.Callback) 100 450)
             (Playground.rough_day ++ Playground.seven_squirrels) in
  0 <= Student.confidence (Student.self w) <= Student.MAX_CONFIDENCE /\
  (Student.confidence (Student.self w) = 0 ->
   Student.isDefeated (Student.self w) = true).
Proof.
  apply (confidence_stays_a_percentage (emptyClock Student.Callback) 100 450
           (Playground.rough_day ++ Playground.seven_squirrels)).
  vm_compute. reflexivity.
Defined.

(** X7.  The meter shows the confidence of the student.  When the scene
    attaches a fresh meter of MAX_CONFIDENCE to a new student, then after any
    timers, frames, hits and heals with amounts that are not negative the
    meter's [currentConfidence] equals the student's [confidence], although
    the student clamps on one side only and a blocked hit updates
    neither. *)
Theorem meter_shows_the_confidence :
  forall (clk : Clock Student.Callback) (xarg yarg : Z) (evs : list Student.Event),
    forallb Student.fair evs = true ->
    let w := Student.run
               (Student.attachMeter (ConfidenceMeter.constructor Student.MAX_CONFIDENCE)
                  (Student.constructor clk xarg yarg)) evs in
    option_map ConfidenceMeter.currentConfidence (Student.confidenceMeter w)
    = Some (Student.confidence (Student.self w)).
Proof.
  intros clk xarg yarg evs Hf w.
  destruct (StudentFacts.confidence_run evs
              (Student.attachMeter (ConfidenceMeter.constructor Student.MAX_CONFIDENCE)
                 (Student.constructor clk xarg yarg)) Hf) as [_ Hs].
  - split; [|split; reflexivity].
    split; cbn; [unfold Student.MAX_CONFIDENCE; lia|].
    unfold Student.MAX_CONFIDENCE. discriminate.
  - fold w in Hs. unfold Student.in_sync in Hs.
    assert (Hm : Student.confidenceMeter w <> None).
    { apply StudentFacts.meter_stays_run. cbn. discriminate. }
    destruct (Student.confidenceMeter w) as [m|]; [|congruence].
    cbn. destruct Hs as [_ ->]. reflexivity.
Qed.

Lemma meter_shows_the_confidence_witness :
  let w := Student.run
             (Student.attachMeter (ConfidenceMeter.constructor Student.MAX_CONFIDENCE)
                (Student.constructor (emptyClock Student.Callback) 100 450))
             Playground.rough_day in
  option_map ConfidenceMeter.currentConfidence (Student.confidenceMeter w)
  = Some (Student.confidence (Student.self w)).
Proof.
  apply (meter_shows_the_confidence (emptyClock Student.Callback) 100 450
           Playground.rough_day).
  vm_compute. reflexivity.
Defined.

(** X8.  Invincibility while stumbling.  For a student built in a scene whose
    clock is empty, after any timers, frames, hits and heals: exactly one
    closure that ends the stumble is pending while [isStumbling] is set and
    none otherwise, so a stumble always has its end scheduled and never two.
    Right after any call of [takeDamage] the student is stumbling, and a
    further call returns false and changes nothing. *)
Theorem stumbling_blocks_damage_and_always_ends :
  forall (xarg yarg : Z) (evs : list Student.Event) (first second : Z),
    let w := Student.run (Student.constructor (emptyClock Student.Callback) xarg yarg)
               evs in
    let hit := final (Student.takeDamage first w) in
    Student.stumble_timers w
    = (if Student.isStumbling (Student.self w) then 1%nat else 0%nat) /\
    Student.isStumbling (Student.self hit) = true /\
    Student.takeDamage second hit = Ok false hit.
Proof.
  intros xarg yarg evs a b w hit.
  assert (H : Student.stumble_ends w).
  { apply StudentFacts.stumble_run. split; [apply tidy_empty|reflexivity]. }
  destruct H as [_ H].
  pose proof (StudentFacts.takeDamage_stumbles a w) as Hs.
  repeat split; [exact H|exact Hs|].
  apply StudentFacts.takeDamage_blocked, Hs.
Qed.

(** X9.  The game ends once.  From the construction of the student on,
    whatever happens, ['gameOver'] is emitted at most once, and only for a
    defeated student: [onConfidenceDepleted] clears the flag once, before
    any emission, because [isDefeated] is never reset. *)
Theorem game_over_is_emitted_at_most_once :
  forall (clk : Clock Student.Callback) (xarg yarg : Z) (evs : list Student.Event),
    let w := Student.run (Student.constructor clk xarg yarg) evs in
    (Student.gameOvers w <= 1)%nat /\
    (Student.gameOvers w = 1%nat -> Student.isDefeated (Student.self w) = true).
Proof.
  intros clk xarg yarg evs w.
  assert (H : Student.game_over_once w).
  { apply StudentFacts.game_over_run. split; [reflexivity|]. cbn. discriminate. }
  destruct H as [Hn Hd].
  destruct (Student.hasTriggeredGameOver (Student.self w)).
  - split; [lia|]. intros _. apply Hd. reflexivity.
  - split; [lia|]. rewrite Hn. discriminate.
Qed.

(** X10.  Defeat is for good and takes the controls away.  Once
    [isDefeated] is set it stays set over any timers, frames, hits and heals
    (a heal raises the confidence again but does not revive the student);
    every frame sets the horizontal velocity to -100 and turns the sprite
    left whatever keys are down; and the student jumps at most once more,
    by a jump buffered before the defeat. *)
Theorem defeat_is_permanent :
  forall (w : Student.World) (evs : list Student.Event) (f : Student.Frame),
    Student.isDefeated (Student.self w) = true ->
    let w' := Student.run w evs in
    let w'' := Student.step w' (Student.EvFrame f) in
    Student.isDefeated (Student.self w') = true /\
    Student.velocityX (Student.self w'') = -100 /\
    Student.flipX (Student.self w'') = true /\
    (Student.jumps w' <= Student.jumps w + 1)%nat.
Proof.
  intros w evs f Hd w' w''.
  pose proof (StudentFacts.defeat_run evs w Hd) as Hd'.
  split; [exact Hd'|].
  unfold w''. cbn [Student.step].
  match goal with |- context [Student.update f ?w2] =>
    destruct (StudentFacts.defeated_frame f w2) as [Hv Hf] end.
  { cbn. exact Hd'. }
  split; [exact Hv|]. split; [exact Hf|].
  pose proof (StudentFacts.defeated_run (Student.jumps w) evs w Hd
                (or_introl eq_refl)).
  fold w' in H. lia.
Qed.

Lemma defeat_is_permanent_witness :
  let w' := Student.run Playground.beaten Playground.way_back in
  let w'' := Student.step w' (Student.EvFrame (Playground.frame true (-80) true true)) in
  Student.isDefeated (Student.self w') = true /\
  Student.velocityX (Student.self w'') = -100 /\
  Student.flipX (Student.self w'') = true /\
  (Student.jumps w' <= Student.jumps Playground.beaten + 1)%nat.
Proof.
  apply (defeat_is_permanent Playground.beaten Playground.way_back
           (Playground.frame true (-80) true true)).
  vm_compute. reflexivity.
Defined.

(** X11.  Jumps in the air.  Over any stretch of events whose frames find the
    body in the air and do not go back in time, the student jumps at most
    [air_jumps] times: once if [isOnGround] is still set from the frame
    before the stretch, and once more by the coyote jump if that is unused
    and fewer than COYOTE_TIME milliseconds have passed since the ground was
    left.  So never more than twice, and not at all once both are used up. *)
Theorem at_most_two_jumps_in_the_air :
  forall (w : Student.World) (evs : list Student.Event),
    forallb Student.airborne evs = true ->
    forallb Student.forward evs = true ->
    (Student.jumps w <= Student.jumps (Student.run w evs)
     <= Student.jumps w + Student.air_jumps w)%nat /\
    (Student.air_jumps w <= 2)%nat.
Proof.
  intros w evs Ha Hf.
  pose proof (StudentFacts.air_run evs w Ha Hf).
  pose proof (StudentFacts.jumps_grow_run evs w).
  split; [lia|].
  unfold Student.air_jumps.
  destruct (Student.isOnGround (Student.self w));
    destruct (Student.usedCoyoteJump (Student.self w) ||
              (Student.COYOTE_TIME <=? Student.timeSinceGrounded (Student.self w)));
    cbn; lia.
Qed.

Lemma at_most_two_jumps_in_the_air_witness :
  (Student.jumps Playground.grounded
   <= Student.jumps (Student.run Playground.grounded Playground.hammering)
   <= Student.jumps Playground.grounded + Student.air_jumps Playground.grounded)%nat /\
  (Student.air_jumps Playground.grounded <= 2)%nat.
Proof.
  apply (at_most_two_jumps_in_the_air Playground.grounded Playground.hammering);
    vm_compute; reflexivity.
Defined.

(** X12.  The jump buffer.  A student in the air who cannot jump (not on the
    ground, coyote jump used) and presses jump does not jump in that frame,
    but the press is remembered: if the next frame finds the body on the
    ground and lasts less than JUMP_BUFFER_TIME milliseconds, [update] jumps
    in it although no key is pressed; if it lasts longer, it does not. *)
Theorem buffered_jump_fires_on_landing :
  forall (w : Student.World) (press land : Student.Frame),
    Student.isDefeated (Student.self w) = false ->
    Student.isOnGround (Student.self w) = false ->
    Student.usedCoyoteJump (Student.self w) = true ->
    Student.blockedDown press = false ->
    Student.jumpJustDown press = true ->
    Student.blockedDown land = true ->
    Student.jumpJustDown land = false ->
    let w1 := Student.step w (Student.EvFrame press) in
    let w2 := Student.step w1 (Student.EvFrame land) in
    Student.jumps w1 = Student.jumps w /\
    Student.jumps w2
    = Nat.add (Student.jumps w)
        (if Student.delta land <? Student.JUMP_BUFFER_TIME then 1%nat else 0%nat) /\
    (Student.delta land < Student.JUMP_BUFFER_TIME ->
     Student.velocityY (Student.self w2) = Student.JUMP_POWER).
Proof.
  intros w press land Hd Hg Hu Hp1 Hp2 Hl1 Hl2 w1 w2.
  unfold w2, w1. cbn [Student.step].
  match goal with |- context [Student.update press ?w0] =>
    destruct (StudentFacts.buffer_press press w0) as (Hj & Ht & _);
      try assumption; set (u := final (Student.update press w0)) in * end.
  match goal with |- context [Student.update land ?w0] =>
    destruct (StudentFacts.buffer_landing 0 land w0) as (Hj2 & Hv);
      try assumption end.
  rewrite Hj2. cbn [Student.jumps Student.set_time Student.set_self].
  rewrite Hj. cbn [Student.jumps Student.set_time Student.set_self].
  repeat split; try reflexivity. exact Hv.
Qed.

Lemma buffered_jump_fires_on_landing_witness :
  let press := Playground.frame false 110 false true in
  let land := Playground.frame true 120 false false in
  let w1 := Student.step Playground.falling (Student.EvFrame press) in
  let w2 := Student.step w1 (Student.EvFrame land) in
  Student.jumps w1 = Student.jumps Playground.falling /\
  Student.jumps w2
  = Nat.add (Student.jumps Playground.falling)
      (if Student.delta land <? Student.JUMP_BUFFER_TIME then 1%nat else 0%nat) /\
  (Student.delta land < Student.JUMP_BUFFER_TIME ->
   Student.velocityY (Student.self w2) = Student.JUMP_POWER).
Proof.
  apply (buffered_jump_fires_on_landing Playground.falling
           (Playground.frame false 110 false true)
           (Playground.frame true 120 false false));
    vm_compute; reflexivity.
Defined.

(** ** Projectiles and power-ups *)

(** X13.  A word bubble hurts at most once.  Over any 'update' events,
    overlap callbacks (with whatever arguments), cleanups and timers and
    frames of the student, as long as nothing else hurts or heals the
    student, the student loses at most [WordBubble.DAMAGE] to the bubble, and
    at most one hit is announced. *)
Theorem word_bubble_hits_at_most_once :
  forall (st : Stage) (e : Env) (xarg yarg : Z) (p : Student.World)
         (evs : list WordBubble.Event),
    forallb WordBubble.calm evs = true ->
    let w := WordBubble.run (WordBubble.constructor st e xarg yarg p) evs in
    Student.confidence (Student.self p) - WordBubble.DAMAGE
      <= Student.confidence (Student.self (WordBubble.player w)) /\
    (WordBubble.hits w <= 1)%nat.
Proof.
  intros st e xarg yarg p evs Hc w.
  apply (WordBubbleFacts.bubble_run
           (Student.confidence (Student.self p) - WordBubble.DAMAGE) evs
           (WordBubble.constructor st e xarg yarg p) Hc).
  cbn. split; lia.
Qed.

Lemma word_bubble_hits_at_most_once_witness :
  let w := WordBubble.run
             (WordBubble.constructor Encounter.stage Scenario.still 100 (-50)
                Playground.born) Encounter.bubble_falls in
  Student.confidence (Student.self Playground.born) - WordBubble.DAMAGE
    <= Student.confidence (Student.self (WordBubble.player w)) /\
  (WordBubble.hits w <= 1)%nat.
Proof.
  apply (word_bubble_hits_at_most_once Encounter.stage Scenario.still 100 (-50)
           Playground.born Encounter.bubble_falls).
  vm_compute. reflexivity.
Defined.

(** X14.  A squirrel hurts at most once, and not before it runs.  From its
    construction on, over any timers, 'update' events, overlaps, cleanups and
    timers and frames of the student, as long as nothing else hurts or heals
    the student: the student loses at most [Squirrel.DAMAGE] to it, at most
    one hit is announced, and while [isRunning] is not set the student has
    lost nothing (the overlap is only registered by [startRunning]).  Once
    the squirrel is destroyed its two timers do nothing. *)
Theorem squirrel_hits_once_and_only_when_running :
  forall (st : Stage) (clk : Clock Squirrel.Callback) (xarg yarg : Z)
         (p : Student.World) (evs : list Squirrel.Event) (cb : Squirrel.Callback),
    forallb Squirrel.calm evs = true ->
    let w := Squirrel.run st (Squirrel.constructor clk xarg yarg (Some p)) evs in
    Student.confidence (Student.self p) - Squirrel.DAMAGE
      <= Squirrel.playerConfidence w /\
    (Squirrel.hits w <= 1)%nat /\
    (Squirrel.isRunning (Squirrel.self w) = false ->
     Student.confidence (Student.self p) <= Squirrel.playerConfidence w /\
     Squirrel.hits w = 0%nat) /\
    (Squirrel.isDestroyed (Squirrel.self w) = true ->
     Squirrel.run_callback st cb w = Ok tt w).
Proof.
  intros st clk xarg yarg p evs cb Hc w.
  assert (H : Squirrel.harmless_so_far
                (Student.confidence (Student.self p) - Squirrel.DAMAGE) w).
  { apply SquirrelFacts.squirrel_run; [exact Hc|].
    unfold Squirrel.harmless_so_far, Squirrel.constructor. cbn.
    repeat split; try lia; discriminate. }
  destruct H as (H1 & H2 & _ & H4).
  unfold Squirrel.DAMAGE in *.
  split; [destruct (Squirrel.hasHitPlayer (Squirrel.self w)); lia|].
  split; [destruct (Squirrel.hasHitPlayer (Squirrel.self w)); lia|].
  split; [|apply SquirrelFacts.squirrel_stale_callback].
  intros Hr. destruct (Squirrel.hasHitPlayer (Squirrel.self w)).
  - rewrite (H4 eq_refl) in Hr. discriminate Hr.
  - split; lia.
Qed.

Lemma squirrel_hits_once_and_only_when_running_witness :
  let w := Squirrel.run Encounter.stage
             (Squirrel.constructor (emptyClock Squirrel.Callback) 850 555
                (Some Playground.born)) Encounter.squirrel_runs in
  Student.confidence (Student.self Playground.born) - Squirrel.DAMAGE
    <= Squirrel.playerConfidence w /\
  (Squirrel.hits w <= 1)%nat /\
  (Squirrel.isRunning (Squirrel.self w) = false ->
   Student.confidence (Student.self Playground.born) <= Squirrel.playerConfidence w /\
   Squirrel.hits w = 0%nat) /\
  (Squirrel.isDestroyed (Squirrel.self w) = true ->
   Squirrel.run_callback Encounter.stage Squirrel.CbRun w = Ok tt w).
Proof.
  apply (squirrel_hits_once_and_only_when_running Encounter.stage
           (emptyClock Squirrel.Callback) 850 555 Playground.born
           Encounter.squirrel_runs Squirrel.CbRun).
  vm_compute. reflexivity.
Defined.

(** X15.  A power-up heals exactly once.  Over any overlaps, completions of
    the collection tween, cleanups and timers and frames of the student, as
    long as nothing else hurts or heals the student, the student's confidence
    is what it was when the power-up appeared while [isCollected] is not set,
    and that plus [CONFIDENCE_BOOST], capped at MAX_CONFIDENCE, once it
    is. *)
Theorem power_up_heals_exactly_once :
  forall (xarg yarg : Z) (type : PowerUp.Kind) (p : Student.World)
         (evs : list PowerUp.Event),
    forallb PowerUp.calm evs = true ->
    let w := PowerUp.run (PowerUp.constructor xarg yarg type p) evs in
    Student.confidence (Student.self (PowerUp.player w))
    = (if PowerUp.isCollected (PowerUp.self w)
       then Z.min Student.MAX_CONFIDENCE
              (Student.confidence (Student.self p) + PowerUp.CONFIDENCE_BOOST)
       else Student.confidence (Student.self p)).
Proof.
  intros xarg yarg type p evs Hc w.
  apply (PowerUpFacts.powerup_run (Student.confidence (Student.self p)) evs
           (PowerUp.constructor xarg yarg type p) Hc).
  reflexivity.
Qed.

Lemma power_up_heals_exactly_once_witness :
  let w := PowerUp.run (PowerUp.constructor 900 520 PowerUp.chocolate Encounter.hurt)
             Encounter.snack in
  Student.confidence (Student.self (PowerUp.player w))
  = (if PowerUp.isCollected (PowerUp.self w)
     then Z.min Student.MAX_CONFIDENCE
            (Student.confidence (Student.self Encounter.hurt)
             + PowerUp.CONFIDENCE_BOOST)
     else Student.confidence (Student.self Encounter.hurt)).
Proof.
  apply (power_up_heals_exactly_once 900 520 PowerUp.chocolate Encounter.hurt
           Encounter.snack).
  vm_compute. reflexivity.
Defined.

(** X16.  Newspapers are culled in world coordinates.  [checkBounds] removes
    a newspaper whose x is beyond the width of the game plus 100, whatever
    the camera shows.  So when the camera has scrolled more than that width
    plus 120 and the old man, patrolling in view, throws at the player, the
    newspaper starts beyond the bound, and the 'update' that finds it
    anywhere beyond the bound destroys it without touching the student;
    after that no 'update' reaches it. *)
Theorem newspapers_are_culled_in_world_coordinates :
  forall (st : Stage) (e : Env) (px : Z) (w : OldMan.World) (p : Student.World)
         (xx yy xx' yy' : Z),
    OldMan.currentState (OldMan.self w) = OldMan.patrolling ->
    OldMan.scene (OldMan.self w) = true ->
    student e = Some px ->
    in_view (camera e) (OldMan.x (OldMan.self w)) = true ->
    configWidth st + 120 < scrollX (camera e) ->
    configWidth st + 100 < xx ->
    let w' := final (OldMan.tryToThrowNewspaper e w) in
    let n := Encounter.last_thrown w' in
    let paper := Newspaper.constructor st (OldMan.paperX n) (OldMan.paperY n)
                   (OldMan.targetX n) p in
    let paper' := Newspaper.step st paper (Newspaper.EvUpdate xx yy) in
    OldMan.spawned w' = OldMan.spawned w + 1 /\
    configWidth st + 100 < OldMan.paperX n /\
    Newspaper.isDestroyed (Newspaper.self paper') = true /\
    Newspaper.player paper' = p /\
    Newspaper.step st paper' (Newspaper.EvUpdate xx' yy') = paper'.
Proof.
  intros st e px w p xx yy xx' yy' Hst Hsc Hpl Hview Hcam Hxx w' n paper paper'.
  split; [apply (@OldManFacts.oldman_throw_never_refused e px w Hst Hsc Hpl)|].
  assert (Hn : configWidth st + 100 < OldMan.paperX n).
  { unfold n, w'. apply (OldManMore.oldman_throw_place e px w Hst Hsc Hpl).
    unfold in_view in Hview. apply andb_true_iff in Hview.
    destruct Hview as [Hl _]. apply Z.leb_le in Hl. lia. }
  split; [exact Hn|].
  destruct (NewspaperFacts.newspaper_cull st xx yy paper)
    as (Hd & Hl & Hs & Hp & _); try reflexivity.
  fold paper' in Hd, Hl, Hs, Hp.
  assert (Hout : (xx <? -100) || (xx >? configWidth st + 100)
                 || (yy >? configHeight st + 100) = true).
  { rewrite Z.gtb_ltb.
    destruct (Z.ltb_spec (configWidth st + 100) xx); [|lia].
    rewrite orb_true_r. reflexivity. }
  rewrite Hout in Hd, Hl, Hs. cbn in Hl, Hs.
  split; [exact Hd|]. split; [exact Hp|].
  apply NewspaperFacts.newspaper_gone; assumption.
Qed.

Lemma newspapers_are_culled_in_world_coordinates_witness :
  let st := Encounter.stage in
  let e := Encounter.down_the_road in
  let w' := final (OldMan.tryToThrowNewspaper e Encounter.old_man_in_view) in
  let n := Encounter.last_thrown w' in
  let paper := Newspaper.constructor st (OldMan.paperX n) (OldMan.paperY n)
                 (OldMan.targetX n) Playground.born in
  let paper' := Newspaper.step st paper (Newspaper.EvUpdate 1726 480) in
  OldMan.spawned w' = OldMan.spawned Encounter.old_man_in_view + 1 /\
  configWidth st + 100 < OldMan.paperX n /\
  Newspaper.isDestroyed (Newspaper.self paper') = true /\
  Newspaper.player paper' = Playground.born /\
  Newspaper.step st paper' (Newspaper.EvUpdate 1722 476) = paper'.
Proof.
  apply (newspapers_are_culled_in_world_coordinates Encounter.stage
           Encounter.down_the_road 1400 Encounter.old_man_in_view Playground.born
           1726 480 1722 476);
    vm_compute; reflexivity.
Defined.

(** X17.  A newspaper that reaches the student is used up by it.  The overlap
    calls [takeDamage(DAMAGE)] on the student, who loses at most 10 and
    nothing at all while stumbling, and in either case the newspaper is
    destroyed and its listener removed, so that no 'update' reaches it any
    more. *)
Theorem newspaper_hit_uses_it_up :
  forall (st : Stage) (xarg yarg targetX : Z) (p : Student.World) (xx yy : Z),
    let paper := Newspaper.constructor st xarg yarg targetX p in
    let paper' := Newspaper.step st paper Newspaper.EvOverlap in
    Newspaper.player paper' = final (Student.takeDamage Newspaper.DAMAGE p) /\
    Student.confidence (Student.self p) - Newspaper.DAMAGE
      <= Student.confidence (Student.self (Newspaper.player paper')) /\
    (if Student.isStumbling (Student.self p)
     then Newspaper.player paper' = p else True) /\
    Newspaper.isDestroyed (Newspaper.self paper') = true /\
    Newspaper.step st paper' (Newspaper.EvUpdate xx yy) = paper'.
Proof.
  intros st xarg yarg targetX p xx yy paper paper'.
  destruct (NewspaperFacts.newspaper_hit st paper) as (Hp & Hd & Hl & Hs & _);
    [reflexivity|].
  fold paper' in Hp, Hd, Hl, Hs. cbn [Newspaper.player Newspaper.constructor] in Hp.
  split; [exact Hp|]. split.
  - rewrite Hp. apply StudentFacts.takeDamage_bound. unfold Newspaper.DAMAGE. lia.
  - split.
    + destruct (Student.isStumbling (Student.self p)) eqn:E; [|exact I].
      rewrite Hp, (StudentFacts.takeDamage_blocked _ p E). reflexivity.
    + split; [exact Hd|]. apply NewspaperFacts.newspaper_gone; assumption.
Qed.

(** X18.  A candy bar heals exactly once, and its bounds check outlives it.
    Over any timers, moves, overlaps and cleanups of a candy bar made in an
    empty clock, as long as nothing else hurts or heals the student, the
    student's confidence is what it was while [isCollected] is not set and
    that plus [CONFIDENCE_BOOST], capped at MAX_CONFIDENCE, once it is.  The
    looping event of [setupCleanup] is never removed: it is still in the
    clock after the candy bar is collected or cleaned up, and from then on
    its callback changes nothing. *)
Theorem candy_bar_heals_once_and_keeps_its_timer :
  forall (st : Stage) (e : Env) (xarg yarg : Z) (p : Student.World)
         (evs : list FallingCandyBar.Event),
    forallb FallingCandyBar.calm evs = true ->
    let w := FallingCandyBar.run
               (FallingCandyBar.constructor st e
                  (emptyClock FallingCandyBar.Callback) xarg yarg p) evs in
    Student.confidence (Student.self (FallingCandyBar.player w))
    = (if FallingCandyBar.isCollected (FallingCandyBar.self w)
       then Z.min Student.MAX_CONFIDENCE
              (Student.confidence (Student.self p)
               + FallingCandyBar.CONFIDENCE_BOOST)
       else Student.confidence (Student.self p)) /\
    (exists t, lookup 0 (FallingCandyBar.time w) = Some t /\
               loop t = true /\ callback t = FallingCandyBar.CbBounds) /\
    (FallingCandyBar.isDestroyed (FallingCandyBar.self w) = true ->
     FallingCandyBar.run_callback FallingCandyBar.CbBounds w = Ok tt w).
Proof.
  intros st e xarg yarg p evs Hc w.
  destruct (CandyBarFacts.candy_run (Student.confidence (Student.self p)) evs
              (FallingCandyBar.constructor st e
                 (emptyClock FallingCandyBar.Callback) xarg yarg p) Hc)
    as [Ha Hh].
  { split; [apply CandyBarFacts.armed_constructor|reflexivity]. }
  fold w in Ha, Hh. split; [exact Hh|]. split.
  - apply CandyBarFacts.armed_lookup, Ha.
  - apply CandyBarFacts.candy_stale_callback.
Qed.

Lemma candy_bar_heals_once_and_keeps_its_timer_witness :
  let w := FallingCandyBar.run Encounter.candy_bar Encounter.candy_caught in
  Student.confidence (Student.self (FallingCandyBar.player w))
  = (if FallingCandyBar.isCollected (FallingCandyBar.self w)
     then Z.min Student.MAX_CONFIDENCE
            (Student.confidence (Student.self Encounter.hurt)
             + FallingCandyBar.CONFIDENCE_BOOST)
     else Student.confidence (Student.self Encounter.hurt)) /\
  (exists t, lookup 0 (FallingCandyBar.time w) = Some t /\
             loop t = true /\ callback t = FallingCandyBar.CbBounds) /\
  (FallingCandyBar.isDestroyed (FallingCandyBar.self w) = true ->
   FallingCandyBar.run_callback FallingCandyBar.CbBounds w = Ok tt w).
Proof.
  apply (candy_bar_heals_once_and_keeps_its_timer Encounter.stage Scenario.still
           400 (-50) Encounter.hurt Encounter.candy_caught).
  vm_compute. reflexivity.
Defined.

(** X19.  A power-up that [spawnPowerUp] has made is never cleaned up for
    being off screen.  It is made at an x between 850 and 950, and neither
    the manager nor the power-up moves it; so, as long as [forceSpawn] is not
    used, every power-up of the scene is there, and the filter of
    [cleanupOffScreen] never calls [cleanup]: it leaves the scene as it is
    and only forgets the references to power-ups that are destroyed. *)
Theorem spawned_power_ups_are_never_off_screen :
  forall (st : Stage) (p : Student.World) (evs : list PowerUpManager.Event),
    forallb PowerUpManager.unforced evs = true ->
    let w := PowerUpManager.run st (PowerUpManager.constructor p) evs in
    forallb PowerUpManager.at_spawn_place (PowerUpManager.made w) = true /\
    PowerUpManager.keepOnScreen (PowerUpManager.powerUps (PowerUpManager.self w)) w
    = Ok (filter (PowerUpManager.live w)
            (PowerUpManager.powerUps (PowerUpManager.self w))) w.
Proof.
  intros st p evs Hu w.
  assert (Hp : forallb PowerUpManager.at_spawn_place (PowerUpManager.made w) = true).
  { apply ManagerFacts.placed_run; [exact Hu|reflexivity]. }
  split; [exact Hp|]. apply ManagerFacts.keep_all_placed, Hp.
Qed.

Lemma spawned_power_ups_are_never_off_screen_witness :
  let w := PowerUpManager.run Encounter.stage
             (PowerUpManager.constructor Encounter.hurt) Encounter.walk in
  forallb PowerUpManager.at_spawn_place (PowerUpManager.made w) = true /\
  PowerUpManager.keepOnScreen (PowerUpManager.powerUps (PowerUpManager.self w)) w
  = Ok (filter (PowerUpManager.live w)
          (PowerUpManager.powerUps (PowerUpManager.self w))) w.
Proof.
  apply (spawned_power_ups_are_never_off_screen Encounter.stage Encounter.hurt
           Encounter.walk).
  vm_compute. reflexivity.
Defined.

(** X20.  Power-ups are a spawn interval apart.  Whatever is done to the
    manager and to its power-ups, the regular spawns of [update] each take
    SPAWN_INTERVAL (600) pixels of distance: the number of power-ups made is
    at most [lastSpawnDistance / 600] plus the number of calls of
    [scheduleBonusSpawn] and [forceSpawn]. *)
Theorem power_ups_are_a_spawn_interval_apart :
  forall (st : Stage) (p : Student.World) (evs : list PowerUpManager.Event),
    let w := PowerUpManager.run st (PowerUpManager.constructor p) evs in
    PowerUpManager.SPAWN_INTERVAL * Z.of_nat (length (PowerUpManager.made w))
    <= PowerUpManager.lastSpawnDistance (PowerUpManager.self w)
       + PowerUpManager.SPAWN_INTERVAL * Z.of_nat (PowerUpManager.extras evs).
Proof.
  intros st p evs w.
  pose proof (ManagerFacts.spaced_run st evs 0 (PowerUpManager.constructor p)) as H.
    unfold PowerUpManager.spaced in H. fold w in H. cbn [Nat.add] in H.
    assert (H0 : PowerUpManager.SPAWN_INTERVAL * Z.of_nat 0
                 + (if PowerUpManager.bonusSpawnPending
                         (PowerUpManager.self (PowerUpManager.constructor p))
                    then PowerUpManager.SPAWN_INTERVAL else 0)
                 <= PowerUpManager.lastSpawnDistance
                      (PowerUpManager.self (PowerUpManager.constructor p))
                    + PowerUpManager.SPAWN_INTERVAL * Z.of_nat 0)
      by (cbn; lia).
    specialize (H H0). unfold PowerUpManager.SPAWN_INTERVAL in *.
    destruct (PowerUpManager.bonusSpawnPending (PowerUpManager.self w)); lia.
Qed.

(** X21.  The school is active exactly in its zone, and there are two
    schools.  After any events, [currentZoneNumber] is 0, 1 or 2, and a call
    of [checkZone(distance)] leaves [isActive] set exactly when the next
    school starts before the library (LIBRARY_DISTANCE, 15000) and
    [distance] is within ZONE_LENGTH after its start.  The call counts the
    school as left exactly when it was active and [distance] is outside it:
    then [isCreated] is cleared, the power-up manager (if the scene has one)
    has a bonus pending, and the clean-up of the bullies is in the clock;
    otherwise [currentZoneNumber] stays.  [checkZone] never touches a
    bully. *)
Theorem school_is_active_exactly_in_its_zone :
  forall (m : option PowerUpManager.World) (evs : list DottieBaconSchool.Event)
         (d : Z),
    let w := DottieBaconSchool.run
               (DottieBaconSchool.constructor
                  (emptyClock DottieBaconSchool.Callback) m) evs in
    let n := DottieBaconSchool.currentZoneNumber (DottieBaconSchool.self w) in
    let leaves := DottieBaconSchool.isActive (DottieBaconSchool.self w)
                  && negb (DottieBaconSchool.inSchool n d) in
    let w' := DottieBaconSchool.step w (DottieBaconSchool.EvCheckZone d) in
    0 <= n <= 2 /\
    DottieBaconSchool.isActive (DottieBaconSchool.self w')
    = DottieBaconSchool.inSchool n d /\
    DottieBaconSchool.currentZoneNumber (DottieBaconSchool.self w')
    = (if leaves then n + 1 else n) /\
    (leaves = true ->
     DottieBaconSchool.isCreated (DottieBaconSchool.self w') = false /\
     option_map
       (fun pm => PowerUpManager.bonusSpawnPending (PowerUpManager.self pm))
       (DottieBaconSchool.powerUpManager w')
     = option_map (fun _ => true) (DottieBaconSchool.powerUpManager w) /\
     option_map (@callback DottieBaconSchool.Callback)
       (lookup (next_id (DottieBaconSchool.time w)) (DottieBaconSchool.time w'))
     = Some DottieBaconSchool.CbCleanupBullies) /\
    DottieBaconSchool.made w' = DottieBaconSchool.made w /\
    DottieBaconSchool.uncaught w' = DottieBaconSchool.uncaught w.
Proof.
  intros m evs d w n leaves w'.
  destruct (SchoolFacts.zone_sound_run evs
              (DottieBaconSchool.constructor
                 (emptyClock DottieBaconSchool.Callback) m)) as [Hz Ht].
  { unfold DottieBaconSchool.zone_sound. cbn. repeat split; try lia; discriminate. }
  { apply tidy_empty. }
  fold w in Hz, Ht.
  destruct (SchoolFacts.checkZone_spec d w Hz)
    as (Hth & _ & Ha & Hn & Hl & Hm & _ & Hu & _).
  destruct (SchoolFacts.settle_fields (DottieBaconSchool.checkZone d w))
    as (Hs & Hti & Hmm & Hpm & Hun).
  unfold w'. cbn [DottieBaconSchool.step]. rewrite Hs, Hti, Hmm, Hpm, (Hun Hth).
  split; [apply Hz|]. split; [exact Ha|]. split; [exact Hn|].
  split; [|split; assumption].
  intros Hlv. destruct (Hl Hlv) as (H1 & H2 & H3).
  split; [exact H1|]. split; [exact H2|exact (H3 Ht)].
Qed.

(** X22.  The school cleans up its bullies.  As long as nobody else calls
    [cleanup()] on a bully of the zone, the zone's list names each bully
    once and every bully in it is in the scene, so no call of the zone lets
    an exception escape; [cleanup()] and the delayed closure of
    [fadeOutAndCleanup] each destroy every bully of the list, take it out of
    the scene, and leave the list empty. *)
Theorem school_cleans_up_its_bullies :
  forall (m : option PowerUpManager.World) (evs : list DottieBaconSchool.Event),
    forallb DottieBaconSchool.hands_off evs = true ->
    let w := DottieBaconSchool.run
               (DottieBaconSchool.constructor
                  (emptyClock DottieBaconSchool.Callback) m) evs in
    let listed := DottieBaconSchool.bullies (DottieBaconSchool.self w) in
    DottieBaconSchool.uncaught w = 0%nat /\
    NoDup listed /\
    forallb (DottieBaconSchool.alive w) listed = true /\
    (let w' := DottieBaconSchool.step w DottieBaconSchool.EvCleanup in
     DottieBaconSchool.uncaught w' = 0%nat /\
     DottieBaconSchool.bullies (DottieBaconSchool.self w') = [] /\
     DottieBaconSchool.isCreated (DottieBaconSchool.self w') = false /\
     DottieBaconSchool.isActive (DottieBaconSchool.self w') = false /\
     forallb (DottieBaconSchool.cleaned w') listed = true) /\
    (forall (h : nat) (e : Env) (t : TimerEvent DottieBaconSchool.Callback),
       lookup h (DottieBaconSchool.time w) = Some t ->
       callback t = DottieBaconSchool.CbCleanupBullies ->
       let w' := DottieBaconSchool.step w (DottieBaconSchool.EvTimer h e) in
       DottieBaconSchool.uncaught w' = 0%nat /\
       DottieBaconSchool.bullies (DottieBaconSchool.self w') = [] /\
       forallb (DottieBaconSchool.cleaned w') listed = true).
Proof.
  intros m evs Hev w listed.
  destruct (SchoolFacts.tended_run evs
              (DottieBaconSchool.constructor
                 (emptyClock DottieBaconSchool.Callback) m) Hev) as [Hw Hu].
  { unfold DottieBaconSchool.zone_sound. cbn. repeat split; try lia; discriminate. }
  { apply tidy_empty. }
  { split; [constructor|reflexivity]. }
  fold w in Hw, Hu. cbn [DottieBaconSchool.uncaught DottieBaconSchool.constructor] in Hu.
  split; [exact Hu|]. split; [apply Hw|]. split; [apply Hw|]. split.
  - destruct (SchoolFacts.cleanup_spec w Hw) as (Hth & Hs & _ & Hun & Hc).
    destruct (SchoolFacts.settle_fields (DottieBaconSchool.cleanup w))
      as (Hss & _ & Hmm & _ & Huu).
    cbn [DottieBaconSchool.step].
    rewrite (Huu Hth), Hun, Hss, Hs. repeat split; try assumption.
    rewrite (SchoolFacts.cleaned_all_same _ _ listed Hmm). exact Hc.
  - intros h e t Hl Hcb. cbn [DottieBaconSchool.step]. rewrite Hl, Hcb.
    cbn [DottieBaconSchool.run_callback].
    set (w1 := DottieBaconSchool.set_time (dispatch t (DottieBaconSchool.time w)) w).
    assert (Hw1 : DottieBaconSchool.tended w1)
      by (apply (SchoolFacts.tended_same w); [reflexivity|reflexivity|exact Hw]).
    destruct (SchoolFacts.cleanupBullies_spec w1 Hw1) as (Hth & Hs & _ & Hun & Hc).
    destruct (SchoolFacts.settle_fields (DottieBaconSchool.cleanupBullies w1))
      as (Hss & _ & Hmm & _ & Huu).
    rewrite (Huu Hth), Hun, Hss, Hs. repeat split; try assumption.
    rewrite (SchoolFacts.cleaned_all_same _ _ listed Hmm). exact Hc.
Qed.

Lemma school_cleans_up_its_bullies_witness :
  let w := DottieBaconSchool.run
             (DottieBaconSchool.constructor
                (emptyClock DottieBaconSchool.Callback)
                (Some (PowerUpManager.constructor Encounter.hurt)))
             Encounter.school_day in
  let listed := DottieBaconSchool.bullies (DottieBaconSchool.self w) in
  DottieBaconSchool.uncaught w = 0%nat /\
  NoDup listed /\
  forallb (DottieBaconSchool.alive w) listed = true /\
  (let w' := DottieBaconSchool.step w DottieBaconSchool.EvCleanup in
   DottieBaconSchool.uncaught w' = 0%nat /\
   DottieBaconSchool.bullies (DottieBaconSchool.self w') = [] /\
   DottieBaconSchool.isCreated (DottieBaconSchool.self w') = false /\
   DottieBaconSchool.isActive (DottieBaconSchool.self w') = false /\
   forallb (DottieBaconSchool.cleaned w') listed = true) /\
  (forall (h : nat) (e : Env) (t : TimerEvent DottieBaconSchool.Callback),
     lookup h (DottieBaconSchool.time w) = Some t ->
     callback t = DottieBaconSchool.CbCleanupBullies ->
     let w' := DottieBaconSchool.step w (DottieBaconSchool.EvTimer h e) in
     DottieBaconSchool.uncaught w' = 0%nat /\
     DottieBaconSchool.bullies (DottieBaconSchool.self w') = [] /\
     forallb (DottieBaconSchool.cleaned w') listed = true).
Proof.
  apply (school_cleans_up_its_bullies
           (Some (PowerUpManager.constructor Encounter.hurt)) Encounter.school_day).
  vm_compute. reflexivity.
Defined.
